(** * telegram_bot.py: the reminder scheduler and its persisted state

    A shallow embedding of [src/telegram_bot.py].  The bot keeps one
    module-level dictionary [state] (loaded from and saved to the JSON
    file [state.json]), an APScheduler job store, and a set of command
    handlers.  The embedding follows the source function by function:

    - text helpers: the parts of Python's [str], [int] and f-string
      formatting that the handlers use;
    - [Json]: the values [json.load] returns and [json.dump] accepts,
      the encoder as called by [save_state] ([ensure_ascii=False],
      [indent=2]) and the decoder;
    - [DateTime]: naive [datetime] values, [replace], [timedelta]
      arithmetic, [isoformat] and [fromisoformat];
    - the bot: the world (state, file, scheduler, chat, log), the
      handlers, and the events that drive them;
    - the vocabulary of the properties, and then the properties: facts
      about text and JSON, about time, about each handler, and about
      every world a running bot can reach.

    Conventions.  A Python [str] is the [string] of its UTF-8 bytes.
    Python floats appear only in [time_since_hours]; they are modelled
    by exact rationals extended with [+inf], which is exact for the
    thresholds the properties speak of (see [hours]).  Exceptions are
    modelled by [option] ([None] = an exception was raised). *)

From Stdlib Require Import ZArith NArith QArith List String Ascii Bool Lia.
From Stdlib Require Import DecimalString DecimalN DecimalFacts.
Import ListNotations.

Open Scope string_scope.
Open Scope Z_scope.

(* ================================================================== *)
(** ** Text helpers *)

Module Text.

Definition ord (c : ascii) : N := N_of_ascii c.
Definition chr (n : N) : ascii := ascii_of_N n.

(** The characters that cannot be written inside a literal. *)
Definition dquote : ascii := chr 34.
Definition newline : ascii := chr 10.

Definition is_digit (c : ascii) : bool :=
  ((48 <=? ord c) && (ord c <=? 57))%N.

(** ASCII white space as [str.strip] and [int] see it. *)
Definition is_space (c : ascii) : bool :=
  ((ord c =? 32) || ((9 <=? ord c) && (ord c <=? 13)))%N.

Fixpoint span (p : ascii -> bool) (s : string) : string * string :=
  match s with
  | String c r =>
      if p c then let (a, b) := span p r in (String c a, b) else ("", s)
  | "" => ("", "")
  end.

Fixpoint drop_while (p : ascii -> bool) (s : string) : string :=
  match s with
  | String c r => if p c then drop_while p r else s
  | "" => ""
  end.

(** Whether the first character of a text, if any, satisfies [p]. *)
Definition head_is (p : ascii -> bool) (s : string) : bool :=
  match s with
  | String c _ => p c
  | "" => false
  end.

Definition tail (s : string) : string :=
  match s with
  | String _ r => r
  | "" => ""
  end.

Fixpoint all_chars (p : ascii -> bool) (s : string) : bool :=
  match s with
  | String c r => p c && all_chars p r
  | "" => true
  end.

Fixpoint rev_acc (s acc : string) : string :=
  match s with
  | String c r => rev_acc r (String c acc)
  | "" => acc
  end.

Definition rev (s : string) : string := rev_acc s "".

(** [s.strip()] restricted to ASCII white space. *)
Definition strip (s : string) : string :=
  rev (drop_while is_space (rev (drop_while is_space s))).

(** [str(n)] for a natural number and for an integer. *)
Definition str_N (n : N) : string := NilZero.string_of_uint (N.to_uint n).

Definition str_Z (z : Z) : string :=
  if z <? 0 then String "-" (str_N (Z.abs_N z)) else str_N (Z.to_N z).

(** The value of a non-empty string of ASCII digits. *)
Definition N_of_digits (ds : string) : option N :=
  match ds with
  | "" => None
  | _ => option_map N.of_uint (NilEmpty.uint_of_string ds)
  end.

(** ["%0<w>d" % n] for a natural number. *)
Fixpoint zeros (k : nat) : string :=
  match k with O => "" | S k' => String "0" (zeros k') end.

Definition pad0 (w : nat) (n : N) : string :=
  let s := str_N n in zeros (w - String.length s) ++ s.

(** [sep.join(parts)]. *)
Fixpoint join (sep : string) (parts : list string) : string :=
  match parts with
  | [] => ""
  | [x] => x
  | x :: rest => x ++ sep ++ join sep rest
  end.

(** [s.split(sep)] for a one-character separator. *)
Fixpoint split_on (sep : ascii) (s : string) : list string :=
  match s with
  | "" => [""]
  | String c r =>
      if Ascii.eqb c sep then "" :: split_on sep r
      else match split_on sep r with
           | x :: xs => String c x :: xs
           | [] => [String c ""]
           end
  end.

(** Underscores in an [int] literal: single, between digits. *)
Fixpoint digits_us (s : string) : option string :=
  match s with
  | "" => None
  | String c r =>
      if is_digit c then
        match r with
        | "" => Some (String c "")
        | String c' r' =>
            if Ascii.eqb c' "_" then option_map (String c) (digits_us r')
            else option_map (String c) (digits_us r)
        end
      else None
  end.

(** [int(s)] in base ten on ASCII text: surrounding white space, an
    optional sign, digits with single underscores between them.
    [None] stands for [ValueError].  Python also reads the decimal
    digits of other scripts (full-width digits, for one) and strips
    their white space; for a text with a non-ASCII character [py_int]
    gives [None] where [int] may give a number, so what is said of a
    text that is rejected is said of ASCII texts ([ascii_text]).  A
    number [py_int] gives is the number [int] gives (up to the 4300
    digits [int] reads). *)
Definition py_int (s : string) : option Z :=
  let body (t : string) : option N :=
    match digits_us t with
    | Some ds => N_of_digits ds
    | None => None
    end in
  match strip s with
  | String "-" t => option_map (fun n => - Z.of_N n) (body t)
  | String "+" t => option_map Z.of_N (body t)
  | t => option_map Z.of_N (body t)
  end.

(** [len(s)]: the number of code points of a UTF-8 text, that is the
    number of bytes that are not continuation bytes. *)
Fixpoint py_strlen (s : string) : Z :=
  match s with
  | "" => 0
  | String c r =>
      (if ((128 <=? ord c) && (ord c <? 192))%N then 0 else 1) + py_strlen r
  end.

End Text.

Import Text.


(* ================================================================== *)
(** ** JSON values, [json.dump] and [json.load] *)

Module Json.

(** What [json.load] builds: [None], [bool], [int], [str], [list] and
    [dict].  A [dict] keeps its keys in insertion order, so it is an
    association list; [wf] below says that its keys are distinct.
    (Python floats are not part of the model; the bot never stores one.) *)
#[local] Set Warnings "-register-all".

Inductive json : Type :=
| JNull
| JBool (b : bool)
| JInt (z : Z)
| JStr (s : string)
| JArr (l : list json)
| JObj (m : list (string * json)).

Definition pydict := list (string * json).

(** [d.get(k)], with Python's [None] for a missing key. *)
Fixpoint dict_find (k : string) (d : pydict) : option json :=
  match d with
  | [] => None
  | (k', v) :: d' => if String.eqb k k' then Some v else dict_find k d'
  end.

Definition dict_get (k : string) (d : pydict) : json :=
  match dict_find k d with Some v => v | None => JNull end.

(** [d.get(k, dflt)]. *)
Definition dict_get_or (k : string) (dflt : json) (d : pydict) : json :=
  match dict_find k d with Some v => v | None => dflt end.

(** [d[k] = v]: an existing key keeps its place, a new one goes last. *)
Fixpoint dict_set (k : string) (v : json) (d : pydict) : pydict :=
  match d with
  | [] => [(k, v)]
  | (k', v') :: d' =>
      if String.eqb k k' then (k', v) :: d' else (k', v') :: dict_set k v d'
  end.

(** [dict(pairs)]. *)
Definition dict_of_pairs (pairs : list (string * json)) : pydict :=
  fold_left (fun d kv => dict_set (fst kv) (snd kv) d) pairs [].

(** *** Encoder: [json.dump(obj, f, ensure_ascii=False, indent=2)]

    The encoder is total here.  The real one raises for an integer of
    more than 4300 digits (Python 3.11 and later) and for nesting near
    the recursion limit, leaving a truncated file; nothing a Telegram
    update can put into the state is that large or that deep, and the
    one property about arbitrary documents excludes such values
    ([storable]). *)

Definition hex_digit (n : N) : ascii :=
  (if n <? 10 then chr (48 + n) else chr (87 + n))%N.

(** [ESCAPE_DCT] of [json.encoder], applied by [py_encode_basestring]. *)
Definition escape_char (c : ascii) : string :=
  let n := ord c in
  (if n =? 34 then String "\" (String dquote "")
   else if n =? 92 then "\\"
   else if n =? 10 then "\n"
   else if n =? 13 then "\r"
   else if n =? 9 then "\t"
   else if n =? 8 then "\b"
   else if n =? 12 then "\f"
   else if n <? 32 then
     "\u00" ++ String (hex_digit (n / 16)) (String (hex_digit (n mod 16)) "")
   else String c "")%N.

Fixpoint escape_body (s : string) : string :=
  match s with
  | "" => ""
  | String c r => escape_char c ++ escape_body r
  end.

Definition encode_basestring (s : string) : string :=
  String dquote (escape_body s ++ String dquote "").

Fixpoint spaces (k : nat) : string :=
  match k with O => "" | S k' => String " " (spaces k') end.

(** ['\n' + indent * level] with [indent = 2]. *)
Definition newline_indent (level : nat) : string :=
  String newline (spaces (2 * level)).

(** [_iterencode] at nesting depth [level]; the item separator is [","]
    and the key separator [": "], as [json.dump] sets them when an
    indent is given. *)
Fixpoint iterencode (level : nat) (v : json) : string :=
  match v with
  | JNull => "null"
  | JBool true => "true"
  | JBool false => "false"
  | JInt z => str_Z z
  | JStr s => encode_basestring s
  | JArr [] => "[]"
  | JArr (x :: xs) =>
      "[" ++ newline_indent (S level) ++ iterencode (S level) x
      ++ (fix items (l : list json) : string :=
            match l with
            | [] => ""
            | y :: ys =>
                "," ++ newline_indent (S level) ++ iterencode (S level) y
                ++ items ys
            end) xs
      ++ newline_indent level ++ "]"
  | JObj [] => "{}"
  | JObj ((k, x) :: kxs) =>
      "{" ++ newline_indent (S level)
      ++ encode_basestring k ++ ": " ++ iterencode (S level) x
      ++ (fix members (l : list (string * json)) : string :=
            match l with
            | [] => ""
            | (k', y) :: l' =>
                "," ++ newline_indent (S level)
                ++ encode_basestring k' ++ ": " ++ iterencode (S level) y
                ++ members l'
            end) kxs
      ++ newline_indent level ++ "}"
  end.

Definition dumps (v : json) : string := iterencode 0 v.

(** *** Decoder: [json.load(f)] *)

(** [WHITESPACE] of [json.decoder]. *)
Definition is_ws (c : ascii) : bool :=
  ((ord c =? 32) || (ord c =? 9) || (ord c =? 10) || (ord c =? 13))%N.

Definition skip_ws (s : string) : string := drop_while is_ws s.

Definition hex_val (c : ascii) : option N :=
  let n := ord c in
  (if (48 <=? n) && (n <=? 57) then Some (n - 48)
   else if (97 <=? n) && (n <=? 102) then Some (n - 87)
   else if (65 <=? n) && (n <=? 70) then Some (n - 55)
   else None)%N.

(** [BACKSLASH] of [json.decoder]: the one-letter escapes. *)
Definition unescape (c : ascii) : option ascii :=
  let n := ord c in
  (if n =? 34 then Some dquote
   else if n =? 92 then Some "\"%char
   else if n =? 47 then Some "/"%char
   else if n =? 98 then Some (chr 8)
   else if n =? 102 then Some (chr 12)
   else if n =? 110 then Some (chr 10)
   else if n =? 114 then Some (chr 13)
   else if n =? 116 then Some (chr 9)
   else None)%N.

(** The UTF-8 bytes of a code point. *)
Definition utf8 (cp : N) : string :=
  (if cp <? 128 then String (chr cp) ""
   else if cp <? 2048 then
     String (chr (192 + cp / 64)) (String (chr (128 + cp mod 64)) "")
   else if cp <? 65536 then
     String (chr (224 + cp / 4096))
       (String (chr (128 + (cp / 64) mod 64))
          (String (chr (128 + cp mod 64)) ""))
   else
     String (chr (240 + cp / 262144))
       (String (chr (128 + (cp / 4096) mod 64))
          (String (chr (128 + (cp / 64) mod 64))
             (String (chr (128 + cp mod 64)) ""))))%N.

Definition is_high_surrogate (cp : N) : bool :=
  ((55296 <=? cp) && (cp <=? 56319))%N.
Definition is_low_surrogate (cp : N) : bool :=
  ((56320 <=? cp) && (cp <=? 57343))%N.

(** Where [scanstring] stands inside a string literal. *)
Inductive mode : Type :=
| Plain
| Esc
| Hex (missing : nat) (acc : N)
| LowEsc (hi : N)
| LowU (hi : N)
| LowHex (hi : N) (missing : nat) (acc : N).

Definition prepend (p : string) (r : option (string * string))
  : option (string * string) :=
  match r with
  | Some (body, rest) => Some (p ++ body, rest)
  | None => None
  end.

(** [scanstring(s, end, strict=True)], started after the opening quote:
    the decoded text and what follows the closing quote.  A surrogate
    that is not half of a pair has no UTF-8 form and is refused. *)
Fixpoint scanstring_from (m : mode) (s : string) : option (string * string) :=
  match s with
  | "" => None
  | String c r =>
      match m with
      | Plain =>
          (if ord c =? 34 then Some ("", r)
           else if ord c =? 92 then scanstring_from Esc r
           else if ord c <? 32 then None
           else prepend (String c "") (scanstring_from Plain r))%N
      | Esc =>
          if (ord c =? 117)%N then scanstring_from (Hex 4 0) r
          else match unescape c with
               | Some ch => prepend (String ch "") (scanstring_from Plain r)
               | None => None
               end
      | Hex k acc =>
          match hex_val c, k with
          | Some h, 1%nat =>
              let cp := (acc * 16 + h)%N in
              if is_high_surrogate cp then scanstring_from (LowEsc cp) r
              else if is_low_surrogate cp then None
              else prepend (utf8 cp) (scanstring_from Plain r)
          | Some h, S k' => scanstring_from (Hex k' (acc * 16 + h)) r
          | _, _ => None
          end
      | LowEsc hi =>
          if (ord c =? 92)%N then scanstring_from (LowU hi) r else None
      | LowU hi =>
          if (ord c =? 117)%N then scanstring_from (LowHex hi 4 0) r else None
      | LowHex hi k acc =>
          match hex_val c, k with
          | Some h, 1%nat =>
              let lo := (acc * 16 + h)%N in
              if is_low_surrogate lo then
                prepend
                  (utf8 (65536 + (hi - 55296) * 1024 + (lo - 56320))%N)
                  (scanstring_from Plain r)
              else None
          | Some h, S k' => scanstring_from (LowHex hi k' (acc * 16 + h)) r
          | _, _ => None
          end
      end
  end.

Definition scanstring (s : string) : option (string * string) :=
  scanstring_from Plain s.

(** [s] without the prefix [p], when it has it. *)
Fixpoint after (p s : string) : option string :=
  match p, s with
  | "", _ => Some s
  | String a p', String b s' => if Ascii.eqb a b then after p' s' else None
  | _, "" => None
  end.

(** [NUMBER_RE] restricted to integers: a number with a fraction or an
    exponent would be a float and is refused, and so is a digit after a
    leading zero, which no JSON text may continue with. *)
Definition leading_zero (ds : string) : bool :=
  match ds with
  | String c (String _ _) => (ord c =? 48)%N
  | _ => false
  end.

Definition float_mark (c : ascii) : bool :=
  ((ord c =? 46) || (ord c =? 101) || (ord c =? 69))%N.

Definition match_number (s : string) : option (json * string) :=
  let '(neg, s1) :=
    match s with
    | String c r => if (ord c =? 45)%N then (true, r) else (false, s)
    | "" => (false, s)
    end in
  let '(ds, rest) := span is_digit s1 in
  if leading_zero ds || head_is float_mark rest then None
  else match N_of_digits ds with
       | Some n => Some (JInt (if neg then - Z.of_N n else Z.of_N n), rest)
       | None => None
       end.

(** [scan_once], [JSONArray] and [JSONObject].  The three call each
    other; [fuel] bounds the nesting of calls and [loads] supplies more
    than any text can use.  ([NaN], [Infinity] and [-Infinity] are
    floats and are refused like any other.) *)
Fixpoint scan_once (fuel : nat) (s : string) : option (json * string) :=
  match fuel with
  | O => None
  | S f =>
      match s with
      | "" => None
      | String c r =>
          (if ord c =? 34 then
             match scanstring r with
             | Some (str, rest) => Some (JStr str, rest)
             | None => None
             end
           else if ord c =? 123 then
             match skip_ws r with
             | String c' r' =>
                 if ord c' =? 125 then Some (JObj [], r')
                 else if ord c' =? 34 then
                   match object_members f r' with
                   | Some (pairs, rest) => Some (JObj (dict_of_pairs pairs), rest)
                   | None => None
                   end
                 else None
             | "" => None
             end
           else if ord c =? 91 then
             if head_is (fun c' => ord c' =? 93) (skip_ws r)
             then Some (JArr [], tail (skip_ws r))
             else match array_items f (skip_ws r) with
                  | Some (vs, rest) => Some (JArr vs, rest)
                  | None => None
                  end
           else
             match after "null" s, after "true" s, after "false" s with
             | Some rest, _, _ => Some (JNull, rest)
             | _, Some rest, _ => Some (JBool true, rest)
             | _, _, Some rest => Some (JBool false, rest)
             | _, _, _ => match_number s
             end)%N
      end
  end

with array_items (fuel : nat) (s : string) : option (list json * string) :=
  match fuel with
  | O => None
  | S f =>
      match scan_once f s with
      | Some (v, r) =>
          match skip_ws r with
          | String c rest =>
              (if ord c =? 93 then Some ([v], rest)
               else if ord c =? 44 then
                 match array_items f (skip_ws rest) with
                 | Some (vs, rest') => Some (v :: vs, rest')
                 | None => None
                 end
               else None)%N
          | "" => None
          end
      | None => None
      end
  end

with object_members (fuel : nat) (s : string)
  : option (list (string * json) * string) :=
  match fuel with
  | O => None
  | S f =>
      match scanstring s with
      | Some (key, r) =>
          match skip_ws r with
          | String c r1 =>
              if (ord c =? 58)%N then
                match scan_once f (skip_ws r1) with
                | Some (v, r2) =>
                    match skip_ws r2 with
                    | String c2 rest =>
                        (if ord c2 =? 125 then Some ([(key, v)], rest)
                         else if ord c2 =? 44 then
                           match skip_ws rest with
                           | String c3 r3 =>
                               if ord c3 =? 34 then
                                 match object_members f r3 with
                                 | Some (kvs, rest') =>
                                     Some ((key, v) :: kvs, rest')
                                 | None => None
                                 end
                               else None
                           | "" => None
                           end
                         else None)%N
                    | "" => None
                    end
                | None => None
                end
              else None
          | "" => None
          end
      | None => None
      end
  end.

(** [json.loads]: one value between optional white space, nothing
    after it.  [None] stands for [JSONDecodeError]. *)
Definition loads (s : string) : option json :=
  match scan_once (S (String.length s)) (skip_ws s) with
  | Some (v, rest) =>
      match skip_ws rest with
      | "" => Some v
      | _ => None
      end
  | None => None
  end.

(** Keys of every dictionary in the value are distinct, as they are in
    any Python [dict]. *)
Fixpoint distinct (ks : list string) : bool :=
  match ks with
  | [] => true
  | k :: ks' => negb (existsb (String.eqb k) ks') && distinct ks'
  end.

Fixpoint wf (v : json) : bool :=
  match v with
  | JArr l => forallb wf l
  | JObj m => distinct (map fst m) && forallb (fun kv => wf (snd kv)) m
  | _ => true
  end.

Fixpoint json_eqb (a b : json) : bool :=
  match a, b with
  | JNull, JNull => true
  | JBool x, JBool y => Bool.eqb x y
  | JInt x, JInt y => x =? y
  | JStr x, JStr y => String.eqb x y
  | JArr x, JArr y =>
      (fix go (l1 l2 : list json) : bool :=
         match l1, l2 with
         | [], [] => true
         | u :: l1', v :: l2' => json_eqb u v && go l1' l2'
         | _, _ => false
         end) x y
  | JObj x, JObj y =>
      (fix go (l1 l2 : list (string * json)) : bool :=
         match l1, l2 with
         | [], [] => true
         | (k, u) :: l1', (k', v) :: l2' =>
             String.eqb k k' && json_eqb u v && go l1' l2'
         | _, _ => false
         end) x y
  | _, _ => false
  end.

End Json.

Import Json.

(* ================================================================== *)
(** ** Naive [datetime] values *)

Module DateTime.

(** A naive [datetime] is identified with the number of microseconds
    since 0001-01-01T00:00:00, the scale on which [datetime] compares,
    subtracts and adds a [timedelta]; its fields are the digits of that
    number.  A [timedelta] is a number of microseconds. *)
Definition datetime := Z.
Definition timedelta := Z.

Definition US_PER_SECOND : Z := 1000000.
Definition US_PER_MINUTE : Z := 60000000.
Definition US_PER_HOUR : Z := 3600000000.
Definition US_PER_DAY : Z := 86400000000.

(** [date.max.toordinal()], the ordinal of 9999-12-31. *)
Definition MAXORDINAL : Z := 3652059.

Definition is_valid (t : datetime) : bool :=
  (0 <=? t) && (t <? MAXORDINAL * US_PER_DAY).

Definition toordinal (t : datetime) : Z := t / US_PER_DAY + 1.
Definition time_of_day (t : datetime) : Z := t mod US_PER_DAY.
Definition hour (t : datetime) : Z := time_of_day t / US_PER_HOUR.
Definition minute (t : datetime) : Z := (time_of_day t / US_PER_MINUTE) mod 60.
Definition second (t : datetime) : Z := (time_of_day t / US_PER_SECOND) mod 60.
Definition microsecond (t : datetime) : Z := t mod US_PER_SECOND.

Definition combine (ordinal hh mm ss us : Z) : datetime :=
  (ordinal - 1) * US_PER_DAY
  + hh * US_PER_HOUR + mm * US_PER_MINUTE + ss * US_PER_SECOND + us.

(** [t.replace(hour=hh, minute=mm, second=ss, microsecond=us)];
    [None] stands for the [ValueError] of a field out of range. *)
Definition replace_time (t : datetime) (hh mm ss us : Z) : option datetime :=
  if (0 <=? hh) && (hh <? 24) && (0 <=? mm) && (mm <? 60)
     && (0 <=? ss) && (ss <? 60) && (0 <=? us) && (us <? US_PER_SECOND)
  then Some (combine (toordinal t) hh mm ss us)
  else None.

(** [timedelta(days=n)]. *)
Definition days (n : Z) : timedelta := n * US_PER_DAY.

(** [t + d]; [None] stands for [OverflowError] (date value out of range). *)
Definition add (t : datetime) (d : timedelta) : option datetime :=
  let r := t + d in
  if (1 <=? toordinal r) && (toordinal r <=? MAXORDINAL) then Some r else None.

(** [a - b]. *)
Definition sub (a b : datetime) : timedelta := a - b.

(** [d.total_seconds()], as an exact rational. *)
Definition total_seconds (d : timedelta) : Q := d # 1000000.

(** *** The proleptic Gregorian calendar of [datetime] *)

Definition is_leap (y : Z) : bool :=
  (y mod 4 =? 0) && (negb (y mod 100 =? 0) || (y mod 400 =? 0)).

Definition days_before_year (y : Z) : Z :=
  let p := y - 1 in p * 365 + p / 4 - p / 100 + p / 400.

Definition DAYS_IN_MONTH : list Z :=
  [-1; 31; 28; 31; 30; 31; 30; 31; 31; 30; 31; 30; 31].

Definition DAYS_BEFORE_MONTH : list Z :=
  [-1; 0; 31; 59; 90; 120; 151; 181; 212; 243; 273; 304; 334].

Definition days_in_month (y m : Z) : Z :=
  if (m =? 2) && is_leap y then 29 else nth (Z.to_nat m) DAYS_IN_MONTH 0.

Definition days_before_month (y m : Z) : Z :=
  nth (Z.to_nat m) DAYS_BEFORE_MONTH 0
  + (if (2 <? m) && is_leap y then 1 else 0).

Definition ymd2ord (y m d : Z) : Z :=
  days_before_year y + days_before_month y m + d.

Definition DI400Y : Z := 146097.
Definition DI100Y : Z := 36524.
Definition DI4Y : Z := 1461.

(** [_ord2ymd]: year, month and day of an ordinal. *)
Definition ord2ymd (n0 : Z) : Z * Z * Z :=
  let n := n0 - 1 in
  let n400 := n / DI400Y in
  let n := n mod DI400Y in
  let n100 := n / DI100Y in
  let n := n mod DI100Y in
  let n4 := n / DI4Y in
  let n := n mod DI4Y in
  let n1 := n / 365 in
  let n := n mod 365 in
  let year := n400 * 400 + 1 + n100 * 100 + n4 * 4 + n1 in
  if (n1 =? 4) || (n100 =? 4) then (year - 1, 12, 31)
  else
    let leapyear := (n1 =? 3) && (negb (n4 =? 24) || (n100 =? 3)) in
    let month := Z.shiftr (n + 50) 5 in
    let preceding :=
      nth (Z.to_nat month) DAYS_BEFORE_MONTH 0
      + (if (2 <? month) && leapyear then 1 else 0) in
    if n <? preceding then
      let month' := month - 1 in
      let preceding' :=
        preceding
        - (nth (Z.to_nat month') DAYS_IN_MONTH 0
           + (if (month' =? 2) && leapyear then 1 else 0)) in
      (year, month', n - preceding' + 1)
    else (year, month, n - preceding + 1).

(** [datetime(y, m, d, hh, mm, ss, us)]; [None] stands for [ValueError]. *)
Definition make (y m d hh mm ss us : Z) : option datetime :=
  if (1 <=? y) && (y <=? 9999) && (1 <=? m) && (m <=? 12)
     && (1 <=? d) && (d <=? days_in_month y m)
     && (0 <=? hh) && (hh <? 24) && (0 <=? mm) && (mm <? 60)
     && (0 <=? ss) && (ss <? 60) && (0 <=? us) && (us <? US_PER_SECOND)
  then Some (combine (ymd2ord y m d) hh mm ss us)
  else None.

(** [t.isoformat()]: [YYYY-MM-DDTHH:MM:SS], with [.ffffff] when the
    microsecond is not zero. *)
Definition isoformat (t : datetime) : string :=
  let '(y, m, d) := ord2ymd (toordinal t) in
  pad0 4 (Z.to_N y) ++ "-" ++ pad0 2 (Z.to_N m) ++ "-" ++ pad0 2 (Z.to_N d)
  ++ "T" ++ pad0 2 (Z.to_N (hour t)) ++ ":" ++ pad0 2 (Z.to_N (minute t))
  ++ ":" ++ pad0 2 (Z.to_N (second t))
  ++ (if microsecond t =? 0 then ""
      else "." ++ pad0 6 (Z.to_N (microsecond t))).

(** Exactly [k] ASCII digits. *)
Fixpoint take_digits (k : nat) (acc : Z) (s : string) : option (Z * string) :=
  match k with
  | O => Some (acc, s)
  | S k' =>
      match s with
      | String c r =>
          if is_digit c
          then take_digits k' (acc * 10 + (Z.of_N (ord c) - 48)) r
          else None
      | "" => None
      end
  end.

Definition expect (c : ascii) (s : string) : option string :=
  match s with
  | String c' r => if Ascii.eqb c c' then Some r else None
  | "" => None
  end.

Definition bind {A B : Type} (x : option A) (f : A -> option B) : option B :=
  match x with Some a => f a | None => None end.

(** [datetime.fromisoformat(s)] on the two layouts [isoformat] writes
    for a naive value; [None] stands for [ValueError].  (Python reads
    further layouts: a bare date, another separator than [T], an
    offset.  The bot never writes one; only a state file edited by
    hand can hold one.) *)
Definition fromisoformat (s : string) : option datetime :=
  bind (take_digits 4 0 s) (fun '(y, s) =>
  bind (expect "-" s) (fun s =>
  bind (take_digits 2 0 s) (fun '(m, s) =>
  bind (expect "-" s) (fun s =>
  bind (take_digits 2 0 s) (fun '(d, s) =>
  bind (expect "T" s) (fun s =>
  bind (take_digits 2 0 s) (fun '(hh, s) =>
  bind (expect ":" s) (fun s =>
  bind (take_digits 2 0 s) (fun '(mm, s) =>
  bind (expect ":" s) (fun s =>
  bind (take_digits 2 0 s) (fun '(ss, s) =>
  match s with
  | "" => make y m d hh mm ss 0
  | _ =>
      bind (expect "." s) (fun s =>
      bind (take_digits 6 0 s) (fun '(us, s) =>
      match s with
      | "" => make y m d hh mm ss us
      | _ => None
      end))
  end))))))))))).

(** [t.year]. *)
Definition year (t : datetime) : Z := fst (fst (ord2ymd (toordinal t))).

(** [t.strftime('%Y-%m-%d %H:%M:%S')].  What [%Y] writes for a year
    below 1000 depends on the C library: some pad it with zeros to
    four digits, others (glibc) write it as it is; [pad_year] tells
    which.  From the year 1000 on both write the same four digits. *)
Definition strftime_ymd_hms (pad_year : bool) (t : datetime) : string :=
  let '(y, m, d) := ord2ymd (toordinal t) in
  (if pad_year then pad0 4 (Z.to_N y) else str_Z y)
  ++ "-" ++ pad0 2 (Z.to_N m) ++ "-" ++ pad0 2 (Z.to_N d)
  ++ " " ++ pad0 2 (Z.to_N (hour t)) ++ ":" ++ pad0 2 (Z.to_N (minute t))
  ++ ":" ++ pad0 2 (Z.to_N (second t)).

(** 1970-01-01T00:00:00. *)
Definition EPOCH : datetime := (719163 - 1) * US_PER_DAY.

End DateTime.

Import DateTime.

(* ================================================================== *)
(** ** The bot *)

(** *** Settings *)

Definition PET_NAME : string := "貓貓".

(** Reminder thresholds, in hours. *)
Definition FEED_THRESHOLD_HOURS : Q := 6.
Definition DRINK_THRESHOLD_HOURS : Q := 4.
Definition SLEEP_THRESHOLD_HOURS : Q := 18.

(** *** The world the handlers act on *)

(** A job of the scheduler: [send_reminder_job] under a [DateTrigger],
    or [check_and_notify] under an interval trigger. *)
Inductive Job : Type :=
| DateJob (id : string) (run_date : datetime) (chat_id : Z) (content : string)
| IntervalJob (id : string) (minutes : Z).

Definition job_id (j : Job) : string :=
  match j with
  | DateJob id _ _ _ => id
  | IntervalJob id _ => id
  end.

Inductive LogRecord : Type :=
| LogInfo (msg : string)
| LogException (msg : string).

(** [state]: the module-level dictionary; [disk]: the content of
    [STATE_FILE], [None] while the file does not exist; [jobs]: the job
    store of [scheduler]; [outbox]: the messages handed to Telegram, as
    (chat id, text); [log]: the records written through [logger]. *)
Record World : Type := mkWorld {
  state : pydict;
  disk : option string;
  jobs : list Job;
  outbox : list (Z * string);
  log : list LogRecord
}.

Definition set_state (st : pydict) (w : World) : World :=
  mkWorld st (disk w) (jobs w) (outbox w) (log w).
Definition set_disk (d : option string) (w : World) : World :=
  mkWorld (state w) d (jobs w) (outbox w) (log w).
Definition set_jobs (js : list Job) (w : World) : World :=
  mkWorld (state w) (disk w) js (outbox w) (log w).
Definition send_message (chat_id : Z) (text : string) (w : World) : World :=
  mkWorld (state w) (disk w) (jobs w) (outbox w ++ [(chat_id, text)])%list (log w).
Definition write_log (r : LogRecord) (w : World) : World :=
  mkWorld (state w) (disk w) (jobs w) (outbox w) (log w ++ [r])%list.

(** *** Saving and loading the state *)

Definition default_state : pydict :=
  [("last_feed", JNull); ("last_drink", JNull); ("last_sleep", JNull);
   ("users", JObj []); ("reminders", JArr [])].

Definition save_state (st : pydict) (w : World) : World :=
  set_disk (Some (dumps (JObj st))) w.

(** The loaded dictionary and the world after the call (which has
    written the default document when there was no file).  [None]
    stands for [JSONDecodeError], and for a document that is not the
    dictionary the annotation [Dict[str, Any]] promises (the code
    returns such a document as it is, and the handlers fail on it
    later; only a state file edited by hand can hold one). *)
Definition load_state (w : World) : option (pydict * World) :=
  match disk w with
  | None => Some (default_state, save_state default_state w)
  | Some text =>
      match loads text with
      | Some (JObj d) => Some (d, w)
      | _ => None
      end
  end.

(** *** Tools *)

Definition iso_now (now : datetime) : string := isoformat now.

(** Python's truth value of a JSON value. *)
Definition truthy (v : json) : bool :=
  match v with
  | JNull => false
  | JBool b => b
  | JInt z => negb (z =? 0)
  | JStr s => negb (String.eqb s "")
  | JArr l => match l with [] => false | _ => true end
  | JObj m => match m with [] => false | _ => true end
  end.

(** [parse_iso]: [Some None] is Python's [None]; the outer [None]
    stands for the [ValueError] or [TypeError] of [fromisoformat]. *)
Definition parse_iso (dt_str : json) : option (option datetime) :=
  if negb (truthy dt_str) then Some None
  else match dt_str with
       | JStr s => option_map Some (fromisoformat s)
       | _ => None
       end.

(** The floats [time_since_hours] returns, read as the exact numbers
    they stand for: a rational or [float('inf')].  The source divides
    floats ([total_seconds() / 3600.0]), which rounds; for a threshold
    that is a whole number of hours up to 4,772,185, as the three
    configured ones are, the rounded quotient is at least the threshold
    exactly when the exact one is (the elapsed time is a whole number of
    microseconds, and a time one microsecond short of [3600 * h]
    seconds is then not rounded up to it).  For a larger or a
    fractional threshold the float comparison can differ from the exact
    one in the last microsecond; the properties below keep to whole
    thresholds up to a million hours. *)
Inductive hours : Type :=
| Finite (q : Q)
| Inf.

(** [x >= h] for a finite threshold [h]. *)
Definition hours_ge (x : hours) (h : Q) : bool :=
  match x with
  | Inf => true
  | Finite q => Qle_bool h q
  end.

Definition time_since_hours (now : datetime) (dt_str : json) : option hours :=
  match parse_iso dt_str with
  | None => None
  | Some None => Some Inf
  | Some (Some dt) =>
      let delta := sub now dt in
      Some (Finite (total_seconds delta / 3600))
  end.

(** The test of [check_and_notify],
    [time_since_hours(last) >= threshold], with the threshold as a
    parameter. *)
Definition is_due (last : json) (threshold : Q) (now : datetime) : option bool :=
  option_map (fun x => hours_ge x threshold) (time_since_hours now last).

(** *** Handlers *)

(** The registered [error_handler], which receives any exception a
    handler lets escape. *)
Definition error_handler (w : World) : World :=
  write_log (LogException "Exception while handling an update: %s") w.

(** [await update.message.reply_text(text)] as a handler's last
    statement; [net] tells whether Telegram accepted the message. *)
Definition reply_text (chat_id : Z) (text : string) (net : bool) (w : World)
  : World :=
  if net then send_message chat_id text w else error_handler w.

Definition feed_command (chat_id : Z) (now : datetime) (net : bool) (w : World)
  : World :=
  let w := set_state (dict_set "last_feed" (JStr (iso_now now)) (state w)) w in
  let w := save_state (state w) w in
  reply_text chat_id ("你餵了 " ++ PET_NAME ++ "！牠開心地吃光了 🍽️") net w.

Definition drink_command (chat_id : Z) (now : datetime) (net : bool) (w : World)
  : World :=
  let w := set_state (dict_set "last_drink" (JStr (iso_now now)) (state w)) w in
  let w := save_state (state w) w in
  reply_text chat_id ("你給了 " ++ PET_NAME ++ " 水喝！牠咕嚕咕嚕喝完了 💧") net w.

Definition sleep_command (chat_id : Z) (now : datetime) (net : bool) (w : World)
  : World :=
  let w := set_state (dict_set "last_sleep" (JStr (iso_now now)) (state w)) w in
  let w := save_state (state w) w in
  reply_text chat_id (PET_NAME ++ " 去睡覺了... 乖乖睡好覺 😴") net w.

(** The [try] block of [remind_command]: the target time, or [None]
    when the block raises. *)
Definition resolve_target (time_part : string) (now : datetime)
  : option datetime :=
  match map py_int (split_on ":" time_part) with
  | [Some hh; Some mm] =>
      match replace_time now hh mm 0 0 with
      | Some target =>
          if target <=? now then add target (days 1) else Some target
      | None => None
      end
  | _ => None
  end.

(** [len(v)]; [None] stands for [TypeError]. *)
Definition py_len (v : json) : option Z :=
  match v with
  | JStr s => Some (py_strlen s)
  | JArr l => Some (Z.of_nat (List.length l))
  | JObj m => Some (Z.of_nat (List.length m))
  | _ => None
  end.

(** [scheduler.add_job(..., id=job_id)]; [None] stands for
    [ConflictingIdError]. *)
Definition add_job (j : Job) (js : list Job) : option (list Job) :=
  if existsb (fun j' => String.eqb (job_id j) (job_id j')) js then None
  else Some (js ++ [j])%list.

(** [state.setdefault('reminders', []).append(rec)]; [None] stands for
    the [AttributeError] of a value without [append]. *)
Definition append_reminder (rec : json) (st : pydict) : option pydict :=
  match dict_find "reminders" st with
  | None => Some (st ++ [("reminders", JArr [rec])])%list
  | Some (JArr l) => Some (dict_set "reminders" (JArr (l ++ [rec])%list) st)
  | Some _ => None
  end.

Definition USAGE : string := "使用方式：/remind HH:MM 提醒內容".
Definition BAD_TIME : string := "時間格式錯誤，請使用 HH:MM（24 小時制）".

(** The confirmation [remind_command] answers with. *)
Definition scheduled_text (content : string) (target : datetime) : string :=
  "已為你安排提醒：" ++ content ++ String newline ""
  ++ "提醒時間 (UTC)：" ++ isoformat target.

(** The text [send_reminder_job] sends. *)
Definition reminder_text (content : string) : string := "🔔 提醒：" ++ content.

Section Handlers.

(** The process's local time zone and platform.
    [datetime.timestamp()] reads a naive value as local time:
    [utcoffset t] is the UTC offset, in seconds, that applies at the
    naive local time [t], and [None] where the conversion raises
    ([ValueError] when it leaves the years 1 to 9999, as it does for
    every time of 0001-01-01 because it looks one day back;
    [OverflowError] or [OSError] outside the range of the platform's
    [localtime]). *)
Variable utcoffset : datetime -> option Z.

(** [int(t.timestamp())]; [None] when [timestamp()] raises.  (The
    float is exact at the whole seconds of a target.) *)
Definition int_timestamp (t : datetime) : option Z :=
  match utcoffset t with
  | Some off =>
      Some (Z.quot (t - EPOCH - off * US_PER_SECOND) US_PER_SECOND)
  | None => None
  end.

(** The f-string of [job_id]: [len] is evaluated first, then
    [timestamp()]; either can raise. *)
Definition reminder_job_id (st : pydict) (target : datetime) : option string :=
  match py_len (dict_get_or "reminders" (JArr []) st) with
  | Some n =>
      match int_timestamp target with
      | Some ts => Some ("remind_" ++ str_Z (n + 1) ++ "_" ++ str_Z ts)
      | None => None
      end
  | None => None
  end.

Definition reminder_record (id : string) (target : datetime) (chat_id : Z)
  (content : string) : json :=
  JObj [("job_id", JStr id); ("run_at", JStr (isoformat target));
        ("chat_id", JInt chat_id); ("content", JStr content)].

Definition remind_command (args : list string) (chat_id : Z) (now : datetime)
  (net : bool) (w : World) : World :=
  if (List.length args <? 2)%nat then reply_text chat_id USAGE net w
  else
    let time_part := nth 0 args "" in
    match resolve_target time_part now with
    | None => reply_text chat_id BAD_TIME net w
    | Some target =>
        let content := join " " (tl args) in
        match reminder_job_id (state w) target with
        | None => error_handler w
        | Some id =>
            match add_job (DateJob id target chat_id content) (jobs w) with
            | None => error_handler w
            | Some js =>
                let w := set_jobs js w in
                match append_reminder
                        (reminder_record id target chat_id content) (state w)
                with
                | None => error_handler w
                | Some st =>
                    let w := set_state st w in
                    let w := save_state (state w) w in
                    reply_text chat_id (scheduled_text content target) net w
                end
            end
        end
    end.

(** [send_reminder_job]: the message goes out, or the exception of
    [send_message] is caught and logged. *)
Definition send_reminder_job (chat_id : Z) (content : string) (net : bool)
  (w : World) : World :=
  if net then send_message chat_id (reminder_text content) w
  else write_log (LogException "無法發送提醒：%s") w.

(** The closure [check_and_notify] of [schedule_periodic_checks]. *)
Definition check_and_notify (now : datetime) (w : World) : World :=
  match is_due (dict_get "last_feed" (state w)) FEED_THRESHOLD_HOURS now with
  | Some true => write_log (LogInfo "需要提醒餵食") w
  | Some false => w
  | None => write_log (LogException "check_and_notify error") w
  end.

Definition schedule_periodic_checks (w : World) : World :=
  match add_job (IntervalJob "periodic_check" 30) (jobs w) with
  | Some js => set_jobs js w
  | None => error_handler w
  end.

(** *** Events *)

(** What can happen to a running bot.  [ReplyOnly] is any of the
    handlers that only answer ([start], [help_command], [joke_command],
    [status_command], [weather_command], [google_command],
    [wiki_command], [button_callback], [text_message_handler]).
    [TimerFire] and [Tick] are the scheduler running a due job;
    [Restart] is the process ending and starting again. *)
Inductive Event : Type :=
| Feed (chat_id : Z) (now : datetime) (net : bool)
| Drink (chat_id : Z) (now : datetime) (net : bool)
| Sleep (chat_id : Z) (now : datetime) (net : bool)
| Remind (args : list string) (chat_id : Z) (now : datetime) (net : bool)
| ReplyOnly (chat_id : Z) (text : string) (net : bool)
| StartupJob
| TimerFire (id : string) (net : bool)
| Tick (now : datetime)
| Restart.

Fixpoint take_job (id : string) (js : list Job) : option (Job * list Job) :=
  match js with
  | [] => None
  | j :: js' =>
      if String.eqb id (job_id j) then Some (j, js')
      else match take_job id js' with
           | Some (j', rest) => Some (j', j :: rest)
           | None => None
           end
  end.

(** The module body [state = load_state()] with a fresh scheduler;
    [None] when loading raises and the process does not come up. *)
Definition start_process (w : World) : option World :=
  match load_state w with
  | Some (st, w') => Some (set_jobs [] (set_state st w'))
  | None => None
  end.

Definition run (e : Event) (w : World) : option World :=
  match e with
  | Feed c now net => Some (feed_command c now net w)
  | Drink c now net => Some (drink_command c now net w)
  | Sleep c now net => Some (sleep_command c now net w)
  | Remind args c now net => Some (remind_command args c now net w)
  | ReplyOnly c text net => Some (reply_text c text net w)
  | StartupJob => Some (schedule_periodic_checks w)
  | TimerFire id net =>
      match take_job id (jobs w) with
      | Some (DateJob _ _ c content, rest) =>
          Some (send_reminder_job c content net (set_jobs rest w))
      | _ => Some w
      end
  | Tick now =>
      if existsb (fun j => String.eqb "periodic_check" (job_id j)) (jobs w)
      then Some (check_and_notify now w) else Some w
  | Restart => start_process w
  end.

(** A machine whose local time is UTC (and whose [localtime] covers
    the years 1 to 9999): the offset is zero, and [timestamp()] raises
    for the times of 0001-01-01, the day before which is not a date. *)
Definition utc (t : datetime) : option Z :=
  if toordinal t <=? 1 then None else Some 0.

(** The world after a first start: there was no file, so the default
    document has been written; nothing is scheduled yet. *)
Definition first_run : World :=
  set_jobs []
    (set_state default_state
       (save_state default_state (mkWorld [] None [] [] []))).

Inductive reachable : World -> Prop :=
| reach_first : reachable first_run
| reach_step (w w' : World) (e : Event) :
    reachable w -> run e w = Some w' -> reachable w'.

Fixpoint run_all (es : list Event) (w : World) : option World :=
  match es with
  | [] => Some w
  | e :: es' =>
      match run e w with
      | Some w' => run_all es' w'
      | None => None
      end
  end.

(** The [job_id] fields of the stored reminders, in order. *)
Definition reminder_ids (st : pydict) : list json :=
  match dict_get_or "reminders" (JArr []) st with
  | JArr l =>
      map (fun r => match r with
                    | JObj m => dict_get "job_id" m
                    | _ => JNull
                    end) l
  | _ => []
  end.

End Handlers.

(** *** Handlers that only answer *)

Definition NEVER : string := "從未".

(** The C library's way with [%Y] is a parameter of what follows. *)
Section Status.

Variable pad_year : bool.

(** [fmt] of [status_command]; [None] stands for the exception
    [parse_iso] raises on a text that is no ISO time. *)
Definition fmt (t : json) : option string :=
  if truthy t then
    match parse_iso t with
    | Some (Some dt) => Some (strftime_ymd_hms pad_year dt)
    | _ => None
    end
  else Some NEVER.

Definition status_text (lf ld ls : string) : string :=
  PET_NAME ++ " 狀態：" ++ String newline ""
  ++ "最後餵食：" ++ lf ++ String newline ""
  ++ "最後喝水：" ++ ld ++ String newline ""
  ++ "最後睡覺：" ++ ls ++ String newline "".

Definition status_command (chat_id : Z) (net : bool) (w : World) : World :=
  match fmt (dict_get "last_feed" (state w)),
        fmt (dict_get "last_drink" (state w)),
        fmt (dict_get "last_sleep" (state w)) with
  | Some lf, Some ld, Some ls =>
      reply_text chat_id (status_text lf ld ls) net w
  | _, _, _ => error_handler w
  end.

End Status.

Definition GOOGLE_USAGE : string := "使用方式：/google 關鍵字".

(** The link [google_command] builds from its arguments. *)
Definition google_url (args : list string) : string :=
  "https://www.google.com/search?q=" ++ join "+" args.

Definition google_command (args : list string) (chat_id : Z) (net : bool)
  (w : World) : World :=
  match args with
  | [] => reply_text chat_id GOOGLE_USAGE net w
  | _ => reply_text chat_id ("Google 搜尋連結：" ++ google_url args) net w
  end.

(* ================================================================== *)
(** ** Vocabulary of the properties *)


(** 2024-05-01T14:00:00 *)
Definition at_1400 : datetime := 63850168800000000.



Inductive ActionKind : Type := KFeed | KDrink | KSleep.

Definition field_of (k : ActionKind) : string :=
  match k with
  | KFeed => "last_feed"
  | KDrink => "last_drink"
  | KSleep => "last_sleep"
  end.

Definition record_action (k : ActionKind)
  : Z -> datetime -> bool -> World -> World :=
  match k with
  | KFeed => feed_command
  | KDrink => drink_command
  | KSleep => sleep_command
  end.

(** 2024-05-01T08:00:00 *)
Definition at_0800 : datetime := 63850147200000000.

(** The world after [/remind 09:00 buy milk] from chat 42, sent at
    2024-05-01T14:00:00 to a freshly started bot on a UTC machine. *)
Definition one_reminder : World :=
  remind_command utc ["09:00"; "buy"; "milk"] 42 at_1400 true first_run.

(** The world after the reminder of [one_reminder] has fired. *)
Definition one_reminder_fired : World :=
  send_reminder_job 42 "buy milk" true (set_jobs [] one_reminder).

(** The stored record of a reminder, found by its [job_id]. *)
Definition find_reminder (id : string) (st : pydict) : option json :=
  match dict_get_or "reminders" (JArr []) st with
  | JArr l =>
      find (fun r => match r with
                     | JObj m => json_eqb (dict_get "job_id" m) (JStr id)
                     | _ => false
                     end) l
  | _ => None
  end.

(** The [status] field of a reminder, when it has one. *)
Definition reminder_status (id : string) (st : pydict) : option json :=
  match find_reminder id st with
  | Some (JObj m) => dict_find "status" m
  | _ => None
  end.

Definition FEED_DUE : LogRecord := LogInfo "需要提醒餵食".

(** One hour after a [/feed] at 14:00, with the periodic job registered. *)
Definition fed_at_1400 : World :=
  schedule_periodic_checks (feed_command 42 at_1400 true first_run).

(** What may follow a number without being read as part of it. *)
Definition number_end (rest : string) : bool :=
  negb (head_is (fun c => is_digit c || float_mark c) rest).

Definition number_body (neg : bool) (s : string) : option (json * string) :=
  let '(ds, rest') := span is_digit s in
  if leading_zero ds || head_is float_mark rest' then None
  else match N_of_digits ds with
       | Some m => Some (JInt (if neg then - Z.of_N m else Z.of_N m), rest')
       | None => None
       end.

Definition number_start (c : ascii) : bool :=
  (is_digit c || (ord c =? 45))%N.

(** The two inner loops of [iterencode], by name. *)
Definition enc_items (level : nat) : list json -> string :=
  fix items (l : list json) : string :=
    match l with
    | [] => ""
    | y :: ys =>
        "," ++ newline_indent level ++ iterencode level y ++ items ys
    end.

Definition enc_members (level : nat) : list (string * json) -> string :=
  fix members (l : list (string * json)) : string :=
    match l with
    | [] => ""
    | (k', y) :: l' =>
        "," ++ newline_indent level
        ++ encode_basestring k' ++ ": " ++ iterencode level y ++ members l'
    end.

(** The characters a JSON value can start with. *)
Definition value_start (c : ascii) : bool :=
  (number_start c || (ord c =? 34) || (ord c =? 91) || (ord c =? 123)
   || (ord c =? 110) || (ord c =? 116) || (ord c =? 102))%N.

(** A measure of a value that bounds the fuel its text needs. *)
Fixpoint jsize (v : json) : nat :=
  match v with
  | JArr l => S (list_sum (map (fun x => S (jsize x)) l))
  | JObj m => S (list_sum (map (fun kv => S (jsize (snd kv))) m))
  | _ => 1
  end.

(** The id [remind_command] builds from a sequence number and a
    timestamp. *)
Definition reminder_id (seq ts : Z) : string :=
  "remind_" ++ str_Z seq ++ "_" ++ str_Z ts.

(** The stored reminders are the records [remind_command] writes, the
    record at place [i] (from 0) carrying the sequence number [i + 1]. *)
Definition numbered (l : list json) : Prop :=
  forall (i : nat) (r : json),
    nth_error l i = Some r ->
    exists (ts : Z) (t : datetime) (c : Z) (content : string),
      r = reminder_record (reminder_id (Z.of_nat i + 1) ts) t c content.

Record invariant (w : World) : Prop := {
  inv_disk : disk w = Some (dumps (JObj (state w)));
  inv_wf : wf (JObj (state w)) = true;
  inv_reminders :
    exists l : list json,
      dict_find "reminders" (state w) = Some (JArr l) /\ numbered l
}.

(** The reminders of a state, as a list. *)
Definition stored_reminders (st : pydict) : list json :=
  match dict_get_or "reminders" (JArr []) st with
  | JArr l => l
  | _ => []
  end.

Definition job_id_of (r : json) : json :=
  match r with
  | JObj m => dict_get "job_id" m
  | _ => JNull
  end.

(** A bot on a UTC machine that was fed, asked twice at the same
    instant for a reminder at 09:00, restarted, and asked once more. *)
Definition busy_events : list Event :=
  [Feed 42 at_1400 true;
   Remind ["09:00"; "buy"; "milk"] 42 at_1400 true;
   Remind ["09:00"; "call"; "home"] 42 at_1400 true;
   Restart;
   StartupJob;
   Remind ["09:00"; "water"; "plants"] 42 at_1400 true].

Definition busy : World :=
  match run_all utc busy_events first_run with
  | Some w => w
  | None => first_run
  end.

(** The ids in the job store are distinct, and each is that of the
    periodic check or of a stored reminder. *)
Definition jobs_invariant (w : World) : Prop :=
  NoDup (map job_id (jobs w)) /\
  forall j : Job,
    In j (jobs w) ->
    job_id j = "periodic_check" \/
    exists (i : nat) (ts : Z),
      (i < List.length (stored_reminders (state w)))%nat /\
      job_id j = reminder_id (Z.of_nat i + 1) ts.



(** [p] on every number from [lo] up to, not including,
    [lo + 2 ^ depth]. *)
Fixpoint range_all (depth : nat) (lo : Z) (p : Z -> bool) : bool :=
  match depth with
  | O => p lo
  | S d => range_all d lo p && range_all d (lo + 2 ^ Z.of_nat d) p
  end.

(** What [ord2ymd] owes for an ordinal of the first 400 years. *)
Definition date_ok (n : Z) : bool :=
  if n <=? DI400Y then
    let '(y, m, d) := ord2ymd n in
    (1 <=? y) && (y <=? 400) && ((145731 <? n) || (y <=? 399))
    && (1 <=? m) && (m <=? 12) && (1 <=? d)
    && (d <=? days_in_month y m) && (ymd2ord y m d =? n)
  else true.

(** The number a decimal numeral continues from [acc], digit by digit. *)
Fixpoint uint_value (d : Decimal.uint) (acc : Z) : Z :=
  match d with
  | Decimal.Nil => acc
  | Decimal.D0 l => uint_value l (acc * 10 + 0)
  | Decimal.D1 l => uint_value l (acc * 10 + 1)
  | Decimal.D2 l => uint_value l (acc * 10 + 2)
  | Decimal.D3 l => uint_value l (acc * 10 + 3)
  | Decimal.D4 l => uint_value l (acc * 10 + 4)
  | Decimal.D5 l => uint_value l (acc * 10 + 5)
  | Decimal.D6 l => uint_value l (acc * 10 + 6)
  | Decimal.D7 l => uint_value l (acc * 10 + 7)
  | Decimal.D8 l => uint_value l (acc * 10 + 8)
  | Decimal.D9 l => uint_value l (acc * 10 + 9)
  end.

(** The clock reading an event carries, if it carries one. *)
Definition event_time (e : Event) : option datetime :=
  match e with
  | Feed _ now _ | Drink _ now _ | Sleep _ now _ => Some now
  | Remind _ _ now _ => Some now
  | Tick now => Some now
  | _ => None
  end.

(** The clock reading of the event, if any, is a [datetime] Python can
    hold, as every value of [datetime.utcnow()] is. *)
Definition timed_ok (e : Event) : bool :=
  match event_time e with
  | Some now => is_valid now
  | None => true
  end.

(** The worlds a bot reaches when every clock reading is a [datetime]. *)
Inductive well_timed (utcoffset : datetime -> option Z) : World -> Prop :=
| wt_first : well_timed utcoffset first_run
| wt_step (w w' : World) (e : Event) :
    well_timed utcoffset w -> timed_ok e = true ->
    run utcoffset e w = Some w' -> well_timed utcoffset w'.

(** A value of [last_feed], [last_drink] or [last_sleep]: nothing yet,
    or the ISO text of a [datetime]. *)
Definition last_ok (v : json) : Prop :=
  v = JNull \/ exists t : datetime, is_valid t = true /\ v = JStr (isoformat t).

(** The three times of the state, where one is recorded, are of the
    year 1000 or later, so that [%Y] writes four digits on every
    platform. *)
Definition four_digit_years (st : pydict) : Prop :=
  forall (k : string) (t : datetime),
    k = "last_feed" \/ k = "last_drink" \/ k = "last_sleep" ->
    is_valid t = true -> dict_get k st = JStr (isoformat t) ->
    1000 <= year t.

(** A year of four digits reads the same padded and not. *)
Definition year_text_ok (y : Z) : bool :=
  if (1000 <=? y) && (y <=? 9999)
  then String.eqb (str_Z y) (pad0 4 (Z.to_N y))
  else true.

(** The shape of the document: the five keys of [default_state], in
    their order, with no user and a list of reminders. *)
Definition shaped (st : pydict) : Prop :=
  exists (lf ld ls : json) (l : list json),
    st = [("last_feed", lf); ("last_drink", ld); ("last_sleep", ls);
          ("users", JObj []); ("reminders", JArr l)].

(** Every job of a reminder in the scheduler has its record in the
    state, with the same id, time, chat and text. *)
Definition jobs_recorded (w : World) : Prop :=
  forall (id : string) (t : datetime) (c : Z) (content : string),
    In (DateJob id t c content) (jobs w) ->
    In (reminder_record id t c content) (stored_reminders (state w)).

(** The ways to write a time of day for [/remind]: hour and minute
    each with two digits or without the leading zero. *)
Definition clock_texts (hh mm : Z) : list string :=
  [pad0 2 (Z.to_N hh) ++ ":" ++ pad0 2 (Z.to_N mm);
   str_Z hh ++ ":" ++ str_Z mm;
   pad0 2 (Z.to_N hh) ++ ":" ++ str_Z mm;
   str_Z hh ++ ":" ++ pad0 2 (Z.to_N mm)].

(** All texts of minute [k] of the day are read as its hour and
    minute by the first line of the [try] block of [remind_command]. *)
Definition clock_ok (k : Z) : bool :=
  forallb
    (fun tp =>
       match map py_int (split_on ":" tp) with
       | [Some hh; Some mm] => (hh =? k / 60) && (mm =? k mod 60)
       | _ => false
       end)
    (clock_texts (k / 60) (k mod 60)).

(** The character [c] does not occur in [s]. *)
Definition no_char (c : ascii) (s : string) : bool :=
  all_chars (fun x => negb (Ascii.eqb x c)) s.

(** A bot started on a state file someone has edited by hand. *)
Definition started_on (d : pydict) : World :=
  match start_process (mkWorld [] (Some (dumps (JObj d))) [] [] []) with
  | Some w => w
  | None => first_run
  end.

(** A file whose [reminders] is a dictionary, and a file of only the
    three times. *)
Definition reminders_as_dict : World :=
  started_on [("last_feed", JNull); ("reminders", JObj [])].
Definition no_reminders_key : World :=
  started_on [("last_feed", JNull); ("last_drink", JNull);
              ("last_sleep", JNull)].

(** The ids of the jobs in the scheduler. *)
Definition job_id_list (w : World) : list string := map job_id (jobs w).

(* ================================================================== *)
(** ** Properties *)

Ltac unfold_units :=
  unfold days, US_PER_DAY, US_PER_HOUR, US_PER_MINUTE, US_PER_SECOND in *.

Ltac by_cases_on c :=
  destruct c as [[] [] [] [] [] [] [] []]; vm_compute; congruence.


Lemma fromisoformat_nonempty (s : string) (t : datetime) :
  fromisoformat s = Some t -> s <> "".
Proof. intros H ->. discriminate H. Qed.

Lemma parse_iso_cases (last : json) (r : option datetime) :
  parse_iso last = Some r ->
  match r with
  | None => truthy last = false
  | Some t => exists s, last = JStr s /\ fromisoformat s = Some t
  end.
Proof.
  unfold parse_iso. destruct (truthy last) eqn:T; simpl.
  - destruct last; try discriminate.
    destruct (fromisoformat s) eqn:F; simpl; intros [= <-]. eauto.
  - intros [= <-]. reflexivity.
Qed.


Lemma resolve_target_inv (time_part : string) (now target : datetime) :
  resolve_target time_part now = Some target ->
  exists hh mm : Z,
    map py_int (split_on ":" time_part) = [Some hh; Some mm] /\
    (0 <= hh < 24 /\ 0 <= mm < 60) /\
    let candidate := combine (toordinal now) hh mm 0 0 in
    target = (if candidate <=? now then candidate + US_PER_DAY else candidate).
Proof.
  unfold resolve_target.
  destruct (map py_int (split_on ":" time_part)) as [|[hh|] [|[mm|] [|]]];
    try discriminate.
  unfold replace_time.
  destruct ((0 <=? hh) && (hh <? 24) && (0 <=? mm) && (mm <? 60)
            && (0 <=? 0) && (0 <? 60) && (0 <=? 0) && (0 <? US_PER_SECOND))
    eqn:R; try discriminate.
  repeat rewrite andb_true_iff in R.
  destruct R as [[[[[[[H1 H2] H3] H4] _] _] _] _].
  apply Z.leb_le in H1, H3. apply Z.ltb_lt in H2, H4.
  intros H. exists hh, mm. split; [reflexivity|]. split; [lia|].
  cbv zeta.
  destruct (combine (toordinal now) hh mm 0 0 <=? now) eqn:C.
  - unfold add, days in H.
    destruct ((1 <=? toordinal (combine (toordinal now) hh mm 0 0 + 1 * US_PER_DAY))
              && (toordinal (combine (toordinal now) hh mm 0 0 + 1 * US_PER_DAY)
                  <=? MAXORDINAL)) eqn:O; try discriminate.
    injection H as <-. reflexivity.
  - injection H as <-. reflexivity.
Qed.

Lemma combine_fields (n hh mm : Z) :
  0 <= hh < 24 -> 0 <= mm < 60 ->
  let t := combine n hh mm 0 0 in
  toordinal t = n /\ hour t = hh /\ minute t = mm /\ second t = 0
  /\ microsecond t = 0.
Proof.
  intros Hh Hm t.
  assert (Ht : t = (n - 1) * 86400000000 + (hh * 3600000000 + mm * 60000000)).
  { unfold t, combine. unfold_units. lia. }
  assert (Hq : t / 86400000000 = n - 1).
  { rewrite Ht. symmetry.
    apply (Z.div_unique _ _ _ (hh * 3600000000 + mm * 60000000)); lia. }
  assert (Hr : t mod 86400000000 = hh * 3600000000 + mm * 60000000).
  { rewrite Ht. symmetry.
    apply (Z.mod_unique _ _ (n - 1)); lia. }
  unfold toordinal, hour, minute, second, microsecond, time_of_day.
  unfold_units. rewrite Hq, Hr. repeat split.
  - lia.
  - symmetry. apply (Z.div_unique _ _ _ (mm * 60000000)); lia.
  - replace (hh * 3600000000 + mm * 60000000)
      with ((hh * 60 + mm) * 60000000) by lia.
    rewrite Z.div_mul by lia.
    symmetry. apply (Z.mod_unique _ _ hh); lia.
  - replace (hh * 3600000000 + mm * 60000000)
      with ((hh * 3600 + mm * 60) * 1000000) by lia.
    rewrite Z.div_mul by lia.
    symmetry. apply (Z.mod_unique _ _ (hh * 60 + mm)); lia.
  - rewrite Ht. symmetry.
    apply (Z.mod_unique _ _ ((n - 1) * 86400 + hh * 3600 + mm * 60)); lia.
Qed.

Lemma add_day_fields (t : datetime) :
  toordinal (t + US_PER_DAY) = toordinal t + 1 /\
  hour (t + US_PER_DAY) = hour t /\ minute (t + US_PER_DAY) = minute t /\
  second (t + US_PER_DAY) = second t /\
  microsecond (t + US_PER_DAY) = microsecond t.
Proof.
  unfold toordinal, hour, minute, second, microsecond, time_of_day.
  unfold_units.
  replace (t + 86400000000) with (t + 1 * 86400000000) by lia.
  rewrite Z.div_add by lia. rewrite Z.mod_add by lia.
  repeat split; try lia.
  replace (t + 1 * 86400000000) with (t + 86400 * 1000000) by lia.
  apply Z.mod_add. lia.
Qed.

Lemma candidate_same_day (now hh mm : Z) :
  0 <= hh < 24 -> 0 <= mm < 60 ->
  let candidate := combine (toordinal now) hh mm 0 0 in
  now - US_PER_DAY < candidate < now + US_PER_DAY /\
  (candidate <= now <-> hh * US_PER_HOUR + mm * US_PER_MINUTE <= time_of_day now).
Proof.
  intros Hh Hm. unfold combine, toordinal, time_of_day. unfold_units.
  pose proof (Z.div_mod now 86400000000 ltac:(lia)) as E.
  pose proof (Z.mod_pos_bound now 86400000000 ltac:(lia)) as B.
  cbv zeta. lia.
Qed.
Lemma resolve_target_total (time_part : string) (hh mm : Z) (now : datetime) :
  map py_int (split_on ":" time_part) = [Some hh; Some mm] ->
  0 <= hh < 24 -> 0 <= mm < 60 ->
  1 <= toordinal now < MAXORDINAL ->
  exists target, resolve_target time_part now = Some target.
Proof.
  intros P Hh Hm Hn. unfold resolve_target. rewrite P.
  unfold replace_time.
  replace ((0 <=? hh) && (hh <? 24) && (0 <=? mm) && (mm <? 60)
           && (0 <=? 0) && (0 <? 60) && (0 <=? 0) && (0 <? US_PER_SECOND))
    with true.
  2:{ symmetry. repeat (apply andb_true_iff; split);
      try (apply Z.leb_le; lia); try (apply Z.ltb_lt; lia); reflexivity. }
  destruct (combine (toordinal now) hh mm 0 0 <=? now); [|eauto].
  unfold add, days.
  replace (combine (toordinal now) hh mm 0 0 + 1 * US_PER_DAY)
    with (combine (toordinal now) hh mm 0 0 + US_PER_DAY) by (unfold_units; lia).
  destruct (add_day_fields (combine (toordinal now) hh mm 0 0)) as [-> _].
  destruct (combine_fields (toordinal now) hh mm Hh Hm) as [-> _].
  replace ((1 <=? toordinal now + 1) && (toordinal now + 1 <=? MAXORDINAL))
    with true; [eauto|].
  symmetry. apply andb_true_iff. split; apply Z.leb_le; lia.
Qed.

(** C2.  Scheduling a reminder for hour:minute takes today (UTC) at that
    time as the candidate and, when the candidate is not after [now],
    the same time one day later; so a request made at 14:00 for 09:00
    is scheduled for 09:00 of the following day (see the witness). *)
Theorem resolve_target_rule (time_part : string) (hh mm : Z) (now : datetime) :
  map py_int (split_on ":" time_part) = [Some hh; Some mm] ->
  0 <= hh < 24 -> 0 <= mm < 60 ->
  1 <= toordinal now < MAXORDINAL ->
  exists target : datetime,
    resolve_target time_part now = Some target /\
    let candidate := combine (toordinal now) hh mm 0 0 in
    (toordinal candidate = toordinal now /\ hour candidate = hh
     /\ minute candidate = mm /\ second candidate = 0
     /\ microsecond candidate = 0) /\
    target = (if candidate <=? now then candidate + days 1 else candidate) /\
    toordinal target = toordinal now + (if candidate <=? now then 1 else 0) /\
    hour target = hh /\ minute target = mm /\ second target = 0 /\
    microsecond target = 0.
Proof.
  intros P Hh Hm Hn.
  destruct (resolve_target_total time_part hh mm now P Hh Hm Hn) as [target R].
  exists target. split; [exact R|].
  destruct (resolve_target_inv _ _ _ R) as (hh' & mm' & P' & _ & E).
  rewrite P in P'. injection P' as <- <-. cbv zeta in E |- *.
  pose proof (combine_fields (toordinal now) hh mm Hh Hm) as F.
  cbv zeta in F. destruct F as (F1 & F2 & F3 & F4 & F5).
  split; [repeat split; assumption|].
  replace (days 1) with US_PER_DAY by reflexivity.
  split; [exact E|].
  rewrite E. destruct (combine (toordinal now) hh mm 0 0 <=? now).
  - destruct (add_day_fields (combine (toordinal now) hh mm 0 0))
      as (A1 & A2 & A3 & A4 & A5).
    rewrite A1, A2, A3, A4, A5, F1, F2, F3, F4, F5. repeat split.
  - rewrite F1, F2, F3, F4, F5. repeat split. lia.
Qed.

Lemma resolve_target_rule_witness :
  isoformat at_1400 = "2024-05-01T14:00:00" /\
  exists target : datetime,
    resolve_target "09:00" at_1400 = Some target /\
    isoformat target = "2024-05-02T09:00:00".
Proof.
  split; [vm_compute; reflexivity|].
  destruct (resolve_target_rule "09:00" 9 0 at_1400) as (target & R & _);
    [vm_compute; reflexivity | lia | lia
    | vm_compute; split; [discriminate | reflexivity] |].
  exists target. split; [exact R|].
  vm_compute in R. injection R as <-. vm_compute. reflexivity.
Defined.

(** *** What the handlers touch *)

Lemma reply_text_frame (c : Z) (text : string) (net : bool) (w : World) :
  state (reply_text c text net w) = state w /\
  disk (reply_text c text net w) = disk w /\
  jobs (reply_text c text net w) = jobs w.
Proof. destruct net; repeat split. Qed.

Lemma list_not_self_app {A : Type} (l : list A) (x : A) : l <> (l ++ [x])%list.
Proof.
  intros E. apply (f_equal (@List.length A)) in E.
  rewrite length_app in E. simpl in E. lia.
Qed.

Section RemindProperties.

Variable utcoffset : datetime -> option Z.

(** The ways [remind_command] can end: nothing scheduled and the state
    as it was; or one job for the resolved time, and with it (unless
    [reminders] is not a list) one record, saved to the file. *)
Lemma remind_command_cases (args : list string) (c : Z) (now : datetime)
  (net : bool) (w : World) :
  let w' := remind_command utcoffset args c now net w in
  (jobs w' = jobs w /\ state w' = state w /\ disk w' = disk w) \/
  (exists (id : string) (target : datetime),
      (2 <= List.length args)%nat /\
      resolve_target (nth 0 args "") now = Some target /\
      reminder_job_id utcoffset (state w) target = Some id /\
      jobs w' = (jobs w ++ [DateJob id target c (join " " (tl args))])%list /\
      (append_reminder (reminder_record id target c (join " " (tl args)))
         (state w) = None /\
       state w' = state w /\ disk w' = disk w \/
       append_reminder (reminder_record id target c (join " " (tl args)))
         (state w) = Some (state w') /\
       disk w' = Some (dumps (JObj (state w'))))).
Proof.
  unfold remind_command.
  destruct (List.length args <? 2)%nat eqn:L.
  { left. cbv zeta. destruct net; repeat split. }
  apply Nat.ltb_ge in L.
  destruct (resolve_target (nth 0 args "") now) as [target|] eqn:R.
  2:{ left. cbv zeta. destruct net; repeat split. }
  destruct (reminder_job_id utcoffset (state w) target) as [id|] eqn:I.
  2:{ left. repeat split. }
  unfold add_job.
  destruct (existsb _ (jobs w)).
  { left. repeat split. }
  cbv zeta. right. exists id, target.
  split; [exact L|]. split; [reflexivity|]. split; [exact I|].
  simpl state.
  destruct (append_reminder _ (state w)) as [st|] eqn:A.
  - destruct net; (split; [reflexivity|]); right; split; reflexivity.
  - split; [reflexivity|]. left. repeat split.
Qed.

(** C10.  Every reminder [remind_command] schedules is set for a whole
    minute (seconds and microseconds zero) that lies after [now] and at
    most 24 hours after it. *)
Theorem remind_target_within_a_day (args : list string) (c : Z)
  (now : datetime) (net : bool) (w : World)
  (id : string) (target : datetime) (c' : Z) (content : string) :
  jobs (remind_command utcoffset args c now net w)
  = (jobs w ++ [DateJob id target c' content])%list ->
  second target = 0 /\ microsecond target = 0 /\
  now < target <= now + 24 * US_PER_HOUR.
Proof.
  intros J.
  destruct (remind_command_cases args c now net w)
    as [(J' & _) | (id' & target' & _ & R & _ & J' & _)].
  - rewrite J' in J. exfalso. exact (list_not_self_app _ _ J).
  - rewrite J' in J. apply app_inv_head in J. injection J as <- <- <- <-.
    destruct (resolve_target_inv _ _ _ R) as (hh & mm & _ & (Hh & Hm) & E).
    cbv zeta in E.
    pose proof (combine_fields (toordinal now) hh mm Hh Hm) as F.
    cbv zeta in F. destruct F as (_ & _ & _ & F4 & F5).
    pose proof (candidate_same_day now hh mm Hh Hm) as B.
    cbv zeta in B. destruct B as (B & _).
    destruct (combine (toordinal now) hh mm 0 0 <=? now) eqn:C; subst target'.
    + apply Z.leb_le in C.
      destruct (add_day_fields (combine (toordinal now) hh mm 0 0))
        as (_ & _ & _ & A4 & A5).
      rewrite A4, A5, F4, F5. unfold_units. lia.
    + apply Z.leb_gt in C. rewrite F4, F5. unfold_units. lia.
Qed.

End RemindProperties.


Section RemindRejects.

Variable utcoffset : datetime -> option Z.


End RemindRejects.


(** *** Recording an action *)

Lemma dict_find_set_same (k : string) (v : json) (d : pydict) :
  dict_find k (dict_set k v d) = Some v.
Proof.
  induction d as [|[k' v'] d IH]; simpl.
  - rewrite String.eqb_refl. reflexivity.
  - destruct (String.eqb k k') eqn:E; simpl; rewrite E; auto.
Qed.

Lemma dict_find_set_other (k k' : string) (v : json) (d : pydict) :
  k' <> k -> dict_find k' (dict_set k v d) = dict_find k' d.
Proof.
  intros N. induction d as [|[k0 v0] d IH]; simpl.
  - apply String.eqb_neq in N. rewrite N. reflexivity.
  - destruct (String.eqb k k0) eqn:E; simpl.
    + apply String.eqb_eq in E. subst k0.
      apply String.eqb_neq in N. rewrite N. reflexivity.
    + rewrite IH. reflexivity.
Qed.

Lemma dict_set_keys (k : string) (v : json) (d : pydict) :
  map fst (dict_set k v d)
  = (if existsb (String.eqb k) (map fst d) then map fst d
     else map fst d ++ [k])%list.
Proof.
  induction d as [|[k' v'] d IH]; simpl; [reflexivity|].
  destruct (String.eqb k k') eqn:E; simpl; [reflexivity|].
  rewrite IH. destruct (existsb (String.eqb k) (map fst d)); reflexivity.
Qed.

(** C9.  Each of [/feed], [/drink] and [/sleep] sets its own field of
    the state to the time of the call and writes the whole document to
    the file; every other key keeps its value, and the scheduler is not
    touched. *)
Theorem record_action_frame (k : ActionKind) (c : Z) (now : datetime)
  (net : bool) (w : World) :
  let w' := record_action k c now net w in
  state w' = dict_set (field_of k) (JStr (isoformat now)) (state w) /\
  dict_find (field_of k) (state w') = Some (JStr (isoformat now)) /\
  (forall key : string,
      key <> field_of k -> dict_find key (state w') = dict_find key (state w)) /\
  disk w' = Some (dumps (JObj (state w'))) /\
  jobs w' = jobs w.
Proof.
  cbv zeta.
  assert (S : state (record_action k c now net w)
              = dict_set (field_of k) (JStr (isoformat now)) (state w)).
  { destruct k, net; reflexivity. }
  split; [exact S|]. rewrite S.
  split; [apply dict_find_set_same|].
  split; [intros key N; apply dict_find_set_other; exact N|].
  split; destruct k, net; reflexivity.
Qed.


Lemma remind_target_within_a_day_witness :
  let target := 63850237200000000 in
  isoformat target = "2024-05-02T09:00:00" /\
  second target = 0 /\ microsecond target = 0 /\
  at_1400 < target <= at_1400 + 24 * US_PER_HOUR.
Proof.
  cbv zeta. split; [vm_compute; reflexivity|].
  apply (remind_target_within_a_day utc ["09:00"; "buy"; "milk"] 42
           at_1400 true first_run "remind_1_1714640400" 63850237200000000
           42 "buy milk").
  vm_compute. reflexivity.
Defined.

(** *** The reminder job *)

(** [send_reminder_job] sends one message with the reminder's text to
    the chat (or, when sending fails, logs the exception) and touches
    neither the state, nor the file, nor the scheduler; called twice, it
    sends twice. *)
Theorem send_reminder_job_effect (c : Z) (content : string) (net : bool)
  (w : World) :
  let w' := send_reminder_job c content net w in
  state w' = state w /\ disk w' = disk w /\ jobs w' = jobs w /\
  outbox w'
  = (if net then outbox w ++ [(c, reminder_text content)] else outbox w)%list /\
  log w'
  = (if net then log w
     else log w ++ [LogException "無法發送提醒：%s"])%list /\
  outbox (send_reminder_job c content true (send_reminder_job c content true w))
  = (outbox w ++ [(c, reminder_text content);
                  (c, reminder_text content)])%list.
Proof.
  cbv zeta. destruct net; repeat split; simpl;
    rewrite <- app_assoc; reflexivity.
Qed.

(** *** The periodic check *)

(** C4, as the code has it.  [schedule_periodic_checks] registers
    [check_and_notify] every 30 minutes; each run compares the time
    since [last_feed] of the in-memory state with
    [FEED_THRESHOLD_HOURS] and, when feeding is due, writes one log
    record.  It sends nothing and leaves state, file and scheduler as
    they are. *)
Theorem check_and_notify_effect (now : datetime) (w : World) :
  let w' := check_and_notify now w in
  state w' = state w /\ disk w' = disk w /\ jobs w' = jobs w /\
  outbox w' = outbox w /\
  log w'
  = (match is_due (dict_get "last_feed" (state w)) FEED_THRESHOLD_HOURS now with
     | Some true => log w ++ [FEED_DUE]
     | Some false => log w
     | None => log w ++ [LogException "check_and_notify error"]
     end)%list /\
  jobs (schedule_periodic_checks (set_jobs [] w))
  = [IntervalJob "periodic_check" 30].
Proof.
  cbv zeta. unfold check_and_notify.
  destruct (is_due (dict_get "last_feed" (state w)) FEED_THRESHOLD_HOURS now)
    as [[|]|]; repeat split.
Qed.

(** C4 is not what the code does: an hour after feeding, drinking and
    sleeping have never been recorded, so both are due, yet the check
    sends no notification and logs nothing; and when feeding itself is
    due, six hours later, the check logs but still sends nothing. *)
Lemma periodic_check_skips_drink_and_sleep :
  let now := at_1400 + US_PER_HOUR in
  let later := at_1400 + 6 * US_PER_HOUR in
  is_due (dict_get "last_drink" (state fed_at_1400)) DRINK_THRESHOLD_HOURS now
  = Some true /\
  is_due (dict_get "last_sleep" (state fed_at_1400)) SLEEP_THRESHOLD_HOURS now
  = Some true /\
  run utc (Tick now) fed_at_1400 = Some fed_at_1400 /\
  is_due (dict_get "last_feed" (state fed_at_1400)) FEED_THRESHOLD_HOURS later
  = Some true /\
  option_map outbox (run utc (Tick later) fed_at_1400)
  = Some (outbox fed_at_1400).
Proof.
  vm_compute. repeat split.
Qed.

(** *** Facts about text *)

Lemma append_assoc (a b c : string) : (a ++ b) ++ c = a ++ (b ++ c).
Proof. induction a as [|x a IH]; simpl; [reflexivity | now rewrite IH]. Qed.

Lemma append_nil_r (a : string) : a ++ "" = a.
Proof. induction a as [|x a IH]; simpl; [reflexivity | now rewrite IH]. Qed.

Lemma length_append (a b : string) :
  String.length (a ++ b) = (String.length a + String.length b)%nat.
Proof. induction a as [|x a IH]; simpl; [reflexivity | now rewrite IH]. Qed.

Lemma head_is_append (p : ascii -> bool) (a b : string) :
  head_is p a = true -> head_is p (a ++ b) = true.
Proof. destruct a; simpl; [discriminate | auto]. Qed.

Lemma drop_while_head (p : ascii -> bool) (s : string) :
  head_is (fun c => negb (p c)) s = true -> drop_while p s = s.
Proof.
  destruct s as [|c r]; simpl; [reflexivity|].
  destruct (p c); [discriminate | reflexivity].
Qed.

Lemma span_all (p : ascii -> bool) (ds rest : string) :
  all_chars p ds = true -> head_is p rest = false ->
  span p (ds ++ rest) = (ds, rest).
Proof.
  intros A H. induction ds as [|c ds IH]; simpl.
  - destruct rest as [|c r]; [reflexivity|]. simpl in H |- *.
    rewrite H. reflexivity.
  - simpl in A. apply andb_true_iff in A. destruct A as [A1 A2].
    rewrite A1, (IH A2). reflexivity.
Qed.

(** *** Facts about decimal numerals *)

Lemma string_of_uint_digits (d : Decimal.uint) :
  all_chars is_digit (NilEmpty.string_of_uint d) = true.
Proof. induction d; simpl; auto. Qed.

Lemma to_uint_normal (n : N) : Decimal.unorm (N.to_uint n) = N.to_uint n.
Proof.
  rewrite <- (DecimalN.Unsigned.of_to n) at 2.
  rewrite DecimalN.Unsigned.to_of. reflexivity.
Qed.

Lemma to_uint_nonnil (n : N) : N.to_uint n <> Decimal.Nil.
Proof. rewrite <- to_uint_normal. apply unorm_nonnil. Qed.

Lemma str_N_empty_form (n : N) : str_N n = NilEmpty.string_of_uint (N.to_uint n).
Proof.
  unfold str_N, NilZero.string_of_uint.
  destruct (N.to_uint n) eqn:E; try reflexivity.
  exfalso. exact (to_uint_nonnil n E).
Qed.

Lemma str_N_digits (n : N) : all_chars is_digit (str_N n) = true.
Proof. rewrite str_N_empty_form. apply string_of_uint_digits. Qed.

Lemma str_N_head (n : N) : head_is is_digit (str_N n) = true.
Proof.
  rewrite str_N_empty_form.
  pose proof (to_uint_nonnil n) as H.
  destruct (N.to_uint n); try reflexivity. congruence.
Qed.

Lemma N_of_digits_str_N (n : N) : N_of_digits (str_N n) = Some n.
Proof.
  unfold N_of_digits.
  pose proof (str_N_head n) as H.
  destruct (str_N n) as [|c r] eqn:E; [discriminate|].
  rewrite <- E, str_N_empty_form, NilEmpty.usu. simpl.
  rewrite DecimalN.Unsigned.of_to. reflexivity.
Qed.

(** [str(n)] has no leading zero, except for ["0"] itself. *)
Lemma str_N_no_leading_zero (n : N) (c : ascii) (r : string) :
  str_N n <> String "0" (String c r).
Proof.
  rewrite str_N_empty_form. intros E.
  pose proof (to_uint_normal n) as U.
  destruct (N.to_uint n) as [|d|d|d|d|d|d|d|d|d|d]; simpl in E;
    try discriminate.
  injection E as E.
  assert (D : d <> Decimal.Nil) by (intros ->; discriminate E).
  rewrite unorm_D0 in U. unfold Decimal.unorm in U.
  pose proof (nzhead_nonzero d) as Z.
  destruct (Decimal.nzhead d); try discriminate U.
  - injection U as U. congruence.
  - exact (Z _ eq_refl).
Qed.

(** *** [json.load] after [json.dump] *)

Lemma scan_escape_char (c : ascii) (rest : string) :
  scanstring_from Plain (escape_char c ++ rest)
  = prepend (String c "") (scanstring_from Plain rest).
Proof. destruct c as [[] [] [] [] [] [] [] []]; reflexivity. Qed.

Lemma scanstring_escape_body (s rest : string) :
  scanstring (escape_body s ++ String dquote rest) = Some (s, rest).
Proof.
  unfold scanstring. induction s as [|c s IH]; simpl.
  - reflexivity.
  - rewrite append_assoc, scan_escape_char, IH. reflexivity.
Qed.

Lemma encode_basestring_append (s rest : string) :
  encode_basestring s ++ rest
  = String dquote (escape_body s ++ String dquote rest).
Proof.
  unfold encode_basestring. simpl. rewrite append_assoc. reflexivity.
Qed.

Lemma number_end_split (rest : string) :
  number_end rest = true ->
  head_is is_digit rest = false /\ head_is float_mark rest = false.
Proof.
  unfold number_end. destruct rest as [|c r]; simpl; [auto|].
  destruct (is_digit c), (float_mark c); simpl; auto; discriminate.
Qed.

Lemma leading_zero_str_N (n : N) : leading_zero (str_N n) = false.
Proof.
  pose proof (str_N_no_leading_zero n) as H.
  destruct (str_N n) as [|c [|c' r]]; try reflexivity.
  simpl. destruct (N.eqb_spec (ord c) 48) as [E|]; [|reflexivity].
  exfalso. apply (H c' r). f_equal.
  rewrite <- (ascii_N_embedding c). unfold ord in E. rewrite E. reflexivity.
Qed.

Lemma digits_then_number (n : N) (neg : bool) (rest : string) :
  number_end rest = true ->
  (let '(ds, rest') := span is_digit (str_N n ++ rest) in
   if leading_zero ds || head_is float_mark rest' then None
   else match N_of_digits ds with
        | Some m => Some (JInt (if neg then - Z.of_N m else Z.of_N m), rest')
        | None => None
        end)
  = Some (JInt (if neg then - Z.of_N n else Z.of_N n), rest).
Proof.
  intros E. destruct (number_end_split _ E) as [D F].
  rewrite (span_all _ _ _ (str_N_digits n) D).
  rewrite leading_zero_str_N, F, N_of_digits_str_N. reflexivity.
Qed.

Lemma match_number_signed (r : string) :
  match_number (String "-" r) = number_body true r.
Proof. reflexivity. Qed.

Lemma match_number_unsigned (c : ascii) (r : string) :
  is_digit c = true -> match_number (String c r) = number_body false (String c r).
Proof.
  intros H. unfold match_number, number_body.
  replace (ord c =? 45)%N with false; [reflexivity|].
  symmetry. apply N.eqb_neq. unfold is_digit in H.
  apply andb_true_iff in H. destruct H as [H _].
  apply N.leb_le in H. lia.
Qed.

Lemma match_number_str_Z (z : Z) (rest : string) :
  number_end rest = true ->
  match_number (str_Z z ++ rest) = Some (JInt z, rest).
Proof.
  intros E. unfold str_Z.
  destruct (z <? 0) eqn:S.
  - apply Z.ltb_lt in S. simpl append. rewrite match_number_signed.
    unfold number_body. rewrite (digits_then_number _ true _ E).
    rewrite N2Z.inj_abs_N. repeat f_equal. lia.
  - apply Z.ltb_ge in S.
    pose proof (str_N_head (Z.to_N z)) as H.
    pose proof (digits_then_number (Z.to_N z) false _ E) as G.
    destruct (str_N (Z.to_N z)) as [|c r]; [discriminate|].
    simpl in H. simpl append in G |- *.
    rewrite (match_number_unsigned _ _ H). unfold number_body.
    rewrite G. rewrite Z2N.id by exact S. reflexivity.
Qed.

Lemma scan_once_number (f : nat) (c : ascii) (r : string) :
  number_start c = true ->
  scan_once (S f) (String c r) = match_number (String c r).
Proof.
  intros H.
  destruct c as [[] [] [] [] [] [] [] []];
    try (vm_compute in H; discriminate H); reflexivity.
Qed.

Lemma str_Z_head (z : Z) : head_is number_start (str_Z z) = true.
Proof.
  unfold str_Z. destruct (z <? 0); [reflexivity|].
  pose proof (str_N_head (Z.to_N z)) as H.
  destruct (str_N (Z.to_N z)); [discriminate|].
  simpl in *. unfold number_start. rewrite H. reflexivity.
Qed.

Lemma iterencode_arr (level : nat) (x : json) (xs : list json) :
  iterencode level (JArr (x :: xs))
  = "[" ++ newline_indent (S level) ++ iterencode (S level) x
    ++ enc_items (S level) xs ++ newline_indent level ++ "]".
Proof. reflexivity. Qed.

Lemma iterencode_obj (level : nat) (k : string) (x : json)
  (kxs : list (string * json)) :
  iterencode level (JObj ((k, x) :: kxs))
  = "{" ++ newline_indent (S level)
    ++ encode_basestring k ++ ": " ++ iterencode (S level) x
    ++ enc_members (S level) kxs ++ newline_indent level ++ "}".
Proof. reflexivity. Qed.

Lemma head_is_weaken (p q : ascii -> bool) (s : string) :
  (forall c, p c = true -> q c = true) ->
  head_is p s = true -> head_is q s = true.
Proof. destruct s; simpl; auto. Qed.

Lemma iterencode_head (level : nat) (v : json) :
  head_is value_start (iterencode level v) = true.
Proof.
  destruct v as [|[|]|z|s|[|x xs]|[|[k x] kxs]]; try reflexivity.
  simpl. apply (head_is_weaken number_start); [|apply str_Z_head].
  intros c H. unfold value_start. rewrite H. reflexivity.
Qed.

Lemma value_start_not_ws (c : ascii) : value_start c = true -> is_ws c = false.
Proof. by_cases_on c. Qed.

Lemma value_start_not_close (c : ascii) :
  value_start c = true -> (ord c =? 93)%N = false.
Proof. by_cases_on c. Qed.

Lemma skip_ws_value (level : nat) (v : json) (rest : string) :
  skip_ws (iterencode level v ++ rest) = iterencode level v ++ rest.
Proof.
  apply drop_while_head. apply head_is_append.
  apply (head_is_weaken value_start); [|apply iterencode_head].
  intros c H. rewrite (value_start_not_ws c H). reflexivity.
Qed.

Lemma value_not_close (level : nat) (v : json) (rest : string) :
  head_is (fun c => (ord c =? 93)%N) (iterencode level v ++ rest) = false.
Proof.
  pose proof (iterencode_head level v) as H.
  destruct (iterencode level v) as [|c r]; [discriminate|].
  simpl in *. apply value_start_not_close. exact H.
Qed.

Lemma skip_ws_spaces (k : nat) (rest : string) :
  skip_ws (spaces k ++ rest) = skip_ws rest.
Proof. induction k as [|k IH]; simpl; [reflexivity | exact IH]. Qed.

Lemma skip_ws_newline_indent (level : nat) (rest : string) :
  skip_ws (newline_indent level ++ rest) = skip_ws rest.
Proof. unfold newline_indent. simpl. apply skip_ws_spaces. Qed.

Lemma jsize_pos (v : json) : (1 <= jsize v)%nat.
Proof. destruct v; simpl; lia. Qed.

(** *** Dictionaries with distinct keys *)

Lemma distinct_app_fresh (a b : list string) (k : string) :
  distinct (a ++ k :: b) = true -> existsb (String.eqb k) a = false.
Proof.
  induction a as [|x a IH]; simpl; [reflexivity|].
  intros H. apply andb_true_iff in H. destruct H as [H1 H2].
  rewrite (IH H2), orb_false_r.
  rewrite existsb_app in H1. simpl in H1.
  destruct (String.eqb x k) eqn:E.
  - rewrite orb_true_r in H1. discriminate.
  - rewrite String.eqb_sym. exact E.
Qed.

Lemma dict_set_fresh (k : string) (v : json) (d : pydict) :
  existsb (String.eqb k) (map fst d) = false ->
  dict_set k v d = (d ++ [(k, v)])%list.
Proof.
  induction d as [|[k' v'] d IH]; simpl; [reflexivity|].
  intros H. apply orb_false_iff in H. destruct H as [H1 H2].
  rewrite H1, (IH H2). reflexivity.
Qed.

Lemma fold_dict_set_distinct (pairs d : pydict) :
  distinct (map fst d ++ map fst pairs) = true ->
  fold_left (fun d kv => dict_set (fst kv) (snd kv) d) pairs d
  = (d ++ pairs)%list.
Proof.
  revert d. induction pairs as [|[k v] pairs IH]; intros d H; simpl.
  - rewrite List.app_nil_r. reflexivity.
  - simpl in H. rewrite (dict_set_fresh k v d (distinct_app_fresh _ _ _ H)).
    rewrite IH.
    + rewrite <- List.app_assoc. reflexivity.
    + rewrite map_app. simpl. rewrite <- List.app_assoc. exact H.
Qed.

Lemma dict_of_pairs_distinct (m : pydict) :
  distinct (map fst m) = true -> dict_of_pairs m = m.
Proof. intros H. unfold dict_of_pairs. now rewrite fold_dict_set_distinct. Qed.

#[local] Arguments newline_indent : simpl never.
#[local] Arguments encode_basestring : simpl never.

Lemma arr_text (level : nat) (x : json) (xs : list json) (rest : string) :
  iterencode level (JArr (x :: xs)) ++ rest
  = String "[" (newline_indent (S level) ++ iterencode (S level) x
                ++ enc_items (S level) xs
                ++ newline_indent level ++ String "]" rest).
Proof. rewrite iterencode_arr. repeat rewrite append_assoc. reflexivity. Qed.

Lemma obj_text (level : nat) (k : string) (x : json)
  (kxs : list (string * json)) (rest : string) :
  iterencode level (JObj ((k, x) :: kxs)) ++ rest
  = String "{" (newline_indent (S level)
                ++ String dquote
                     (escape_body k
                      ++ String dquote
                           (String ":" (String " "
                              (iterencode (S level) x
                               ++ enc_members (S level) kxs
                               ++ newline_indent level ++ String "}" rest))))).
Proof.
  rewrite iterencode_obj. repeat rewrite append_assoc.
  rewrite encode_basestring_append. reflexivity.
Qed.

Lemma enc_items_cons (level : nat) (y : json) (ys : list json) (rest : string) :
  enc_items level (y :: ys) ++ rest
  = String "," (newline_indent level ++ iterencode level y
                ++ enc_items level ys ++ rest).
Proof.
  change (enc_items level (y :: ys))
    with ("," ++ newline_indent level ++ iterencode level y
          ++ enc_items level ys).
  repeat rewrite append_assoc. reflexivity.
Qed.

Lemma enc_members_cons (level : nat) (k : string) (y : json)
  (l : list (string * json)) (rest : string) :
  enc_members level ((k, y) :: l) ++ rest
  = String "," (newline_indent level
                ++ String dquote
                     (escape_body k
                      ++ String dquote
                           (String ":" (String " "
                              (iterencode level y
                               ++ enc_members level l ++ rest))))).
Proof.
  change (enc_members level ((k, y) :: l))
    with ("," ++ newline_indent level ++ encode_basestring k ++ ": "
          ++ iterencode level y ++ enc_members level l).
  repeat rewrite append_assoc.
  rewrite encode_basestring_append. reflexivity.
Qed.

Lemma scan_once_string (f : nat) (r : string) :
  scan_once (S f) (String dquote r)
  = match scanstring r with
    | Some (str, rest) => Some (JStr str, rest)
    | None => None
    end.
Proof. reflexivity. Qed.

Lemma scan_once_array (f : nat) (r : string) :
  scan_once (S f) (String "[" r)
  = if head_is (fun c' => (ord c' =? 93)%N) (skip_ws r)
    then Some (JArr [], tail (skip_ws r))
    else match array_items f (skip_ws r) with
         | Some (vs, rest) => Some (JArr vs, rest)
         | None => None
         end.
Proof. reflexivity. Qed.

Lemma scan_once_object (f : nat) (r : string) :
  scan_once (S f) (String "{" r)
  = match skip_ws r with
    | String c' r' =>
        if (ord c' =? 125)%N then Some (JObj [], r')
        else if (ord c' =? 34)%N then
          match object_members f r' with
          | Some (pairs, rest) => Some (JObj (dict_of_pairs pairs), rest)
          | None => None
          end
        else None
    | "" => None
    end.
Proof. reflexivity. Qed.

Lemma array_items_step (f : nat) (s : string) :
  array_items (S f) s
  = match scan_once f s with
    | Some (v, r) =>
        match skip_ws r with
        | String c rest =>
            (if ord c =? 93 then Some ([v], rest)
             else if ord c =? 44 then
               match array_items f (skip_ws rest) with
               | Some (vs, rest') => Some (v :: vs, rest')
               | None => None
               end
             else None)%N
        | "" => None
        end
    | None => None
    end.
Proof. reflexivity. Qed.

Lemma object_members_step (f : nat) (s : string) :
  object_members (S f) s
  = match scanstring s with
    | Some (key, r) =>
        match skip_ws r with
        | String c r1 =>
            if (ord c =? 58)%N then
              match scan_once f (skip_ws r1) with
              | Some (v, r2) =>
                  match skip_ws r2 with
                  | String c2 rest =>
                      (if ord c2 =? 125 then Some ([(key, v)], rest)
                       else if ord c2 =? 44 then
                         match skip_ws rest with
                         | String c3 r3 =>
                             if ord c3 =? 34 then
                               match object_members f r3 with
                               | Some (kvs, rest') =>
                                   Some ((key, v) :: kvs, rest')
                               | None => None
                               end
                             else None
                         | "" => None
                         end
                       else None)%N
                  | "" => None
                  end
              | None => None
              end
            else None
        | "" => None
        end
    | None => None
    end.
Proof. reflexivity. Qed.

Lemma skip_ws_keep (c : ascii) (r : string) :
  is_ws c = false -> skip_ws (String c r) = String c r.
Proof. intros H. unfold skip_ws. simpl. rewrite H. reflexivity. Qed.

Lemma skip_ws_close (level : nat) (c : ascii) (rest : string) :
  is_ws c = false ->
  skip_ws (newline_indent level ++ String c rest) = String c rest.
Proof.
  intros H. rewrite skip_ws_newline_indent. apply skip_ws_keep. exact H.
Qed.

Section ScanEncoded.

(** The values the induction hypothesis covers. *)
Variable n : nat.
Hypothesis scan_smaller :
  forall v : json, (jsize v <= n)%nat ->
  forall (level fuel : nat) (rest : string),
    wf v = true -> number_end rest = true -> (jsize v <= fuel)%nat ->
    scan_once fuel (iterencode level v ++ rest) = Some (v, rest).

Lemma array_items_encoded (level : nat) (close : string) :
  head_is is_ws close = true ->
  forall rest : string,
  skip_ws close = String "]" rest ->
  forall (xs : list json) (x : json) (fuel : nat),
    forallb wf (x :: xs) = true ->
    (list_sum (map (fun x => S (jsize x)) (x :: xs)) <= fuel)%nat ->
    (list_sum (map (fun x => S (jsize x)) (x :: xs)) <= S n)%nat ->
    array_items fuel (iterencode level x ++ enc_items level xs ++ close)
    = Some (x :: xs, rest).
Proof.
  intros Hc rest Hs.
  assert (Ec : number_end close = true).
  { destruct close as [|c r]; [discriminate|]. simpl in Hc.
    unfold number_end. simpl. revert Hc. by_cases_on c. }
  induction xs as [|y ys IHxs]; intros x fuel W F B;
    (destruct fuel as [|f]; [simpl in F; lia|]);
    simpl in W; apply andb_true_iff in W; destruct W as [Wx W];
    simpl in F, B; rewrite array_items_step.
  - rewrite scan_smaller; [|lia|exact Wx|exact Ec|lia].
    simpl append. rewrite Hs. reflexivity.
  - rewrite enc_items_cons.
    rewrite scan_smaller; [|lia|exact Wx|reflexivity|lia].
    rewrite skip_ws_keep by reflexivity.
    change (ord "," =? 93)%N with false. change (ord "," =? 44)%N with true.
    cbv iota.
    rewrite skip_ws_newline_indent, skip_ws_value.
    rewrite IHxs; [reflexivity|exact W|simpl; lia|simpl; lia].
Qed.

Lemma object_members_encoded (level : nat) (close : string) :
  head_is is_ws close = true ->
  forall rest : string,
  skip_ws close = String "}" rest ->
  forall (kxs : list (string * json)) (k : string) (x : json) (fuel : nat),
    forallb (fun kv => wf (snd kv)) ((k, x) :: kxs) = true ->
    (list_sum (map (fun kv => S (jsize (snd kv))) ((k, x) :: kxs)) <= fuel)%nat ->
    (list_sum (map (fun kv => S (jsize (snd kv))) ((k, x) :: kxs)) <= S n)%nat ->
    object_members fuel
      (escape_body k
       ++ String dquote
            (String ":" (String " "
               (iterencode level x ++ enc_members level kxs ++ close))))
    = Some ((k, x) :: kxs, rest).
Proof.
  intros Hc rest Hs.
  assert (Ec : number_end close = true).
  { destruct close as [|c r]; [discriminate|]. simpl in Hc.
    unfold number_end. simpl. revert Hc. by_cases_on c. }
  induction kxs as [|[k' y] l IHl]; intros k x fuel W F B;
    (destruct fuel as [|f]; [simpl in F; lia|]);
    simpl in W; apply andb_true_iff in W; destruct W as [Wx W];
    simpl in F, B; rewrite object_members_step;
    rewrite scanstring_escape_body;
    rewrite skip_ws_keep by reflexivity;
    change (ord ":" =? 58)%N with true; cbv iota;
    change (skip_ws (String " " ?r)) with (skip_ws r);
    rewrite skip_ws_value.
  - rewrite scan_smaller; [|lia|exact Wx|exact Ec|lia].
    simpl append. rewrite Hs. reflexivity.
  - rewrite enc_members_cons.
    rewrite scan_smaller; [|lia|exact Wx|reflexivity|lia].
    rewrite skip_ws_keep by reflexivity.
    change (ord "," =? 125)%N with false. change (ord "," =? 44)%N with true.
    cbv iota.
    rewrite skip_ws_close by reflexivity.
    change (ord dquote =? 34)%N with true. cbv iota.
    rewrite IHl; [reflexivity|exact W|simpl; lia|simpl; lia].
Qed.

End ScanEncoded.

Lemma newline_indent_head (level : nat) (rest : string) :
  head_is is_ws (newline_indent level ++ rest) = true.
Proof. reflexivity. Qed.

(** Decoding the text of a value gives the value back and stops where
    the text stops, whatever fuel at least [jsize] is supplied. *)
Lemma scan_once_iterencode (n : nat) :
  forall v : json, (jsize v <= n)%nat ->
  forall (level fuel : nat) (rest : string),
    wf v = true -> number_end rest = true -> (jsize v <= fuel)%nat ->
    scan_once fuel (iterencode level v ++ rest) = Some (v, rest).
Proof.
  induction n as [|n IH]; intros v Hn level fuel rest W E F.
  { pose proof (jsize_pos v). lia. }
  destruct fuel as [|f]; [pose proof (jsize_pos v); lia|].
  destruct v as [|[|]|z|s|[|x xs]|[|[k x] kxs]]; try reflexivity.
  - (* an integer *)
    change (iterencode level (JInt z)) with (str_Z z).
    pose proof (str_Z_head z) as H.
    pose proof (match_number_str_Z z rest E) as M.
    destruct (str_Z z) as [|c r]; [discriminate|].
    simpl in H. simpl append in M |- *.
    rewrite (scan_once_number f c _ H). exact M.
  - (* a string *)
    change (iterencode level (JStr s)) with (encode_basestring s).
    rewrite encode_basestring_append, scan_once_string.
    rewrite scanstring_escape_body. reflexivity.
  - (* a list *)
    rewrite arr_text, scan_once_array.
    rewrite skip_ws_newline_indent, skip_ws_value, value_not_close.
    simpl in F, Hn.
    rewrite (array_items_encoded n IH (S level)
               (newline_indent level ++ String "]" rest)
               (newline_indent_head _ _) rest
               (skip_ws_close level "]" rest eq_refl) xs x f W);
      [reflexivity | simpl; lia | simpl; lia].
  - (* a dictionary *)
    rewrite obj_text, scan_once_object.
    rewrite skip_ws_close by reflexivity.
    change (ord dquote =? 125)%N with false.
    change (ord dquote =? 34)%N with true. cbv iota.
    simpl in F, Hn, W. apply andb_true_iff in W. destruct W as [D W].
    rewrite (object_members_encoded n IH (S level)
               (newline_indent level ++ String "}" rest)
               (newline_indent_head _ _) rest
               (skip_ws_close level "}" rest eq_refl) kxs k x f W);
      [|simpl; lia|simpl; lia].
    rewrite dict_of_pairs_distinct by exact D. reflexivity.
Qed.

Lemma length_newline_indent (level : nat) :
  (1 <= String.length (newline_indent level))%nat.
Proof. unfold newline_indent. simpl. lia. Qed.

Lemma jsize_le_length (n : nat) :
  forall v : json, (jsize v <= n)%nat ->
  forall level : nat, (jsize v <= String.length (iterencode level v))%nat.
Proof.
  induction n as [|n IH]; intros v Hn level.
  { pose proof (jsize_pos v). lia. }
  assert (Items : forall (L : nat) (xs : list json),
             (list_sum (map (fun x => S (jsize x)) xs) <= n)%nat ->
             (list_sum (map (fun x => S (jsize x)) xs)
              <= String.length (enc_items L xs))%nat).
  { intros L. induction xs as [|y ys IHys]; intros B; simpl in B.
    - simpl. lia.
    - change (enc_items L (y :: ys))
        with ("," ++ newline_indent L ++ iterencode L y ++ enc_items L ys).
      repeat rewrite length_append.
      pose proof (length_newline_indent L).
      pose proof (IH y ltac:(lia) L). pose proof (IHys ltac:(lia)).
      simpl. lia. }
  assert (Members : forall (L : nat) (l : list (string * json)),
             (list_sum (map (fun kv => S (jsize (snd kv))) l) <= n)%nat ->
             (list_sum (map (fun kv => S (jsize (snd kv))) l)
              <= String.length (enc_members L l))%nat).
  { intros L. induction l as [|[k y] l IHl]; intros B; simpl in B.
    - simpl. lia.
    - change (enc_members L ((k, y) :: l))
        with ("," ++ newline_indent L ++ encode_basestring k ++ ": "
              ++ iterencode L y ++ enc_members L l).
      repeat rewrite length_append.
      pose proof (length_newline_indent L).
      pose proof (IH y ltac:(lia) L). pose proof (IHl ltac:(lia)).
      simpl. lia. }
  destruct v as [|[|]|z|s|[|x xs]|[|[k x] kxs]]; try (simpl; lia).
  - change (iterencode level (JInt z)) with (str_Z z).
    pose proof (str_Z_head z) as H.
    destruct (str_Z z); [discriminate | simpl; lia].
  - rewrite iterencode_arr. repeat rewrite length_append.
    simpl in Hn.
    pose proof (length_newline_indent (S level)).
    pose proof (IH x ltac:(lia) (S level)).
    pose proof (Items (S level) xs ltac:(lia)).
    simpl. lia.
  - rewrite iterencode_obj. repeat rewrite length_append.
    simpl in Hn.
    pose proof (length_newline_indent (S level)).
    pose proof (IH x ltac:(lia) (S level)).
    pose proof (Members (S level) kxs ltac:(lia)).
    simpl. lia.
Qed.

(** [json.load] reads back what [json.dump] wrote. *)
Lemma loads_dumps (v : json) : wf v = true -> loads (dumps v) = Some v.
Proof.
  intros W. unfold loads, dumps.
  pose proof (skip_ws_value 0 v "") as K. rewrite append_nil_r in K.
  rewrite K.
  pose proof (scan_once_iterencode (jsize v) v (le_n _) 0
                (S (String.length (iterencode 0 v))) "" W eq_refl) as R.
  rewrite append_nil_r in R. rewrite R; [reflexivity|].
  pose proof (jsize_le_length (jsize v) v (le_n _) 0). lia.
Qed.
(** *** What holds in every world the bot can reach *)

Lemma distinct_snoc (ks : list string) (k : string) :
  distinct ks = true -> existsb (String.eqb k) ks = false ->
  distinct (ks ++ [k]) = true.
Proof.
  induction ks as [|x ks IH]; simpl; [reflexivity|].
  intros D E. apply andb_true_iff in D. destruct D as [D1 D2].
  apply orb_false_iff in E. destruct E as [E1 E2].
  rewrite (IH D2 E2), andb_true_r.
  rewrite existsb_app. simpl. rewrite orb_false_r.
  apply negb_true_iff in D1. rewrite D1. simpl.
  rewrite String.eqb_sym. rewrite E1. reflexivity.
Qed.

Lemma forallb_dict_set (p : json -> bool) (k : string) (v : json) (d : pydict) :
  forallb (fun kv => p (snd kv)) d = true -> p v = true ->
  forallb (fun kv => p (snd kv)) (dict_set k v d) = true.
Proof.
  intros F V. induction d as [|[k' v'] d IH]; simpl.
  - rewrite V. reflexivity.
  - simpl in F. apply andb_true_iff in F. destruct F as [F1 F2].
    destruct (String.eqb k k'); simpl.
    + rewrite V, F2. reflexivity.
    + rewrite F1, (IH F2). reflexivity.
Qed.

Lemma wf_dict_set (k : string) (v : json) (d : pydict) :
  wf (JObj d) = true -> wf v = true -> wf (JObj (dict_set k v d)) = true.
Proof.
  simpl. intros W V. apply andb_true_iff in W. destruct W as [D F].
  apply andb_true_iff. split.
  - rewrite dict_set_keys.
    destruct (existsb (String.eqb k) (map fst d)) eqn:E; [exact D|].
    apply distinct_snoc; assumption.
  - apply (forallb_dict_set wf); assumption.
Qed.

Lemma wf_dict_find (k : string) (v : json) (d : pydict) :
  wf (JObj d) = true -> dict_find k d = Some v -> wf v = true.
Proof.
  simpl. intros W. apply andb_true_iff in W. destruct W as [_ F].
  induction d as [|[k' v'] d IH]; simpl; [discriminate|].
  simpl in F. apply andb_true_iff in F. destruct F as [F1 F2].
  destruct (String.eqb k k'); [intros [= <-]; exact F1 | exact (IH F2)].
Qed.

Lemma invariant_first_run : invariant first_run.
Proof.
  split; [reflexivity | reflexivity |].
  exists []. split; [reflexivity|].
  intros [|i] r H; discriminate H.
Qed.

Lemma invariant_same (w w' : World) :
  state w' = state w -> disk w' = disk w -> invariant w -> invariant w'.
Proof.
  intros S D [I1 I2 I3]. split; rewrite ?S, ?D; assumption.
Qed.

Lemma invariant_set_field (k s : string) (w w' : World) :
  k <> "reminders" ->
  state w' = dict_set k (JStr s) (state w) ->
  disk w' = Some (dumps (JObj (state w'))) ->
  invariant w -> invariant w'.
Proof.
  intros N S D [I1 I2 (l & L & Nl)]. split.
  - exact D.
  - rewrite S. apply wf_dict_set; [exact I2 | reflexivity].
  - exists l. split; [|exact Nl].
    rewrite S, dict_find_set_other; [exact L|]. congruence.
Qed.

Lemma numbered_snoc (l : list json) (ts : Z) (t : datetime) (c : Z)
  (content : string) :
  numbered l ->
  numbered
    (l ++ [reminder_record
             (reminder_id (Z.of_nat (List.length l) + 1) ts) t c content]).
Proof.
  intros Nl i r H.
  destruct (Nat.lt_ge_cases i (List.length l)) as [Lt|Ge].
  - rewrite nth_error_app1 in H by exact Lt. exact (Nl i r H).
  - rewrite nth_error_app2 in H by exact Ge.
    destruct (i - List.length l)%nat as [|j] eqn:E; simpl in H.
    + injection H as <-. replace i with (List.length l) by lia.
      exists ts, t, c, content. reflexivity.
    + destruct j; discriminate H.
Qed.

Section Reachable.

Variable utcoffset : datetime -> option Z.

Lemma invariant_remind (args : list string) (c : Z) (now : datetime)
  (net : bool) (w : World) :
  invariant w -> invariant (remind_command utcoffset args c now net w).
Proof.
  intros I.
  destruct (remind_command_cases utcoffset args c now net w)
    as [(_ & S & D) | (id & target & _ & _ & J & _ & [(_ & S & D) | (A & D)])].
  - exact (invariant_same _ _ S D I).
  - exact (invariant_same _ _ S D I).
  - destruct I as [I1 I2 (l & L & Nl)].
    unfold reminder_job_id, dict_get_or in J. rewrite L in J. simpl in J.
    destruct (int_timestamp utcoffset target) as [ts|]; [|discriminate J].
    injection J as <-.
    unfold append_reminder in A. rewrite L in A. injection A as A.
    split.
    + exact D.
    + rewrite <- A. apply wf_dict_set; [exact I2|].
      pose proof (wf_dict_find _ _ _ I2 L) as Wl. simpl in Wl |- *.
      rewrite forallb_app, Wl. reflexivity.
    + eexists. split.
      * rewrite <- A. apply dict_find_set_same.
      * apply numbered_snoc. exact Nl.
Qed.

Lemma load_state_saved (w : World) :
  invariant w -> load_state w = Some (state w, w).
Proof.
  intros [I1 I2 _]. unfold load_state. rewrite I1.
  rewrite (loads_dumps _ I2). reflexivity.
Qed.

Lemma run_invariant (e : Event) (w w' : World) :
  invariant w -> run utcoffset e w = Some w' -> invariant w'.
Proof.
  intros I R. destruct e as [c now net|c now net|c now net|args c now net
                            |c text net| |id net|now|]; simpl in R.
  - injection R as <-.
    apply (invariant_set_field "last_feed" (iso_now now) w);
      [discriminate | destruct net; reflexivity
       | destruct net; reflexivity | exact I].
  - injection R as <-.
    apply (invariant_set_field "last_drink" (iso_now now) w);
      [discriminate | destruct net; reflexivity
       | destruct net; reflexivity | exact I].
  - injection R as <-.
    apply (invariant_set_field "last_sleep" (iso_now now) w);
      [discriminate | destruct net; reflexivity
       | destruct net; reflexivity | exact I].
  - injection R as <-. apply invariant_remind. exact I.
  - injection R as <-.
    apply (invariant_same w); [destruct net; reflexivity.. | exact I].
  - injection R as <-. unfold schedule_periodic_checks.
    apply (invariant_same w); [| | exact I];
      destruct (add_job _ (jobs w)); reflexivity.
  - destruct (take_job id (jobs w)) as [[[i t c content|i m] rest]|];
      injection R as <-; try exact I.
    apply (invariant_same w); [destruct net; reflexivity.. | exact I].
  - destruct (existsb _ (jobs w)); injection R as <-; [|exact I].
    unfold check_and_notify.
    apply (invariant_same w); [| | exact I];
      destruct (is_due _ _ _) as [[|]|]; reflexivity.
  - unfold start_process in R. rewrite (load_state_saved w I) in R.
    injection R as <-. apply (invariant_same w); [reflexivity.. | exact I].
Qed.

Lemma reachable_invariant (w : World) : reachable utcoffset w -> invariant w.
Proof.
  induction 1 as [|w w' e _ IH R].
  - exact invariant_first_run.
  - exact (run_invariant e w w' IH R).
Qed.

End Reachable.
(** *** Ids of reminders *)

Lemma seq_text_inj (a b : Z) (x y : string) :
  0 <= a -> 0 <= b ->
  str_Z a ++ String "_" x = str_Z b ++ String "_" y -> a = b.
Proof.
  intros Ha Hb H. unfold str_Z in H.
  replace (a <? 0) with false in H by (symmetry; apply Z.ltb_ge; exact Ha).
  replace (b <? 0) with false in H by (symmetry; apply Z.ltb_ge; exact Hb).
  apply (f_equal (span is_digit)) in H.
  rewrite (span_all is_digit (str_N (Z.to_N a))) in H
    by (apply str_N_digits || reflexivity).
  rewrite (span_all is_digit (str_N (Z.to_N b))) in H
    by (apply str_N_digits || reflexivity).
  injection H as H _.
  apply (f_equal N_of_digits) in H. rewrite !N_of_digits_str_N in H.
  injection H as H. lia.
Qed.

Lemma reminder_id_seq_inj (a b ts ts' : Z) :
  0 <= a -> 0 <= b -> reminder_id a ts = reminder_id b ts' -> a = b.
Proof.
  intros Ha Hb H. unfold reminder_id in H. simpl in H.
  injection H as H. exact (seq_text_inj a b _ _ Ha Hb H).
Qed.

Lemma reminder_ids_map (st : pydict) :
  reminder_ids st = map job_id_of (stored_reminders st).
Proof.
  unfold reminder_ids, stored_reminders.
  destruct (dict_get_or "reminders" (JArr []) st); reflexivity.
Qed.

Lemma job_id_of_record (id : string) (t : datetime) (c : Z) (content : string) :
  job_id_of (reminder_record id t c content) = JStr id.
Proof. reflexivity. Qed.

Lemma numbered_ids_unique (l : list json) :
  numbered l -> NoDup (map job_id_of l).
Proof.
  intros Nl. apply NoDup_nth_error. intros i j Hi E.
  rewrite length_map in Hi. rewrite !nth_error_map in E.
  destruct (nth_error l i) as [r|] eqn:Ri.
  2:{ apply nth_error_None in Ri. lia. }
  destruct (nth_error l j) as [r'|] eqn:Rj; [|discriminate E].
  destruct (Nl i r Ri) as (ts & t & c & content & ->).
  destruct (Nl j r' Rj) as (ts' & t' & c' & content' & ->).
  cbn [option_map] in E. rewrite !job_id_of_record in E.
  assert (E' : reminder_id (Z.of_nat i + 1) ts = reminder_id (Z.of_nat j + 1) ts')
    by congruence.
  apply reminder_id_seq_inj in E'; lia.
Qed.

Lemma invariant_stored (w : World) :
  invariant w ->
  dict_find "reminders" (state w) = Some (JArr (stored_reminders (state w)))
  /\ numbered (stored_reminders (state w)).
Proof.
  intros [_ _ (l & L & Nl)]. unfold stored_reminders, dict_get_or.
  rewrite L. split; [reflexivity | exact Nl].
Qed.

Section StoreProperties.

Variable utcoffset : datetime -> option Z.

(** C8.  The state of a running bot, saved and then loaded, comes back
    from the file as the same dictionary: the same keys in the same
    order with the same values, the reminders in the order they were
    added.  The loading is done in any world [other], whose memory may
    hold another state or none: what [load_state] returns is what the
    file holds. *)
Theorem save_then_load (w other : World) :
  reachable utcoffset w ->
  load_state (save_state (state w) other)
  = Some (state w, save_state (state w) other).
Proof.
  intros R. apply reachable_invariant in R. destruct R as [_ W _].
  unfold load_state, save_state. simpl.
  rewrite (loads_dumps _ W). reflexivity.
Qed.

(** C5.  However many reminders are created, and whenever, no two
    stored reminders have the same id. *)
Theorem reminder_ids_unique (w : World) :
  reachable utcoffset w -> NoDup (reminder_ids (state w)).
Proof.
  intros R. apply reachable_invariant in R.
  rewrite reminder_ids_map. apply numbered_ids_unique.
  apply invariant_stored. exact R.
Qed.

End StoreProperties.
Lemma run_all_reachable (utcoffset : datetime -> option Z) (es : list Event)
  (w w' : World) :
  reachable utcoffset w -> run_all utcoffset es w = Some w' ->
  reachable utcoffset w'.
Proof.
  revert w. induction es as [|e es IH]; intros w R H; simpl in H.
  - injection H as <-. exact R.
  - destruct (run utcoffset e w) as [w1|] eqn:E; [|discriminate H].
    exact (IH w1 (reach_step utcoffset w w1 e R E) H).
Qed.

Lemma busy_reachable : reachable utc busy.
Proof.
  apply (run_all_reachable _ busy_events first_run).
  - apply reach_first.
  - vm_compute. reflexivity.
Qed.

Lemma save_then_load_witness :
  let other := mkWorld [] None [] [] [] in
  stored_reminders (state busy)
  = [reminder_record "remind_1_1714640400" 63850237200000000 42 "buy milk";
     reminder_record "remind_2_1714640400" 63850237200000000 42 "call home";
     reminder_record "remind_3_1714640400" 63850237200000000 42 "water plants"]
  /\ state (save_state (state busy) other) = []
  /\ load_state (save_state (state busy) other)
     = Some (state busy, save_state (state busy) other).
Proof.
  cbv zeta. split; [vm_compute; reflexivity|]. split; [reflexivity|].
  apply (save_then_load utc busy). exact busy_reachable.
Defined.

Lemma reminder_ids_unique_witness :
  reminder_ids (state busy)
  = [JStr "remind_1_1714640400"; JStr "remind_2_1714640400";
     JStr "remind_3_1714640400"]
  /\ NoDup (reminder_ids (state busy)).
Proof.
  split; [vm_compute; reflexivity|].
  apply (reminder_ids_unique utc busy). exact busy_reachable.
Defined.
(** *** No cancelling *)

Lemma record_has_no_status (id : string) (t : datetime) (c : Z)
  (content : string) :
  match reminder_record id t c content with
  | JObj m => dict_find "status" m
  | _ => None
  end = None.
Proof. reflexivity. Qed.

Lemma numbered_no_status (l : list json) (id : string) :
  numbered l ->
  match find (fun r => match r with
                       | JObj m => json_eqb (dict_get "job_id" m) (JStr id)
                       | _ => false
                       end) l with
  | Some (JObj m) => dict_find "status" m
  | _ => None
  end = None.
Proof.
  intros Nl.
  destruct (find _ l) as [r|] eqn:F; [|reflexivity].
  apply find_some in F. destruct F as [F _].
  apply In_nth_error in F. destruct F as [i F].
  destruct (Nl i r F) as (ts & t & c & content & ->). reflexivity.
Qed.

Lemma invariant_no_status (w : World) (id : string) :
  invariant w -> reminder_status id (state w) = None.
Proof.
  intros I. destruct (invariant_stored w I) as [L Nl].
  unfold reminder_status, find_reminder, dict_get_or. rewrite L.
  apply numbered_no_status. exact Nl.
Qed.

Lemma take_job_keeps (id : string) (js rest : list Job) (j' : Job) :
  take_job id js = Some (j', rest) ->
  job_id j' = id /\
  forall j : Job, In j js -> j = j' \/ In j rest.
Proof.
  revert rest. induction js as [|x js IH]; intros rest H; simpl in H.
  - discriminate H.
  - destruct (String.eqb id (job_id x)) eqn:E.
    + injection H as <- <-. apply String.eqb_eq in E. split; [auto|].
      intros j [<-|Hj]; auto.
    + destruct (take_job id js) as [[j1 r1]|]; [|discriminate H].
      injection H as <- <-. destruct (IH r1 eq_refl) as [Hid Hin].
      split; [exact Hid|].
      intros j [<-|Hj]; [right; left; reflexivity|].
      destruct (Hin j Hj); [left | right; right]; assumption.
Qed.

Lemma stored_reminders_set_other (k : string) (v : json) (st : pydict) :
  k <> "reminders" ->
  stored_reminders (dict_set k v st) = stored_reminders st.
Proof.
  intros N. unfold stored_reminders, dict_get_or.
  rewrite dict_find_set_other by congruence. reflexivity.
Qed.

Section NoCancel.

Variable utcoffset : datetime -> option Z.

(** No event takes a stored reminder away or changes it: the list of
    reminders only grows at its end. *)
Lemma run_appends_reminders (e : Event) (w w' : World) :
  invariant w -> run utcoffset e w = Some w' ->
  exists more : list json,
    stored_reminders (state w')
    = (stored_reminders (state w) ++ more)%list.
Proof.
  intros I R.
  assert (Same : forall w1 : World,
             state w1 = state w ->
             exists more : list json,
               stored_reminders (state w1)
               = (stored_reminders (state w) ++ more)%list).
  { intros w1 ->. exists []. rewrite List.app_nil_r. reflexivity. }
  assert (Field : forall (k s : string) (w1 : World),
             k <> "reminders" ->
             state w1 = dict_set k (JStr s) (state w) ->
             exists more : list json,
               stored_reminders (state w1)
               = (stored_reminders (state w) ++ more)%list).
  { intros k s w1 N ->. exists [].
    rewrite List.app_nil_r. apply stored_reminders_set_other. exact N. }
  destruct e as [c now net|c now net|c now net|args c now net
                |c text net| |id net|now|]; simpl in R.
  - injection R as <-.
    apply (Field "last_feed" (iso_now now));
      [discriminate | destruct net; reflexivity].
  - injection R as <-.
    apply (Field "last_drink" (iso_now now));
      [discriminate | destruct net; reflexivity].
  - injection R as <-.
    apply (Field "last_sleep" (iso_now now));
      [discriminate | destruct net; reflexivity].
  - injection R as <-.
    destruct (remind_command_cases utcoffset args c now net w)
      as [(_ & S & _) | (id & target & _ & _ & _ & _ & [(_ & S & _) | (A & _)])].
    + apply Same. exact S.
    + apply Same. exact S.
    + destruct (invariant_stored w I) as [L _].
      unfold append_reminder in A. rewrite L in A. injection A as A.
      eexists. rewrite <- A. unfold stored_reminders at 1, dict_get_or.
      rewrite dict_find_set_same. reflexivity.
  - injection R as <-. apply Same. destruct net; reflexivity.
  - injection R as <-. apply Same. unfold schedule_periodic_checks.
    destruct (add_job _ (jobs w)); reflexivity.
  - destruct (take_job id (jobs w)) as [[[i t c content|i m] rest]|];
      injection R as <-; apply Same; try reflexivity.
    destruct net; reflexivity.
  - destruct (existsb _ (jobs w)); injection R as <-; apply Same;
      [|reflexivity].
    unfold check_and_notify. destruct (is_due _ _ _) as [[|]|]; reflexivity.
  - unfold start_process in R. rewrite (load_state_saved w I) in R.
    injection R as <-. apply Same. reflexivity.
Qed.

(** A job leaves the scheduler only when its own timer fires or the
    process restarts. *)
Lemma run_keeps_jobs (e : Event) (w w' : World) (j : Job) :
  run utcoffset e w = Some w' -> In j (jobs w) ->
  In j (jobs w') \/ (exists net : bool, e = TimerFire (job_id j) net)
  \/ e = Restart.
Proof.
  intros R Hj.
  destruct e as [c now net|c now net|c now net|args c now net
                |c text net| |id net|now|]; simpl in R;
    try (injection R as <-).
  - left. destruct net; exact Hj.
  - left. destruct net; exact Hj.
  - left. destruct net; exact Hj.
  - left.
    destruct (remind_command_cases utcoffset args c now net w)
      as [(J & _) | (id & target & _ & _ & _ & J & _)]; rewrite J.
    + exact Hj.
    + apply in_or_app. left. exact Hj.
  - left. destruct net; exact Hj.
  - left. unfold schedule_periodic_checks, add_job.
    destruct (existsb _ (jobs w)); [exact Hj|].
    simpl. apply in_or_app. left. exact Hj.
  - destruct (take_job id (jobs w)) as [[j' rest]|] eqn:T.
    + destruct (take_job_keeps _ _ _ _ T) as [Hid Hin].
      destruct (Hin j Hj) as [->|Hr].
      * right. left. exists net. rewrite Hid. reflexivity.
      * left. destruct j' as [i t c content|i m]; injection R as <-.
        -- destruct net; exact Hr.
        -- exact Hj.
    + injection R as <-. left. exact Hj.
  - left. destruct (existsb _ (jobs w)); injection R as <-; [|exact Hj].
    unfold check_and_notify. destruct (is_due _ _ _) as [[|]|]; exact Hj.
  - right. right. reflexivity.
Qed.

(** C7, as the code has it.  The bot has no cancel operation and its
    reminders have no status.  Whatever happens to a running bot, the
    stored reminders stay as they are and new ones are added at the
    end, no stored reminder has a [status] field, and a job leaves the
    scheduler only when its own timer fires or the process restarts. *)
Theorem no_event_cancels (e : Event) (w w' : World) :
  reachable utcoffset w -> run utcoffset e w = Some w' ->
  (exists more : list json,
      stored_reminders (state w')
      = (stored_reminders (state w) ++ more)%list) /\
  (forall id : string, reminder_status id (state w') = None) /\
  (forall j : Job,
      In j (jobs w) ->
      In j (jobs w') \/ (exists net : bool, e = TimerFire (job_id j) net)
      \/ e = Restart).
Proof.
  intros Rw R. pose proof (reachable_invariant utcoffset w Rw) as I.
  split; [exact (run_appends_reminders e w w' I R)|].
  split.
  - intros id. apply invariant_no_status.
    exact (run_invariant utcoffset e w w' I R).
  - intros j. exact (run_keeps_jobs e w w' j R).
Qed.

End NoCancel.

Lemma one_reminder_reachable : reachable utc one_reminder.
Proof.
  apply (reach_step _ first_run one_reminder
           (Remind ["09:00"; "buy"; "milk"] 42 at_1400 true)).
  - apply reach_first.
  - reflexivity.
Qed.

Lemma no_event_cancels_witness :
  let w' := feed_command 42 at_1400 true one_reminder in
  (exists more : list json,
      stored_reminders (state w')
      = (stored_reminders (state one_reminder) ++ more)%list) /\
  (forall id : string, reminder_status id (state w') = None) /\
  (forall j : Job,
      In j (jobs one_reminder) ->
      In j (jobs w')
      \/ (exists net : bool, Feed 42 at_1400 true = TimerFire (job_id j) net)
      \/ Feed 42 at_1400 true = Restart).
Proof.
  exact (no_event_cancels utc (Feed 42 at_1400 true) one_reminder _
           one_reminder_reachable eq_refl).
Defined.

(** C7 is not what the code does: the reminder of [one_reminder] is
    pending, with its job in the scheduler, and nothing that can happen
    to the bot gives it the status [cancelled]. *)
Lemma pending_reminder_cannot_be_cancelled :
  let id := "remind_1_1714640400" in
  jobs one_reminder = [DateJob id 63850237200000000 42 "buy milk"] /\
  find_reminder id (state one_reminder)
  = Some (reminder_record id 63850237200000000 42 "buy milk") /\
  forall (e : Event) (w' : World),
    run utc e one_reminder = Some w' ->
    reminder_status id (state w') <> Some (JStr "cancelled").
Proof.
  cbv zeta. split; [vm_compute; reflexivity|].
  split; [vm_compute; reflexivity|].
  intros e w' R.
  rewrite (invariant_no_status w' _
             (run_invariant _ e one_reminder w'
                (reachable_invariant _ _ one_reminder_reachable) R)).
  discriminate.
Qed.
(** *** The scheduler's jobs *)

Lemma existsb_job_id (id : string) (js : list Job) :
  existsb (fun j' => String.eqb id (job_id j')) js = false <->
  ~ In id (map job_id js).
Proof.
  induction js as [|j js IH]; simpl.
  - split; [intros _ [] | reflexivity].
  - rewrite orb_false_iff, IH. split.
    + intros [E N] [H|H]; [|exact (N H)].
      apply String.eqb_neq in E. congruence.
    + intros N. split.
      * apply String.eqb_neq. intros ->. apply N. left. reflexivity.
      * intros H. apply N. right. exact H.
Qed.

Lemma NoDup_snoc {A : Type} (l : list A) (x : A) :
  NoDup l -> ~ In x l -> NoDup (l ++ [x]).
Proof.
  intros N H. induction N as [|y l Hy N IH]; simpl.
  - constructor; [intros [] | constructor].
  - constructor.
    + intros K. apply in_app_or in K. destruct K as [K|[->|[]]].
      * exact (Hy K).
      * apply H. left. reflexivity.
    + apply IH. intros K. apply H. right. exact K.
Qed.

Lemma take_job_sub (id : string) (js rest : list Job) (j' : Job) :
  take_job id js = Some (j', rest) ->
  (forall j : Job, In j rest -> In j js) /\
  (NoDup (map job_id js) ->
   NoDup (map job_id rest) /\ ~ In id (map job_id rest)).
Proof.
  revert rest. induction js as [|x js IH]; intros rest H; simpl in H.
  - discriminate H.
  - destruct (String.eqb id (job_id x)) eqn:E.
    + injection H as <- <-. apply String.eqb_eq in E. subst id. split.
      * intros j Hj. right. exact Hj.
      * intros N. simpl in N. inversion N; subst. split; assumption.
    + destruct (take_job id js) as [[j1 r1]|]; [|discriminate H].
      injection H as <- <-. destruct (IH r1 eq_refl) as [Sub Nd]. split.
      * intros j [<-|Hj]; [left; reflexivity | right; exact (Sub j Hj)].
      * intros N. simpl in N. inversion N as [|? ? Hx N']; subst.
        destruct (Nd N') as [N1 N2]. simpl. split.
        -- constructor; [|exact N1].
           intros K. apply Hx. apply in_map_iff in K.
           destruct K as (j & Ej & Hj). apply in_map_iff.
           exists j. split; [exact Ej | exact (Sub j Hj)].
        -- intros [K|K]; [|exact (N2 K)].
           apply String.eqb_neq in E. congruence.
Qed.

Lemma take_job_missing (id : string) (js : list Job) :
  ~ In id (map job_id js) -> take_job id js = None.
Proof.
  induction js as [|x js IH]; simpl; [reflexivity|].
  intros N.
  destruct (String.eqb id (job_id x)) eqn:E.
  - apply String.eqb_eq in E. exfalso. apply N. left. congruence.
  - rewrite IH; [reflexivity|]. intros K. apply N. right. exact K.
Qed.

Lemma take_job_found (id : string) (js : list Job) (j : Job) :
  NoDup (map job_id js) -> In j js -> job_id j = id ->
  exists rest : list Job, take_job id js = Some (j, rest).
Proof.
  intros N Hj Hid. induction js as [|x js IH]; simpl; [destruct Hj|].
  simpl in N. inversion N as [|? ? Hx N']; subst.
  destruct Hj as [->|Hj].
  - rewrite String.eqb_refl. eauto.
  - destruct (String.eqb (job_id j) (job_id x)) eqn:E.
    + apply String.eqb_eq in E. exfalso. apply Hx. rewrite <- E.
      apply in_map. exact Hj.
    + destruct (IH N' Hj) as [rest ->]. eauto.
Qed.

Lemma reminder_id_not_periodic (seq ts : Z) :
  reminder_id seq ts <> "periodic_check".
Proof. unfold reminder_id. simpl. discriminate. Qed.

Lemma first_run_jobs : jobs_invariant first_run.
Proof. split; [constructor | intros j []]. Qed.

Lemma jobs_invariant_same (w w' : World) :
  jobs w' = jobs w -> stored_reminders (state w') = stored_reminders (state w) ->
  jobs_invariant w -> jobs_invariant w'.
Proof. intros J S [N K]. split; rewrite ?J, ?S; assumption. Qed.

Section Jobs.

Variable utcoffset : datetime -> option Z.

Lemma reminder_job_id_timestamp (st : pydict) (target : datetime)
  (id : string) :
  reminder_job_id utcoffset st target = Some id ->
  exists ts : Z, int_timestamp utcoffset target = Some ts.
Proof.
  unfold reminder_job_id.
  destruct (py_len _); [|discriminate].
  destruct (int_timestamp utcoffset target) as [ts|]; [|discriminate].
  intros _. exists ts. reflexivity.
Qed.

(** When [timestamp()] raises, the handler has done nothing yet: only
    the error handler runs. *)
Lemma remind_command_no_timestamp (args : list string) (c : Z)
  (now : datetime) (net : bool) (w : World) (target : datetime) :
  (2 <= List.length args)%nat ->
  resolve_target (nth 0 args "") now = Some target ->
  int_timestamp utcoffset target = None ->
  remind_command utcoffset args c now net w = error_handler w.
Proof.
  intros L R TS. unfold remind_command.
  apply Nat.ltb_ge in L. rewrite L, R.
  unfold reminder_job_id. rewrite TS.
  destruct (py_len _); reflexivity.
Qed.

(** What a [/remind] with a good time does to a running bot: one job
    and one record under the same fresh id, for the same time, and the
    state is saved. *)
Lemma remind_command_succeeds (args : list string) (c : Z) (now : datetime)
  (net : bool) (w : World) (target : datetime) (ts : Z) :
  invariant w -> jobs_invariant w ->
  (2 <= List.length args)%nat ->
  resolve_target (nth 0 args "") now = Some target ->
  int_timestamp utcoffset target = Some ts ->
  let id :=
    reminder_id (Z.of_nat (List.length (stored_reminders (state w))) + 1)
      ts in
  let content := join " " (tl args) in
  let w' := remind_command utcoffset args c now net w in
  jobs w' = (jobs w ++ [DateJob id target c content])%list /\
  stored_reminders (state w')
  = (stored_reminders (state w) ++ [reminder_record id target c content])%list /\
  state w'
  = dict_set "reminders"
      (JArr (stored_reminders (state w)
             ++ [reminder_record id target c content])%list) (state w) /\
  disk w' = Some (dumps (JObj (state w'))).
Proof.
  intros I [Nd Known] L R TS. cbv zeta.
  destruct (invariant_stored w I) as [Hl _].
  assert (Fresh : ~ In (reminder_id
                          (Z.of_nat (List.length (stored_reminders (state w))) + 1)
                          ts)
                    (map job_id (jobs w))).
  { intros K. apply in_map_iff in K. destruct K as (j & Ej & Hj).
    destruct (Known j Hj) as [P | (i & ts' & Hi & Ei)].
    - rewrite P in Ej. symmetry in Ej.
      exact (reminder_id_not_periodic _ _ Ej).
    - rewrite Ei in Ej. apply reminder_id_seq_inj in Ej; lia. }
  apply existsb_job_id in Fresh.
  set (id := reminder_id
               (Z.of_nat (List.length (stored_reminders (state w))) + 1)
               ts) in *.
  set (content := join " " (tl args)).
  set (st' := dict_set "reminders"
                (JArr (stored_reminders (state w)
                       ++ [reminder_record id target c content])%list)
                (state w)).
  assert (E : remind_command utcoffset args c now net w
              = reply_text c (scheduled_text content target) net
                  (save_state st'
                     (set_state st'
                        (set_jobs (jobs w ++ [DateJob id target c content]) w)))).
  { unfold remind_command.
    apply Nat.ltb_ge in L. rewrite L, R.
    unfold reminder_job_id, dict_get_or. rewrite Hl. simpl py_len.
    rewrite TS.
    unfold add_job.
    change ("remind_"
            ++ str_Z (Z.of_nat (List.length (stored_reminders (state w))) + 1)
            ++ "_" ++ str_Z ts) with id.
    simpl job_id. rewrite Fresh.
    unfold append_reminder. simpl state. rewrite Hl. reflexivity. }
  rewrite E.
  assert (S : state (reply_text c (scheduled_text content target) net
                       (save_state st'
                          (set_state st'
                             (set_jobs (jobs w ++ [DateJob id target c content])
                                w)))) = st')
    by (destruct net; reflexivity).
  rewrite S. split; [destruct net; reflexivity|].
  split.
  - unfold stored_reminders at 1, dict_get_or. unfold st'.
    rewrite dict_find_set_same. reflexivity.
  - split; [reflexivity | destruct net; reflexivity].
Qed.

Lemma run_jobs_invariant (e : Event) (w w' : World) :
  invariant w -> jobs_invariant w -> run utcoffset e w = Some w' ->
  jobs_invariant w'.
Proof.
  intros I JI R.
  destruct e as [c now net|c now net|c now net|args c now net
                |c text net| |id net|now|]; simpl in R.
  - injection R as <-. apply (jobs_invariant_same w); [| |exact JI].
    + destruct net; reflexivity.
    + replace (state (feed_command c now net w))
        with (dict_set "last_feed" (JStr (iso_now now)) (state w))
        by (destruct net; reflexivity).
      apply stored_reminders_set_other. discriminate.
  - injection R as <-. apply (jobs_invariant_same w); [| |exact JI].
    + destruct net; reflexivity.
    + replace (state (drink_command c now net w))
        with (dict_set "last_drink" (JStr (iso_now now)) (state w))
        by (destruct net; reflexivity).
      apply stored_reminders_set_other. discriminate.
  - injection R as <-. apply (jobs_invariant_same w); [| |exact JI].
    + destruct net; reflexivity.
    + replace (state (sleep_command c now net w))
        with (dict_set "last_sleep" (JStr (iso_now now)) (state w))
        by (destruct net; reflexivity).
      apply stored_reminders_set_other. discriminate.
  - injection R as <-.
    destruct (Nat.ltb_spec (List.length args) 2) as [Short|Long].
    { apply (jobs_invariant_same w); [| |exact JI];
        unfold remind_command;
        (replace (List.length args <? 2)%nat with true
          by (symmetry; apply Nat.ltb_lt; exact Short));
        destruct net; reflexivity. }
    destruct (resolve_target (nth 0 args "") now) as [target|] eqn:T.
    2:{ apply (jobs_invariant_same w); [| |exact JI];
          unfold remind_command;
          (replace (List.length args <? 2)%nat with false
            by (symmetry; apply Nat.ltb_ge; exact Long));
          rewrite T; destruct net; reflexivity. }
    destruct (int_timestamp utcoffset target) as [ts|] eqn:TS.
    2:{ rewrite (remind_command_no_timestamp args c now net w target Long T TS).
        apply (jobs_invariant_same w); [reflexivity..|exact JI]. }
    destruct (remind_command_succeeds args c now net w target ts I JI Long T TS)
      as (J & S & _ & _).
    destruct JI as [Nd Known]. split.
    + rewrite J, map_app. simpl. apply NoDup_snoc; [exact Nd|].
      intros K. apply in_map_iff in K. destruct K as (j & Ej & Hj).
      destruct (Known j Hj) as [P | (i & ts' & Hi & Ei)].
      * rewrite P in Ej. symmetry in Ej.
        exact (reminder_id_not_periodic _ _ Ej).
      * rewrite Ei in Ej. apply reminder_id_seq_inj in Ej; lia.
    + intros j Hj. rewrite J in Hj. rewrite S, length_app. simpl.
      apply in_app_or in Hj. destruct Hj as [Hj|[<-|[]]].
      * destruct (Known j Hj) as [P | (i & ts' & Hi & Ei)]; [left; exact P|].
        right. exists i, ts'. split; [lia | exact Ei].
      * right. exists (List.length (stored_reminders (state w))).
        eexists. split; [lia | reflexivity].
  - injection R as <-. apply (jobs_invariant_same w); [| |exact JI];
      destruct net; reflexivity.
  - injection R as <-. unfold schedule_periodic_checks, add_job.
    destruct (existsb _ (jobs w)) eqn:E.
    + apply (jobs_invariant_same w); [reflexivity..|exact JI].
    + destruct JI as [Nd Known]. split; simpl.
      * rewrite map_app. simpl. apply NoDup_snoc; [exact Nd|].
        apply existsb_job_id. exact E.
      * intros j Hj. apply in_app_or in Hj. destruct Hj as [Hj|[<-|[]]].
        -- exact (Known j Hj).
        -- left. reflexivity.
  - destruct JI as [Nd Known].
    destruct (take_job id (jobs w)) as [[j' rest]|] eqn:T.
    + destruct (take_job_sub _ _ _ _ T) as [Sub Nd'].
      destruct (Nd' Nd) as [N1 _].
      destruct j' as [i t c content|i m]; injection R as <-.
      * split.
        -- destruct net; exact N1.
        -- intros j Hj.
           assert (Hj' : In j rest) by (destruct net; exact Hj).
           destruct (Known j (Sub j Hj')) as [P|P]; [left; exact P|].
           right. destruct net; exact P.
      * split; assumption.
    + injection R as <-. split; assumption.
  - destruct (existsb _ (jobs w)); injection R as <-; [|exact JI].
    apply (jobs_invariant_same w); [| |exact JI];
      unfold check_and_notify; destruct (is_due _ _ _) as [[|]|]; reflexivity.
  - unfold start_process in R. rewrite (load_state_saved w I) in R.
    injection R as <-. split; [constructor | intros j []].
Qed.

Lemma reachable_jobs_invariant (w : World) :
  reachable utcoffset w -> jobs_invariant w.
Proof.
  induction 1 as [|w w' e Rw IH R].
  - exact first_run_jobs.
  - exact (run_jobs_invariant e w w'
             (reachable_invariant utcoffset w Rw) IH R).
Qed.

End Jobs.

Section TimerFires.

Variable utcoffset : datetime -> option Z.

(** C3, as the code has it.  When the timer of a reminder fires, the
    scheduler takes the one-shot job out of its store and runs
    [send_reminder_job], which sends one notification with the
    reminder's text (or logs the exception when sending fails).  The
    stored record is neither looked up nor changed and nothing is
    written to the file: a reminder has no status.  A second firing for
    the same id finds no job and changes nothing. *)
Theorem timer_fire_once (id : string) (net : bool) (w w1 : World) :
  reachable utcoffset w ->
  run utcoffset (TimerFire id net) w = Some w1 ->
  state w1 = state w /\ disk w1 = disk w /\
  reminder_status id (state w1) = None /\
  (forall (t : datetime) (c : Z) (content : string),
      In (DateJob id t c content) (jobs w) ->
      ~ In id (map job_id (jobs w1)) /\
      outbox w1
      = (if net then outbox w ++ [(c, reminder_text content)]
         else outbox w)%list /\
      log w1
      = (if net then log w
         else log w ++ [LogException "無法發送提醒：%s"])%list) /\
  (forall net' : bool, run utcoffset (TimerFire id net') w1 = Some w1).
Proof.
  intros Rw R.
  pose proof (reachable_invariant utcoffset w Rw) as I.
  destruct (reachable_jobs_invariant utcoffset w Rw) as [Nd _].
  pose proof (run_invariant utcoffset _ w w1 I R) as I1.
  simpl in R.
  assert (Found : forall (t : datetime) (c : Z) (content : string),
             In (DateJob id t c content) (jobs w) ->
             exists rest : list Job,
               take_job id (jobs w) = Some (DateJob id t c content, rest)).
  { intros t c content Hj. exact (take_job_found id _ _ Nd Hj eq_refl). }
  destruct (take_job id (jobs w)) as [[[i t0 c0 content0|i m] rest]|] eqn:T;
    injection R as <-.
  - destruct (take_job_sub _ _ _ _ T) as [_ Nd'].
    destruct (Nd' Nd) as [_ Gone].
    split; [destruct net; reflexivity|].
    split; [destruct net; reflexivity|].
    split; [apply invariant_no_status; exact I1|].
    split.
    + intros t c content Hj. destruct (Found t c content Hj) as [rest' E].
      injection E as -> -> -> -> ->.
      split; [destruct net; exact Gone|].
      destruct net; split; reflexivity.
    + intros net'. simpl.
      replace (jobs (send_reminder_job c0 content0 net (set_jobs rest w)))
        with rest by (destruct net; reflexivity).
      rewrite (take_job_missing id rest Gone). reflexivity.
  - split; [reflexivity|]. split; [reflexivity|].
    split; [apply invariant_no_status; exact I|].
    split.
    + intros t c content Hj. destruct (Found t c content Hj) as [rest' E].
      discriminate E.
    + intros net'. simpl. rewrite T. reflexivity.
  - split; [reflexivity|]. split; [reflexivity|].
    split; [apply invariant_no_status; exact I|].
    split.
    + intros t c content Hj. destruct (Found t c content Hj) as [rest' E].
      discriminate E.
    + intros net'. simpl. rewrite T. reflexivity.
Qed.

End TimerFires.

Lemma timer_fire_once_witness :
  let id := "remind_1_1714640400" in
  run utc (TimerFire id true) one_reminder = Some one_reminder_fired /\
  state one_reminder_fired = state one_reminder /\
  disk one_reminder_fired = disk one_reminder /\
  reminder_status id (state one_reminder_fired) = None /\
  outbox one_reminder_fired
  = (outbox one_reminder ++ [(42, reminder_text "buy milk")])%list /\
  run utc (TimerFire id false) one_reminder_fired
  = Some one_reminder_fired.
Proof.
  cbv zeta.
  assert (R : run utc (TimerFire "remind_1_1714640400" true)
                one_reminder = Some one_reminder_fired) by reflexivity.
  destruct (timer_fire_once utc "remind_1_1714640400" true
              one_reminder one_reminder_fired one_reminder_reachable R)
    as (S & D & St & J & Again).
  destruct (J 63850237200000000 42 "buy milk") as (_ & O & _).
  { left. reflexivity. }
  repeat split; try assumption; apply Again.
Defined.

(** C3 is not what the code does: the timer of the pending reminder of
    [one_reminder] fires, and its record gets no [fired] status in the
    state or in the file, which stay as they were; and the handler,
    called once more, sends the notification once more. *)
Lemma timer_fire_marks_nothing :
  let id := "remind_1_1714640400" in
  let again := send_reminder_job 42 "buy milk" true one_reminder_fired in
  jobs one_reminder = [DateJob id 63850237200000000 42 "buy milk"] /\
  run utc (TimerFire id true) one_reminder = Some one_reminder_fired /\
  reminder_status id (state one_reminder_fired) <> Some (JStr "fired") /\
  state one_reminder_fired = state one_reminder /\
  disk one_reminder_fired = disk one_reminder /\
  outbox again
  = (outbox one_reminder_fired ++ [(42, reminder_text "buy milk")])%list /\
  outbox again <> outbox one_reminder_fired.
Proof.
  vm_compute. repeat split; discriminate.
Qed.

(** *** Further properties of the store and the scheduler *)



Section Further.

Variable utcoffset : datetime -> option Z.

(** The file of a running bot always holds the current state. *)
Theorem disk_reflects_state (w : World) :
  reachable utcoffset w -> disk w = Some (dumps (JObj (state w))).
Proof. intros R. apply reachable_invariant in R. apply R. Qed.

(** In a running bot, [/remind] with a time that resolves to a target
    whose [timestamp()] is [ts] adds one job and one record, under the
    same fresh id and for the same time, and saves the state.  (For a
    target whose [timestamp()] raises, as on 0001-01-01, nothing is
    added.) *)
Theorem remind_creates_reminder (args : list string) (c : Z) (now : datetime)
  (net : bool) (w : World) (target : datetime) (ts : Z) :
  reachable utcoffset w ->
  (2 <= List.length args)%nat ->
  resolve_target (nth 0 args "") now = Some target ->
  int_timestamp utcoffset target = Some ts ->
  let id :=
    reminder_id (Z.of_nat (List.length (stored_reminders (state w))) + 1) ts in
  let content := join " " (tl args) in
  let w' := remind_command utcoffset args c now net w in
  jobs w' = (jobs w ++ [DateJob id target c content])%list /\
  stored_reminders (state w')
  = (stored_reminders (state w) ++ [reminder_record id target c content])%list /\
  disk w' = Some (dumps (JObj (state w'))).
Proof.
  intros Rw L R TS.
  destruct (remind_command_succeeds utcoffset args c now net w target ts
              (reachable_invariant utcoffset w Rw)
              (reachable_jobs_invariant utcoffset w Rw) L R TS)
    as (J & S & _ & D).
  cbv zeta. repeat split; assumption.
Qed.

End Further.

Lemma disk_reflects_state_witness :
  disk busy = Some (dumps (JObj (state busy))).
Proof.
  exact (disk_reflects_state utc busy busy_reachable).
Defined.

Lemma remind_creates_reminder_witness :
  let w' := remind_command utc ["23:30"; "sleep"] 7
              (at_1400 + US_PER_HOUR) true busy in
  jobs w'
  = (jobs busy ++ [DateJob "remind_4_1714606200" 63850203000000000 7 "sleep"])%list /\
  stored_reminders (state w')
  = (stored_reminders (state busy)
     ++ [reminder_record "remind_4_1714606200" 63850203000000000 7 "sleep"])%list /\
  disk w' = Some (dumps (JObj (state w'))).
Proof.
  exact (remind_creates_reminder utc ["23:30"; "sleep"] 7
           (at_1400 + US_PER_HOUR) true busy 63850203000000000 1714606200
           busy_reachable (le_n 2) eq_refl eq_refl).
Defined.

(* ================================================================== *)
(** ** Times as text *)

(** *** [fromisoformat] after [isoformat] *)

Lemma range_all_spec (depth : nat) (p : Z -> bool) :
  forall lo : Z,
    range_all depth lo p = true ->
    forall n : Z, lo <= n < lo + 2 ^ Z.of_nat depth -> p n = true.
Proof.
  induction depth as [|d IH]; intros lo H n B.
  - simpl in H, B. replace n with lo by lia. exact H.
  - simpl range_all in H. apply andb_true_iff in H. destruct H as [H1 H2].
    rewrite Nat2Z.inj_succ, Z.pow_succ_r in B by lia.
    destruct (Z.lt_ge_cases n (lo + 2 ^ Z.of_nat d)) as [Lt|Ge].
    + apply (IH lo H1). lia.
    + apply (IH _ H2). lia.
Qed.

Lemma first_cycle_dates (n : Z) : 1 <= n <= DI400Y -> date_ok n = true.
Proof.
  intros B. apply (range_all_spec 18 date_ok 1).
  - vm_cast_no_check (eq_refl true).
  - unfold DI400Y in B. change (2 ^ Z.of_nat 18) with 262144. lia.
Qed.

(** *** Numbers written with leading zeros *)

Lemma take_digits_step (n : nat) (acc : Z) (c : ascii) (r : string) :
  is_digit c = true ->
  take_digits (S n) acc (String c r)
  = take_digits n (acc * 10 + (Z.of_N (ord c) - 48)) r.
Proof. intros D. simpl. rewrite D. reflexivity. Qed.

Lemma take_digits_uint (d : Decimal.uint) :
  forall (acc : Z) (rest : string),
    take_digits (String.length (NilEmpty.string_of_uint d)) acc
      (NilEmpty.string_of_uint d ++ rest)
    = Some (uint_value d acc, rest).
Proof.
  induction d; intros acc rest; [reflexivity | ..];
    cbn [NilEmpty.string_of_uint String.length append];
    rewrite take_digits_step by reflexivity;
    rewrite IHd; reflexivity.
Qed.

Lemma uint_value_acc (d : Decimal.uint) :
  forall p : positive, uint_value d (Z.pos p) = Z.pos (Pos.of_uint_acc d p).
Proof.
  induction d; intros p; cbn [uint_value Pos.of_uint_acc]; try reflexivity;
    rewrite <- IHd; f_equal; lia.
Qed.

Lemma uint_value_of_uint (d : Decimal.uint) :
  uint_value d 0 = Z.of_N (N.of_uint d).
Proof.
  unfold N.of_uint.
  induction d; cbn [uint_value Pos.of_uint Z.of_N]; try reflexivity;
    try exact IHd; exact (uint_value_acc d _).
Qed.

Lemma uint_value_lower (d : Decimal.uint) :
  forall acc : Z,
    0 <= acc ->
    acc * 10 ^ Z.of_nat (String.length (NilEmpty.string_of_uint d))
    <= uint_value d acc.
Proof.
  induction d; intros acc A; [simpl; lia | ..];
    cbn [NilEmpty.string_of_uint String.length uint_value];
    rewrite Nat2Z.inj_succ, Z.pow_succ_r by lia;
    (etransitivity; [|apply IHd; lia]);
    pose proof (Z.pow_nonneg 10
                  (Z.of_nat (String.length (NilEmpty.string_of_uint d)))
                  ltac:(lia));
    nia.
Qed.

(** [str(n)] has at most [w] digits when [n < 10 ^ w]. *)
Lemma str_N_length (w : nat) (n : N) :
  (0 < w)%nat -> Z.of_N n < 10 ^ Z.of_nat w ->
  (String.length (str_N n) <= w)%nat.
Proof.
  intros W B.
  pose proof (str_N_no_leading_zero n) as Z0.
  pose proof (DecimalN.Unsigned.of_to n) as V.
  rewrite str_N_empty_form in Z0 |- *.
  assert (U : uint_value (N.to_uint n) 0 = Z.of_N n)
    by (rewrite uint_value_of_uint, V; reflexivity).
  pose proof (to_uint_nonnil n) as NN.
  destruct (N.to_uint n) as [|d|d|d|d|d|d|d|d|d|d]; [congruence | | ..].
  { simpl in Z0 |- *.
    destruct (NilEmpty.string_of_uint d) as [|c r]; [simpl; lia|].
    exfalso. exact (Z0 c r eq_refl). }
  all: cbn [uint_value] in U.
  all: cbn [NilEmpty.string_of_uint String.length].
  all: match type of U with
       | uint_value ?l ?a = _ =>
           pose proof (uint_value_lower l a ltac:(lia)) as L;
           pose proof (Z.pow_pos_nonneg 10
                         (Z.of_nat (String.length (NilEmpty.string_of_uint l)))
                         ltac:(lia) ltac:(lia)) as P;
           assert (Q : 10 ^ Z.of_nat (String.length (NilEmpty.string_of_uint l))
                       < 10 ^ Z.of_nat w) by lia;
           apply Z.pow_lt_mono_r_iff in Q; lia
       end.
Qed.

Lemma take_digits_zeros (j : nat) :
  forall (m : nat) (s : string),
    take_digits (j + m) 0 (zeros j ++ s) = take_digits m 0 s.
Proof.
  induction j as [|j IH]; intros m s; [reflexivity|].
  change (take_digits (S (j + m)) 0 (String "0" (zeros j ++ s))
          = take_digits m 0 s).
  rewrite take_digits_step by reflexivity. exact (IH m s).
Qed.

(** Reading [w] digits of a number written with [w] digits gives the
    number back. *)
Lemma take_pad (w : nat) (k : Z) (rest : string) :
  (0 < w)%nat -> 0 <= k < 10 ^ Z.of_nat w ->
  take_digits w 0 (pad0 w (Z.to_N k) ++ rest) = Some (k, rest).
Proof.
  intros W B. unfold pad0. cbv zeta.
  pose proof (str_N_length w (Z.to_N k) W ltac:(rewrite Z2N.id; lia)) as L.
  rewrite append_assoc.
  replace w with ((w - String.length (str_N (Z.to_N k)))
                  + String.length (str_N (Z.to_N k)))%nat at 1 by lia.
  rewrite take_digits_zeros, str_N_empty_form, take_digits_uint.
  rewrite uint_value_of_uint, DecimalN.Unsigned.of_to, Z2N.id by lia.
  reflexivity.
Qed.

Lemma is_leap_shift (y q : Z) : is_leap (y + 400 * q) = is_leap y.
Proof.
  unfold is_leap.
  replace ((y + 400 * q) mod 4) with (y mod 4)
    by (replace (y + 400 * q) with (y + (100 * q) * 4) by lia;
        symmetry; apply Z.mod_add; lia).
  replace ((y + 400 * q) mod 100) with (y mod 100)
    by (replace (y + 400 * q) with (y + (4 * q) * 100) by lia;
        symmetry; apply Z.mod_add; lia).
  replace ((y + 400 * q) mod 400) with (y mod 400)
    by (replace (y + 400 * q) with (y + q * 400) by lia;
        symmetry; apply Z.mod_add; lia).
  reflexivity.
Qed.

Lemma days_before_year_shift (y q : Z) :
  days_before_year (y + 400 * q) = days_before_year y + DI400Y * q.
Proof.
  unfold days_before_year, DI400Y. cbv zeta.
  replace (y + 400 * q - 1) with (y - 1 + 400 * q) by lia.
  replace ((y - 1 + 400 * q) / 4) with ((y - 1) / 4 + 100 * q)
    by (replace (y - 1 + 400 * q) with (y - 1 + (100 * q) * 4) by lia;
        symmetry; apply Z.div_add; lia).
  replace ((y - 1 + 400 * q) / 100) with ((y - 1) / 100 + 4 * q)
    by (replace (y - 1 + 400 * q) with (y - 1 + (4 * q) * 100) by lia;
        symmetry; apply Z.div_add; lia).
  replace ((y - 1 + 400 * q) / 400) with ((y - 1) / 400 + q)
    by (replace (y - 1 + 400 * q) with (y - 1 + q * 400) by lia;
        symmetry; apply Z.div_add; lia).
  lia.
Qed.

Lemma ymd2ord_shift (y m d q : Z) :
  ymd2ord (y + 400 * q) m d = ymd2ord y m d + DI400Y * q.
Proof.
  unfold ymd2ord, days_before_month.
  rewrite days_before_year_shift, is_leap_shift. lia.
Qed.

Lemma days_in_month_shift (y m q : Z) :
  days_in_month (y + 400 * q) m = days_in_month y m.
Proof. unfold days_in_month. rewrite is_leap_shift. reflexivity. Qed.

Lemma ord2ymd_shift (r q : Z) :
  ord2ymd (r + DI400Y * q)
  = (let '(y, m, d) := ord2ymd r in (y + 400 * q, m, d)).
Proof.
  unfold ord2ymd.
  replace (r + DI400Y * q - 1) with (r - 1 + q * DI400Y) by lia.
  rewrite Z.div_add by (unfold DI400Y; lia).
  rewrite Z.mod_add by (unfold DI400Y; lia).
  cbv zeta.
  set (a := (r - 1) / DI400Y).
  set (n1 := (r - 1) mod DI400Y).
  set (n100 := n1 / DI100Y).
  set (n2 := n1 mod DI100Y).
  set (n4 := n2 / DI4Y).
  set (n3 := n2 mod DI4Y).
  set (n1y := n3 / 365).
  set (n := n3 mod 365).
  destruct ((n1y =? 4) || (n100 =? 4)).
  - f_equal. f_equal. lia.
  - set (leapyear := (n1y =? 3) && (negb (n4 =? 24) || (n100 =? 3))).
    set (month := Z.shiftr (n + 50) 5).
    set (preceding := nth (Z.to_nat month) DAYS_BEFORE_MONTH 0
                      + (if (2 <? month) && leapyear then 1 else 0)).
    destruct (n <? preceding); f_equal; f_equal; lia.
Qed.

(** [ord2ymd] gives a date of the calendar, and [ymd2ord] leads back. *)
Lemma ord2ymd_sound (n : Z) :
  1 <= n <= MAXORDINAL ->
  let '(y, m, d) := ord2ymd n in
  (1 <= y <= 9999 /\ 1 <= m <= 12 /\ 1 <= d <= days_in_month y m)
  /\ ymd2ord y m d = n.
Proof.
  intros B. unfold MAXORDINAL in B.
  set (q := (n - 1) / DI400Y).
  set (r := (n - 1) mod DI400Y + 1).
  assert (Hn : n = r + DI400Y * q).
  { unfold r, q.
    pose proof (Z.div_mod (n - 1) DI400Y ltac:(unfold DI400Y; lia)). lia. }
  assert (Hr : 1 <= r <= DI400Y).
  { unfold r.
    pose proof (Z.mod_pos_bound (n - 1) DI400Y ltac:(unfold DI400Y; lia)).
    lia. }
  assert (Hq : 0 <= q <= 24).
  { unfold q, DI400Y. split.
    - apply Z.div_pos; lia.
    - assert ((n - 1) / 146097 < 25); [|lia].
      apply Z.div_lt_upper_bound; lia. }
  assert (Hlast : q = 24 -> r <= 145731) by (unfold DI400Y in *; lia).
  pose proof (first_cycle_dates r Hr) as D. unfold date_ok in D.
  replace (r <=? DI400Y) with true in D by (symmetry; apply Z.leb_le; lia).
  rewrite Hn, ord2ymd_shift.
  destruct (ord2ymd r) as [[y m] d].
  repeat rewrite andb_true_iff in D.
  destruct D as [[[[[[[Y1 Y2] Y3] M1] M2] D1] D2] E].
  apply Z.leb_le in Y1, Y2, M1, M2, D1, D2. apply Z.eqb_eq in E.
  rewrite days_in_month_shift, ymd2ord_shift.
  apply orb_true_iff in Y3.
  assert (Y : y + 400 * q <= 9999).
  { destruct Y3 as [Y3|Y3];
      [apply Z.ltb_lt in Y3 | apply Z.leb_le in Y3]; lia. }
  unfold DI400Y in *. repeat split; lia.
Qed.

Lemma time_fields (t : datetime) :
  (0 <= hour t < 24 /\ 0 <= minute t < 60 /\ 0 <= second t < 60
   /\ 0 <= microsecond t < US_PER_SECOND)
  /\ combine (toordinal t) (hour t) (minute t) (second t) (microsecond t) = t.
Proof.
  unfold combine, toordinal, hour, minute, second, microsecond, time_of_day.
  unfold_units. Z.div_mod_to_equations. lia.
Qed.

Lemma bind_take {A : Type} (w : nat) (k : Z) (rest : string)
  (f : Z * string -> option A) :
  (0 < w)%nat -> 0 <= k < 10 ^ Z.of_nat w ->
  bind (take_digits w 0 (pad0 w (Z.to_N k) ++ rest)) f = f (k, rest).
Proof. intros P B. rewrite (take_pad w k rest P B). reflexivity. Qed.

Lemma bind_expect {A : Type} (c : ascii) (rest : string)
  (f : string -> option A) :
  bind (expect c (String c "" ++ rest)) f = f rest.
Proof. simpl. rewrite Ascii.eqb_refl. reflexivity. Qed.

Lemma make_valid (y m d hh mm ss us : Z) :
  1 <= y <= 9999 -> 1 <= m <= 12 -> 1 <= d <= days_in_month y m ->
  0 <= hh < 24 -> 0 <= mm < 60 -> 0 <= ss < 60 -> 0 <= us < US_PER_SECOND ->
  make y m d hh mm ss us = Some (combine (ymd2ord y m d) hh mm ss us).
Proof.
  intros Hy Hm Hd Hh Hmm Hs Hu. unfold make.
  replace ((1 <=? y) && (y <=? 9999) && (1 <=? m) && (m <=? 12)
           && (1 <=? d) && (d <=? days_in_month y m)
           && (0 <=? hh) && (hh <? 24) && (0 <=? mm) && (mm <? 60)
           && (0 <=? ss) && (ss <? 60) && (0 <=? us) && (us <? US_PER_SECOND))
    with true; [reflexivity|].
  symmetry. repeat (apply andb_true_iff; split);
    try (apply Z.leb_le; lia); apply Z.ltb_lt; lia.
Qed.

Ltac pad_side :=
  first [ lia
        | change (10 ^ Z.of_nat 2) with 100; lia
        | change (10 ^ Z.of_nat 4) with 10000; lia
        | change (10 ^ Z.of_nat 6) with 1000000; lia ].

(** [fromisoformat] reads back what [isoformat] wrote, for every
    [datetime] from 0001-01-01T00:00:00 to 9999-12-31T23:59:59.999999. *)
Lemma fromisoformat_isoformat (t : datetime) :
  is_valid t = true -> fromisoformat (isoformat t) = Some t.
Proof.
  intros V. unfold is_valid in V. apply andb_true_iff in V.
  destruct V as [V1 V2]. apply Z.leb_le in V1. apply Z.ltb_lt in V2.
  assert (Ho : 1 <= toordinal t <= MAXORDINAL).
  { unfold toordinal, MAXORDINAL, US_PER_DAY in *.
    Z.div_mod_to_equations. lia. }
  pose proof (ord2ymd_sound (toordinal t) Ho) as D.
  destruct (time_fields t) as [(Hh & Hm & Hs & Hu) C].
  unfold US_PER_SECOND in Hu.
  unfold isoformat, fromisoformat.
  destruct (ord2ymd (toordinal t)) as [[y m] d].
  destruct D as [(Hy & Hmo & Hd) E].
  assert (Hd' : 1 <= d < 100).
  { split; [lia|]. destruct Hd as [_ Hd]. unfold days_in_month in Hd.
    destruct ((m =? 2) && is_leap y); [lia|].
    assert (Hm12 : m = 1 \/ m = 2 \/ m = 3 \/ m = 4 \/ m = 5 \/ m = 6 \/ m = 7
                   \/ m = 8 \/ m = 9 \/ m = 10 \/ m = 11 \/ m = 12) by lia.
    destruct Hm12 as [->|[->|[->|[->|[->|[->|[->|[->|[->|[->|[->| ->]]]]]]]]]]];
      simpl in Hd; lia. }
  rewrite (bind_take 4 y) by pad_side.
  rewrite bind_expect.
  rewrite (bind_take 2 m) by pad_side.
  rewrite bind_expect.
  rewrite (bind_take 2 d) by pad_side.
  rewrite bind_expect.
  rewrite (bind_take 2 (hour t)) by pad_side.
  rewrite bind_expect.
  rewrite (bind_take 2 (minute t)) by pad_side.
  rewrite bind_expect.
  rewrite (bind_take 2 (second t)) by pad_side.
  destruct (microsecond t =? 0) eqn:Z0.
  - apply Z.eqb_eq in Z0.
    rewrite (make_valid y m d (hour t) (minute t) (second t) 0);
      try (unfold US_PER_SECOND; lia).
    rewrite E, <- Z0. rewrite C. reflexivity.
  - change ("." ++ pad0 6 (Z.to_N (microsecond t)))
      with (String "." (pad0 6 (Z.to_N (microsecond t)))).
    cbv iota.
    change (String "." (pad0 6 (Z.to_N (microsecond t))))
      with (String "." "" ++ pad0 6 (Z.to_N (microsecond t))).
    rewrite bind_expect.
    rewrite <- (append_nil_r (pad0 6 (Z.to_N (microsecond t)))).
    rewrite (bind_take 6 (microsecond t))
      by pad_side.
    rewrite (make_valid y m d (hour t) (minute t) (second t) (microsecond t));
      try (unfold US_PER_SECOND; lia).
    rewrite E, C. reflexivity.
Qed.

(* ================================================================== *)
(** ** More about the worlds a bot can reach *)

Lemma dict_get_set_same (k : string) (v : json) (d : pydict) :
  dict_get k (dict_set k v d) = v.
Proof. unfold dict_get. rewrite dict_find_set_same. reflexivity. Qed.

Lemma dict_get_set_other (k k' : string) (v : json) (d : pydict) :
  k' <> k -> dict_get k' (dict_set k v d) = dict_get k' d.
Proof.
  intros N. unfold dict_get. rewrite dict_find_set_other by exact N.
  reflexivity.
Qed.

Section StateChanges.

Variable utcoffset : datetime -> option Z.

(** What one event can do to the state: nothing, or set one of the
    three times to the clock reading of the event, or add one reminder
    at the end of the list. *)
Lemma run_state_change (e : Event) (w w' : World) :
  invariant w -> run utcoffset e w = Some w' ->
  state w' = state w \/
  (exists (k : string) (now : datetime),
      event_time e = Some now /\
      (k = "last_feed" \/ k = "last_drink" \/ k = "last_sleep") /\
      state w' = dict_set k (JStr (isoformat now)) (state w)) \/
  (exists (id : string) (target : datetime) (c : Z) (content tp : string)
          (now : datetime),
      event_time e = Some now /\
      resolve_target tp now = Some target /\
      state w'
      = dict_set "reminders"
          (JArr (stored_reminders (state w)
                 ++ [reminder_record id target c content])%list) (state w)).
Proof.
  intros I R.
  destruct e as [c now net|c now net|c now net|args c now net
                |c text net| |id net|now|]; simpl in R.
  - injection R as <-. right. left. exists "last_feed", now.
    split; [reflexivity|]. split; [auto|]. destruct net; reflexivity.
  - injection R as <-. right. left. exists "last_drink", now.
    split; [reflexivity|]. split; [auto|]. destruct net; reflexivity.
  - injection R as <-. right. left. exists "last_sleep", now.
    split; [reflexivity|]. split; [auto|]. destruct net; reflexivity.
  - injection R as <-.
    destruct (remind_command_cases utcoffset args c now net w)
      as [(_ & S & _)
         | (id & target & _ & T & _ & _ & [(_ & S & _) | (A & _)])].
    + left. exact S.
    + left. exact S.
    + right. right.
      destruct (invariant_stored w I) as [L _].
      unfold append_reminder in A. rewrite L in A. injection A as A.
      exists id, target, c, (join " " (tl args)), (nth 0 args ""), now.
      split; [reflexivity|]. split; [exact T|]. symmetry. exact A.
  - injection R as <-. left. destruct net; reflexivity.
  - injection R as <-. left. unfold schedule_periodic_checks.
    destruct (add_job _ (jobs w)); reflexivity.
  - left.
    destruct (take_job id (jobs w)) as [[[i t c content|i m] rest]|];
      injection R as <-; try reflexivity.
    destruct net; reflexivity.
  - left. destruct (existsb _ (jobs w)); injection R as <-; [|reflexivity].
    unfold check_and_notify. destruct (is_due _ _ _) as [[|]|]; reflexivity.
  - left. unfold start_process in R. rewrite (load_state_saved w I) in R.
    injection R as <-. reflexivity.
Qed.

Lemma reachable_shaped (w : World) :
  reachable utcoffset w -> shaped (state w).
Proof.
  induction 1 as [|w w' e Rw IH R].
  - exists JNull, JNull, JNull, []. reflexivity.
  - pose proof (reachable_invariant utcoffset w Rw) as I.
    destruct IH as (lf & ld & ls & l & S).
    destruct (run_state_change e w w' I R)
      as [E | [(k & now & _ & K & E)
              | (id & target & c & content & tp & now & _ & _ & E)]];
      rewrite E, S.
    + exists lf, ld, ls, l. reflexivity.
    + destruct K as [->|[->| ->]].
      * exists (JStr (isoformat now)), ld, ls, l. reflexivity.
      * exists lf, (JStr (isoformat now)), ls, l. reflexivity.
      * exists lf, ld, (JStr (isoformat now)), l. reflexivity.
    + exists lf, ld, ls,
        (l ++ [reminder_record id target c content])%list. reflexivity.
Qed.

Lemma well_timed_reachable (w : World) :
  well_timed utcoffset w -> reachable utcoffset w.
Proof.
  induction 1 as [|w w' e _ IH _ R].
  - apply reach_first.
  - exact (reach_step utcoffset w w' e IH R).
Qed.

Lemma well_timed_last_ok (w : World) (k : string) :
  well_timed utcoffset w ->
  k = "last_feed" \/ k = "last_drink" \/ k = "last_sleep" ->
  last_ok (dict_get k (state w)).
Proof.
  intros W. revert k. induction W as [|w w' e Ww IH T R]; intros k K.
  - left. destruct K as [->|[->| ->]]; reflexivity.
  - pose proof (reachable_invariant utcoffset w
                  (well_timed_reachable w Ww)) as I.
    destruct (run_state_change e w w' I R)
      as [E | [(k' & now & Et & K' & E)
              | (id & target & c & content & tp & now & _ & _ & E)]];
      rewrite E.
    + exact (IH k K).
    + destruct (string_dec k k') as [->|N].
      * rewrite dict_get_set_same. right. exists now. split; [|reflexivity].
        unfold timed_ok in T. rewrite Et in T. exact T.
      * rewrite dict_get_set_other by exact N. exact (IH k K).
    + rewrite dict_get_set_other; [exact (IH k K)|].
      destruct K as [->|[->| ->]]; discriminate.
Qed.

End StateChanges.

(* ================================================================== *)
(** ** Recorded times, read back *)

Lemma isoformat_truthy (t : datetime) : truthy (JStr (isoformat t)) = true.
Proof.
  simpl. apply negb_true_iff. apply String.eqb_neq. intros E.
  apply (f_equal String.length) in E. unfold isoformat in E.
  destruct (ord2ymd (toordinal t)) as [[y m] d].
  repeat rewrite length_append in E. simpl in E. lia.
Qed.

Lemma parse_iso_isoformat (t : datetime) :
  is_valid t = true -> parse_iso (JStr (isoformat t)) = Some (Some t).
Proof.
  intros V. unfold parse_iso.
  rewrite isoformat_truthy. simpl negb. cbv iota.
  rewrite (fromisoformat_isoformat t V). reflexivity.
Qed.

(** X5.  What [iso_now] writes, [parse_iso] reads back as the same
    instant, for every [datetime] the clock can show. *)
Theorem parse_iso_iso_now (now : datetime) :
  is_valid now = true -> parse_iso (JStr (iso_now now)) = Some (Some now).
Proof. exact (parse_iso_isoformat now). Qed.

Lemma parse_iso_iso_now_witness :
  iso_now 63850168800000250 = "2024-05-01T14:00:00.000250" /\
  parse_iso (JStr (iso_now 63850168800000250)) = Some (Some 63850168800000250).
Proof.
  split; [vm_compute; reflexivity|].
  apply (parse_iso_iso_now 63850168800000250). vm_compute. reflexivity.
Defined.

Lemma six_hours_in_microseconds (d : timedelta) :
  Qle_bool FEED_THRESHOLD_HOURS (total_seconds d / 3600)
  = (6 * US_PER_HOUR <=? d).
Proof.
  unfold Qle_bool, total_seconds, Qdiv, Qmult, Qinv, FEED_THRESHOLD_HOURS.
  simpl. f_equal. lia.
Qed.

Lemma is_due_after (t now : datetime) :
  is_valid t = true ->
  is_due (JStr (isoformat t)) FEED_THRESHOLD_HOURS now
  = Some (6 * US_PER_HOUR <=? now - t).
Proof.
  intros V. unfold is_due, time_since_hours.
  rewrite (parse_iso_isoformat t V). simpl.
  rewrite six_hours_in_microseconds. reflexivity.
Qed.

(** X6.  After [/feed] at time [T], the periodic check run at time
    [now] writes its "feeding is due" record exactly when at least six
    hours lie between [T] and [now]. *)
Theorem feed_then_check (c : Z) (T : datetime) (net : bool) (w : World)
  (now : datetime) :
  is_valid T = true ->
  let fed := feed_command c T net w in
  is_due (dict_get "last_feed" (state fed)) FEED_THRESHOLD_HOURS now
  = Some (6 * US_PER_HOUR <=? now - T) /\
  log (check_and_notify now fed)
  = (if 6 * US_PER_HOUR <=? now - T then log fed ++ [FEED_DUE]
     else log fed)%list.
Proof.
  intros V. cbv zeta.
  assert (S : dict_get "last_feed" (state (feed_command c T net w))
              = JStr (isoformat T)).
  { replace (state (feed_command c T net w))
      with (dict_set "last_feed" (JStr (iso_now T)) (state w))
      by (destruct net; reflexivity).
    apply dict_get_set_same. }
  unfold check_and_notify. rewrite S, (is_due_after T now V).
  split; [reflexivity|].
  destruct (6 * US_PER_HOUR <=? now - T); reflexivity.
Qed.

Lemma feed_then_check_witness :
  let fed := feed_command 42 at_1400 true first_run in
  log (check_and_notify (at_1400 + 6 * US_PER_HOUR) fed) = [FEED_DUE] /\
  log (check_and_notify (at_1400 + 6 * US_PER_HOUR - US_PER_MINUTE) fed) = [].
Proof.
  cbv zeta. split.
  - destruct (feed_then_check 42 at_1400 true first_run
                (at_1400 + 6 * US_PER_HOUR) eq_refl) as [_ L].
    exact L.
  - destruct (feed_then_check 42 at_1400 true first_run
                (at_1400 + 6 * US_PER_HOUR - US_PER_MINUTE) eq_refl) as [_ L].
    exact L.
Defined.

Lemma last_ok_is_due (v : json) (now : datetime) :
  last_ok v ->
  exists due : bool, is_due v FEED_THRESHOLD_HOURS now = Some due.
Proof.
  intros [->|(t & V & ->)].
  - exists true. reflexivity.
  - eexists. apply is_due_after. exact V.
Qed.

Lemma valid_ordinal (t : datetime) :
  is_valid t = true -> 1 <= toordinal t <= MAXORDINAL.
Proof.
  intros V. unfold is_valid in V. apply andb_true_iff in V.
  destruct V as [V1 V2]. apply Z.leb_le in V1. apply Z.ltb_lt in V2.
  unfold toordinal, MAXORDINAL, US_PER_DAY in *.
  Z.div_mod_to_equations. lia.
Qed.

Lemma year_texts (y : Z) : 1000 <= y <= 9999 -> str_Z y = pad0 4 (Z.to_N y).
Proof.
  intros B.
  assert (H : year_text_ok y = true).
  { apply (range_all_spec 14 year_text_ok 0).
    - vm_cast_no_check (eq_refl true).
    - change (2 ^ Z.of_nat 14) with 16384. lia. }
  unfold year_text_ok in H.
  replace ((1000 <=? y) && (y <=? 9999)) with true in H
    by (symmetry; apply andb_true_iff; split; apply Z.leb_le; lia).
  apply String.eqb_eq. exact H.
Qed.

(** From the year 1000 on the text does not depend on the platform. *)
Lemma strftime_four_digits (pad_year : bool) (t : datetime) :
  is_valid t = true -> 1000 <= year t ->
  strftime_ymd_hms pad_year t = strftime_ymd_hms true t.
Proof.
  intros V Y. destruct pad_year; [reflexivity|].
  pose proof (ord2ymd_sound (toordinal t) (valid_ordinal t V)) as D.
  unfold strftime_ymd_hms, year in *.
  destruct (ord2ymd (toordinal t)) as [[y m] d]. simpl in Y.
  destruct D as [(Hy & _) _].
  rewrite (year_texts y) by lia. reflexivity.
Qed.

Lemma last_ok_fmt (pad_year : bool) (v : json) :
  last_ok v ->
  (forall t : datetime,
     is_valid t = true -> v = JStr (isoformat t) -> 1000 <= year t) ->
  exists s : string,
    fmt pad_year v = Some s /\
    (v = JNull /\ s = NEVER \/
     exists t : datetime,
       is_valid t = true /\ 1000 <= year t /\ v = JStr (isoformat t)
       /\ s = strftime_ymd_hms true t).
Proof.
  intros [->|(t & V & ->)] Y.
  - exists NEVER. split; [reflexivity|]. left. split; reflexivity.
  - pose proof (Y t V eq_refl) as Yt.
    exists (strftime_ymd_hms true t). split.
    + unfold fmt. rewrite isoformat_truthy.
      rewrite (parse_iso_isoformat t V).
      rewrite (strftime_four_digits pad_year t V Yt). reflexivity.
    + right. exists t. repeat split; assumption.
Qed.

Lemma run_all_well_timed (utcoffset : datetime -> option Z) (es : list Event)
  (w w' : World) :
  well_timed utcoffset w -> forallb timed_ok es = true ->
  run_all utcoffset es w = Some w' -> well_timed utcoffset w'.
Proof.
  revert w. induction es as [|e es IH]; intros w W T H; simpl in H.
  - injection H as <-. exact W.
  - simpl in T. apply andb_true_iff in T. destruct T as [T1 T2].
    destruct (run utcoffset e w) as [w1|] eqn:E; [|discriminate H].
    exact (IH w1 (wt_step utcoffset w w1 e W T1 E) T2 H).
Qed.

Lemma busy_well_timed : well_timed utc busy.
Proof.
  apply (run_all_well_timed _ busy_events first_run).
  - apply wt_first.
  - vm_compute. reflexivity.
  - vm_compute. reflexivity.
Qed.

Section TimedWorlds.

Variable utcoffset : datetime -> option Z.

(** X7.  In a bot whose clock readings are all [datetime] values, the
    periodic check never runs into its [except] branch: it logs that
    feeding is due, or it logs nothing. *)
Theorem check_never_fails (w : World) (now : datetime) :
  well_timed utcoffset w ->
  log (check_and_notify now w) = log w \/
  log (check_and_notify now w) = (log w ++ [FEED_DUE])%list.
Proof.
  intros W.
  destruct (last_ok_is_due (dict_get "last_feed" (state w)) now
              (well_timed_last_ok utcoffset w "last_feed" W (or_introl eq_refl)))
    as [due D].
  unfold check_and_notify. rewrite D.
  destruct due; [right | left]; reflexivity.
Qed.

(** X8.  In such a bot, when the times recorded are of the year 1000
    or later, [/status] never raises: it answers with the three
    lines, each showing "never" for an action not yet recorded and
    otherwise the recorded instant, cut to the second, with a year of
    four digits whatever the platform's [%Y]. *)
Theorem status_answers (pad_year : bool) (c : Z) (net : bool) (w : World) :
  well_timed utcoffset w ->
  four_digit_years (state w) ->
  exists lf ld ls : string,
    status_command pad_year c net w
    = reply_text c (status_text lf ld ls) net w /\
    fmt pad_year (dict_get "last_feed" (state w)) = Some lf /\
    fmt pad_year (dict_get "last_drink" (state w)) = Some ld /\
    fmt pad_year (dict_get "last_sleep" (state w)) = Some ls /\
    forall (k s : string),
      (k = "last_feed" /\ s = lf \/ k = "last_drink" /\ s = ld
       \/ k = "last_sleep" /\ s = ls) ->
      dict_get k (state w) = JNull /\ s = NEVER \/
      exists t : datetime,
        is_valid t = true /\ 1000 <= year t
        /\ dict_get k (state w) = JStr (isoformat t)
        /\ s = strftime_ymd_hms true t.
Proof.
  intros W Y.
  destruct (last_ok_fmt pad_year _
              (well_timed_last_ok utcoffset w "last_feed" W (or_introl eq_refl))
              (fun t => Y "last_feed" t (or_introl eq_refl)))
    as (lf & Ff & Sf).
  destruct (last_ok_fmt pad_year _
              (well_timed_last_ok utcoffset w "last_drink" W
                 (or_intror (or_introl eq_refl)))
              (fun t => Y "last_drink" t (or_intror (or_introl eq_refl))))
    as (ld & Fd & Sd).
  destruct (last_ok_fmt pad_year _
              (well_timed_last_ok utcoffset w "last_sleep" W
                 (or_intror (or_intror eq_refl)))
              (fun t => Y "last_sleep" t (or_intror (or_intror eq_refl))))
    as (ls & Fs & Ss).
  exists lf, ld, ls. unfold status_command. rewrite Ff, Fd, Fs.
  repeat split.
  intros k s [[-> ->]|[[-> ->]|[-> ->]]]; assumption.
Qed.

End TimedWorlds.

Lemma check_never_fails_witness :
  log (check_and_notify (at_1400 + US_PER_HOUR) busy) = log busy \/
  log (check_and_notify (at_1400 + US_PER_HOUR) busy)
  = (log busy ++ [FEED_DUE])%list.
Proof.
  exact (check_never_fails utc busy (at_1400 + US_PER_HOUR)
           busy_well_timed).
Defined.

Lemma busy_four_digit_years : four_digit_years (state busy).
Proof.
  intros k t K V H.
  assert (F : dict_get "last_feed" (state busy) = JStr "2024-05-01T14:00:00")
    by (vm_compute; reflexivity).
  assert (D : dict_get "last_drink" (state busy) = JNull)
    by (vm_compute; reflexivity).
  assert (S : dict_get "last_sleep" (state busy) = JNull)
    by (vm_compute; reflexivity).
  destruct K as [->|[->| ->]].
  - rewrite F in H. injection H as H.
    pose proof (fromisoformat_isoformat t V) as R. rewrite <- H in R.
    vm_compute in R. injection R as <-. vm_compute. discriminate.
  - rewrite D in H. discriminate H.
  - rewrite S in H. discriminate H.
Qed.

Lemma status_answers_witness :
  status_command false 42 true busy
  = reply_text 42 (status_text "2024-05-01 14:00:00" NEVER NEVER) true busy.
Proof.
  destruct (status_answers utc false 42 true busy busy_well_timed
              busy_four_digit_years)
    as (lf & ld & ls & E & Ff & Fd & Fs & _).
  rewrite E.
  assert (Lf : Some lf = Some "2024-05-01 14:00:00")
    by (rewrite <- Ff; vm_compute; reflexivity).
  assert (Ld : Some ld = Some NEVER) by (rewrite <- Fd; reflexivity).
  assert (Ls : Some ls = Some NEVER) by (rewrite <- Fs; reflexivity).
  injection Lf as ->. injection Ld as ->. injection Ls as ->. reflexivity.
Defined.

(** X9.  Right after [/feed], [/drink] or [/sleep] at a time [T] of
    the year 1000 or later, the line of [/status] for that action
    shows [T] as [YYYY-MM-DD HH:MM:SS], whatever the platform's
    [%Y]. *)
Theorem status_shows_last_action (pad_year : bool) (k : ActionKind) (c : Z)
  (T : datetime) (net : bool) (w : World) :
  is_valid T = true ->
  1000 <= year T ->
  fmt pad_year (dict_get (field_of k) (state (record_action k c T net w)))
  = Some (strftime_ymd_hms true T).
Proof.
  intros V Y.
  replace (state (record_action k c T net w))
    with (dict_set (field_of k) (JStr (isoformat T)) (state w))
    by (destruct k, net; reflexivity).
  rewrite dict_get_set_same. unfold fmt.
  rewrite isoformat_truthy, (parse_iso_isoformat T V).
  rewrite (strftime_four_digits pad_year T V Y). reflexivity.
Qed.

Lemma status_shows_last_action_witness :
  fmt false (dict_get "last_drink"
               (state (drink_command 42 63850168800000250 true first_run)))
  = Some "2024-05-01 14:00:00".
Proof.
  etransitivity.
  - apply (status_shows_last_action false KDrink 42 63850168800000250 true
             first_run eq_refl).
    vm_compute. discriminate.
  - vm_compute. reflexivity.
Defined.

(* ================================================================== *)
(** ** The document and the scheduler, further *)

Lemma dict_set_twice (k : string) (v v' : json) (d : pydict) :
  dict_set k v (dict_set k v' d) = dict_set k v d.
Proof.
  induction d as [|[k0 v0] d IH]; simpl.
  - rewrite String.eqb_refl. reflexivity.
  - destruct (String.eqb k k0) eqn:E; simpl; rewrite E; [reflexivity|].
    rewrite IH. reflexivity.
Qed.

Lemma record_action_state (k : ActionKind) (c : Z) (T : datetime)
  (net : bool) (w : World) :
  state (record_action k c T net w)
  = dict_set (field_of k) (JStr (isoformat T)) (state w).
Proof. destruct k, net; reflexivity. Qed.

Lemma record_action_disk (k : ActionKind) (c : Z) (T : datetime)
  (net : bool) (w : World) :
  disk (record_action k c T net w)
  = Some (dumps (JObj (state (record_action k c T net w)))).
Proof. destruct k, net; reflexivity. Qed.

Section Store.

Variable utcoffset : datetime -> option Z.

(** X10.  The document of a running bot always has the five keys of
    the default document, in their first order; [users] stays empty and
    [reminders] stays a list. *)
Theorem document_shape (w : World) :
  reachable utcoffset w ->
  exists (lf ld ls : json) (l : list json),
    state w = [("last_feed", lf); ("last_drink", ld); ("last_sleep", ls);
               ("users", JObj []); ("reminders", JArr l)].
Proof. exact (reachable_shaped utcoffset w). Qed.

(** X11.  Recording the same action twice keeps the later time only,
    and in a running bot two different actions can be recorded in
    either order: the state and the file come out the same. *)
Theorem record_actions_compose (k1 k2 : ActionKind) (c1 c2 : Z)
  (T1 T2 : datetime) (n1 n2 : bool) (w : World) :
  reachable utcoffset w ->
  state (record_action k1 c2 T2 n2 (record_action k1 c1 T1 n1 w))
  = state (record_action k1 c2 T2 n2 w) /\
  (k1 <> k2 ->
   state (record_action k2 c2 T2 n2 (record_action k1 c1 T1 n1 w))
   = state (record_action k1 c1 T1 n1 (record_action k2 c2 T2 n2 w)) /\
   disk (record_action k2 c2 T2 n2 (record_action k1 c1 T1 n1 w))
   = disk (record_action k1 c1 T1 n1 (record_action k2 c2 T2 n2 w))).
Proof.
  intros R. split.
  - rewrite !record_action_state. apply dict_set_twice.
  - intros N.
    assert (S : state (record_action k2 c2 T2 n2 (record_action k1 c1 T1 n1 w))
                = state (record_action k1 c1 T1 n1
                           (record_action k2 c2 T2 n2 w))).
    { rewrite !record_action_state.
      destruct (reachable_shaped utcoffset w R) as (lf & ld & ls & l & ->).
      destruct k1, k2; try reflexivity; exfalso; apply N; reflexivity. }
    split; [exact S|].
    rewrite !record_action_disk, S. reflexivity.
Qed.

(** Where the jobs of the scheduler come from: each was there before,
    or is the periodic check, or belongs to a reminder that is stored. *)
Lemma run_jobs_recorded (e : Event) (w w' : World) :
  invariant w -> jobs_invariant w -> jobs_recorded w ->
  run utcoffset e w = Some w' -> jobs_recorded w'.
Proof.
  intros I JI JR R id t c content Hj.
  destruct (run_appends_reminders utcoffset e w w' I R) as [more Hm].
  assert (Old : In (DateJob id t c content) (jobs w) ->
                In (reminder_record id t c content)
                  (stored_reminders (state w'))).
  { intros H. rewrite Hm. apply in_or_app. left. exact (JR _ _ _ _ H). }
  destruct e as [c0 now net|c0 now net|c0 now net|args c0 now net
                |c0 text net| |id0 net|now|]; simpl in R.
  - injection R as <-. apply Old. destruct net; exact Hj.
  - injection R as <-. apply Old. destruct net; exact Hj.
  - injection R as <-. apply Old. destruct net; exact Hj.
  - injection R as <-.
    destruct (remind_command_cases utcoffset args c0 now net w)
      as [(J & _) | (id1 & target & L & T & Id & _)].
    + apply Old. rewrite <- J. exact Hj.
    + destruct (reminder_job_id_timestamp utcoffset _ _ _ Id) as [ts TS].
      destruct (remind_command_succeeds utcoffset args c0 now net w target ts
                  I JI L T TS) as (J & S & _).
      rewrite J in Hj. apply in_app_or in Hj. destruct Hj as [Hj|[Hj|[]]].
      * exact (Old Hj).
      * injection Hj as <- <- <- <-. rewrite S. apply in_or_app. right.
        left. reflexivity.
  - injection R as <-. apply Old. destruct net; exact Hj.
  - injection R as <-. apply Old.
    unfold schedule_periodic_checks, add_job in Hj.
    destruct (existsb _ (jobs w)); [exact Hj|].
    simpl in Hj. apply in_app_or in Hj.
    destruct Hj as [Hj|[Hj|[]]]; [exact Hj | discriminate Hj].
  - apply Old.
    destruct (take_job id0 (jobs w)) as [[j' rest]|] eqn:T.
    + destruct (take_job_sub _ _ _ _ T) as [Sub _].
      destruct j' as [i t0 c1 content0|i m]; injection R as <-.
      * apply Sub. destruct net; exact Hj.
      * exact Hj.
    + injection R as <-. exact Hj.
  - apply Old.
    destruct (existsb _ (jobs w)); injection R as <-; [|exact Hj].
    unfold check_and_notify in Hj.
    destruct (is_due _ _ _) as [[|]|]; exact Hj.
  - unfold start_process in R. rewrite (load_state_saved w I) in R.
    injection R as <-. destruct Hj.
Qed.

Lemma reachable_jobs_recorded (w : World) :
  reachable utcoffset w -> jobs_recorded w.
Proof.
  induction 1 as [|w w' e Rw IH R].
  - intros id t c content [].
  - exact (run_jobs_recorded e w w'
             (reachable_invariant utcoffset w Rw)
             (reachable_jobs_invariant utcoffset w Rw) IH R).
Qed.

(** X12.  In a running bot every reminder job in the scheduler has its
    record in the state, with the same id, chat and text and with
    [run_at] the ISO text of the job's time; and no two jobs share an
    id. *)
Theorem jobs_have_records (w : World) :
  reachable utcoffset w ->
  NoDup (map job_id (jobs w)) /\
  forall (id : string) (t : datetime) (c : Z) (content : string),
    In (DateJob id t c content) (jobs w) ->
    In (JObj [("job_id", JStr id); ("run_at", JStr (isoformat t));
              ("chat_id", JInt c); ("content", JStr content)])
      (stored_reminders (state w)).
Proof.
  intros R. split.
  - exact (proj1 (reachable_jobs_invariant utcoffset w R)).
  - exact (reachable_jobs_recorded w R).
Qed.


End Store.

Lemma record_actions_compose_witness :
  let a := feed_command 1 at_0800 true in
  let b := drink_command 2 at_1400 false in
  state (a (b busy)) = state (b (a busy)) /\
  disk (a (b busy)) = disk (b (a busy)) /\
  state (a (a busy)) = state (a busy).
Proof.
  cbv zeta.
  destruct (record_actions_compose utc KDrink KFeed 2 1 at_1400
              at_0800 false true busy busy_reachable) as [_ C].
  destruct C as [C1 C2]; [discriminate|].
  destruct (record_actions_compose utc KFeed KFeed 1 1 at_0800
              at_0800 true true busy busy_reachable) as [L _].
  repeat split; assumption.
Defined.

Lemma document_shape_witness :
  map fst (state busy)
  = ["last_feed"; "last_drink"; "last_sleep"; "users"; "reminders"].
Proof.
  destruct (document_shape utc busy busy_reachable)
    as (lf & ld & ls & l & ->).
  reflexivity.
Defined.

Lemma jobs_have_records_witness :
  jobs busy
  = [IntervalJob "periodic_check" 30;
     DateJob "remind_3_1714640400" 63850237200000000 42 "water plants"] /\
  In (reminder_record "remind_3_1714640400" 63850237200000000 42 "water plants")
    (stored_reminders (state busy)).
Proof.
  assert (J : jobs busy
              = [IntervalJob "periodic_check" 30;
                 DateJob "remind_3_1714640400" 63850237200000000 42
                   "water plants"]) by (vm_compute; reflexivity).
  split; [exact J|].
  destruct (jobs_have_records utc busy busy_reachable) as [_ H].
  apply (H "remind_3_1714640400" 63850237200000000 42 "water plants").
  rewrite J. right. left. reflexivity.
Defined.


(* ================================================================== *)
(** ** [/remind] at its edges *)

Lemma clock_minutes (k : Z) : 0 <= k < 1440 -> clock_ok k = true.
Proof.
  intros B. apply (range_all_spec 11 clock_ok 0).
  - vm_cast_no_check (eq_refl true).
  - change (2 ^ Z.of_nat 11) with 2048. lia.
Qed.

Lemma clock_text_read (hh mm : Z) (tp : string) :
  0 <= hh < 24 -> 0 <= mm < 60 -> In tp (clock_texts hh mm) ->
  map py_int (split_on ":" tp) = [Some hh; Some mm].
Proof.
  intros Hh Hm I.
  pose proof (clock_minutes (hh * 60 + mm) ltac:(lia)) as C.
  unfold clock_ok in C.
  replace ((hh * 60 + mm) / 60) with hh in C
    by (apply (Z.div_unique _ _ _ mm); lia).
  replace ((hh * 60 + mm) mod 60) with mm in C
    by (apply (Z.mod_unique _ _ hh); lia).
  rewrite forallb_forall in C. specialize (C tp I).
  destruct (map py_int (split_on ":" tp)) as [|[h|] [|[m|] [|]]];
    try discriminate C.
  apply andb_true_iff in C. destruct C as [C1 C2].
  apply Z.eqb_eq in C1, C2. subst. reflexivity.
Qed.

Lemma resolve_target_fields (tp : string) (hh mm : Z) (now target : datetime) :
  map py_int (split_on ":" tp) = [Some hh; Some mm] ->
  resolve_target tp now = Some target ->
  let candidate := combine (toordinal now) hh mm 0 0 in
  (0 <= hh < 24 /\ 0 <= mm < 60) /\
  target = (if candidate <=? now then candidate + US_PER_DAY else candidate) /\
  hour target = hh /\ minute target = mm /\ second target = 0 /\
  microsecond target = 0.
Proof.
  intros P R. cbv zeta.
  destruct (resolve_target_inv _ _ _ R) as (hh' & mm' & P' & [Hh Hm] & E).
  rewrite P in P'. injection P' as <- <-. cbv zeta in E.
  split; [split; assumption|]. split; [exact E|].
  pose proof (combine_fields (toordinal now) hh mm Hh Hm) as F.
  cbv zeta in F. destruct F as (F1 & F2 & F3 & F4 & F5).
  rewrite E. destruct (combine (toordinal now) hh mm 0 0 <=? now).
  - destruct (add_day_fields (combine (toordinal now) hh mm 0 0))
      as (A1 & A2 & A3 & A4 & A5).
    rewrite A2, A3, A4, A5, F2, F3, F4, F5. repeat split.
  - rewrite F2, F3, F4, F5. repeat split.
Qed.

(** X14.  Every time of the 24-hour clock, written [HH:MM] or without
    a leading zero, is accepted by the [try] block of
    [remind_command], on any day but the last one of the calendar, and
    the target has that hour and minute. *)
Theorem every_clock_time_accepted (hh mm : Z) (tp : string) (now : datetime) :
  0 <= hh < 24 -> 0 <= mm < 60 -> In tp (clock_texts hh mm) ->
  1 <= toordinal now < MAXORDINAL ->
  exists target : datetime,
    resolve_target tp now = Some target /\
    hour target = hh /\ minute target = mm /\ second target = 0 /\
    microsecond target = 0.
Proof.
  intros Hh Hm I Hn.
  pose proof (clock_text_read hh mm tp Hh Hm I) as P.
  destruct (resolve_target_total tp hh mm now P Hh Hm Hn) as [target R].
  exists target. split; [exact R|].
  exact (proj2 (proj2 (resolve_target_fields tp hh mm now target P R))).
Qed.

Lemma every_clock_time_accepted_witness :
  exists target : datetime,
    resolve_target "7:05" at_1400 = Some target /\
    hour target = 7 /\ minute target = 5 /\ second target = 0 /\
    microsecond target = 0.
Proof.
  apply (every_clock_time_accepted 7 5 "7:05" at_1400); try lia.
  - right. right. right. left. vm_compute. reflexivity.
  - vm_compute. split; [discriminate | reflexivity].
Defined.

(** X15.  A reminder asked for the minute the clock shows is not due
    at once: it is set for the same minute of the next day, more than
    23 hours 59 minutes and at most 24 hours away. *)
Theorem remind_for_current_minute (tp : string) (now : datetime) :
  map py_int (split_on ":" tp) = [Some (hour now); Some (minute now)] ->
  1 <= toordinal now < MAXORDINAL ->
  exists target : datetime,
    resolve_target tp now = Some target /\
    toordinal target = toordinal now + 1 /\
    hour target = hour now /\ minute target = minute now /\
    US_PER_DAY - US_PER_MINUTE < target - now <= US_PER_DAY.
Proof.
  intros P Hn.
  destruct (time_fields now) as [(Hh & Hm & Hs & Hu) C].
  destruct (resolve_target_total tp _ _ now P Hh Hm Hn) as [target R].
  exists target. split; [exact R|].
  destruct (resolve_target_fields tp _ _ now target P R)
    as (_ & E & F2 & F3 & _).
  cbv zeta in E.
  assert (B : combine (toordinal now) (hour now) (minute now) 0 0 <= now
              /\ now - combine (toordinal now) (hour now) (minute now) 0 0
                 < US_PER_MINUTE).
  { clear. unfold combine, toordinal, hour, minute, time_of_day.
    unfold_units. Z.div_mod_to_equations. lia. }
  destruct B as [B1 B2].
  replace (combine (toordinal now) (hour now) (minute now) 0 0 <=? now)
    with true in E by (symmetry; apply Z.leb_le; exact B1).
  split.
  - rewrite E.
    destruct (add_day_fields (combine (toordinal now) (hour now) (minute now) 0 0))
      as [-> _].
    destruct (combine_fields (toordinal now) (hour now) (minute now) Hh Hm)
      as [-> _].
    reflexivity.
  - split; [exact F2|]. split; [exact F3|]. rewrite E. lia.
Qed.

Lemma remind_for_current_minute_witness :
  exists target : datetime,
    resolve_target "14:00" (at_1400 + 30 * US_PER_SECOND) = Some target /\
    isoformat target = "2024-05-02T14:00:00".
Proof.
  destruct (remind_for_current_minute "14:00" (at_1400 + 30 * US_PER_SECOND))
    as (target & R & _);
    [vm_compute; reflexivity
    | vm_compute; split; [discriminate | reflexivity] |].
  exists target. split; [exact R|].
  vm_compute in R. injection R as <-. vm_compute. reflexivity.
Defined.

(** *** The words of a request *)

Lemma split_on_no_sep (sep : ascii) (s : string) :
  no_char sep s = true -> split_on sep s = [s].
Proof.
  induction s as [|c r IH]; simpl; intros H; [reflexivity|].
  apply andb_true_iff in H. destruct H as [H1 H2].
  apply negb_true_iff in H1. rewrite H1, (IH H2). reflexivity.
Qed.

Lemma split_on_word (sep : ascii) (a rest : string) :
  no_char sep a = true ->
  split_on sep (a ++ String sep rest) = a :: split_on sep rest.
Proof.
  induction a as [|c r IH]; simpl; intros H.
  - rewrite Ascii.eqb_refl. reflexivity.
  - apply andb_true_iff in H. destruct H as [H1 H2].
    apply negb_true_iff in H1. rewrite H1, (IH H2). reflexivity.
Qed.

Lemma split_join (sep : ascii) (words : list string) :
  words <> [] -> forallb (no_char sep) words = true ->
  split_on sep (join (String sep "") words) = words.
Proof.
  induction words as [|a [|b rest] IH]; intros N H.
  - contradiction.
  - simpl in H |- *. apply andb_true_iff in H.
    apply split_on_no_sep. exact (proj1 H).
  - change (join (String sep "") (a :: b :: rest))
      with (a ++ String sep (join (String sep "") (b :: rest))).
    simpl forallb in H. apply andb_true_iff in H. destruct H as [H1 H2].
    rewrite (split_on_word sep a _ H1). f_equal.
    apply IH; [discriminate | exact H2].
Qed.

(** X16.  The link of [/google] holds the keywords as they were typed,
    joined by [+] after the fixed prefix: when no keyword contains a
    [+], splitting the query at [+] gives the keywords back.  Nothing
    is percent-encoded. *)
Theorem google_link_keeps_keywords (args : list string) (c : Z) (net : bool)
  (w : World) :
  args <> [] -> forallb (no_char "+") args = true ->
  exists q : string,
    google_command args c net w
    = reply_text c ("Google 搜尋連結：https://www.google.com/search?q=" ++ q)
        net w /\
    split_on "+" q = args.
Proof.
  intros N H. exists (join "+" args). split.
  - destruct args as [|a rest]; [contradiction | reflexivity].
  - exact (split_join "+" args N H).
Qed.

Lemma google_link_keeps_keywords_witness :
  exists q : string,
    outbox (google_command ["cat"; "food"; "a&b"] 42 true first_run)
    = [(42, "Google 搜尋連結：https://www.google.com/search?q=" ++ q)] /\
    split_on "+" q = ["cat"; "food"; "a&b"].
Proof.
  destruct (google_link_keeps_keywords ["cat"; "food"; "a&b"] 42 true first_run)
    as (q & E & S); [discriminate | reflexivity |].
  exists q. split; [rewrite E; reflexivity | exact S].
Defined.

Section DamagedDocuments.

Variable utcoffset : datetime -> option Z.

Lemma remind_command_unfold (args : list string) (c : Z) (now : datetime)
  (net : bool) (w : World) (target : datetime) (n ts : Z) :
  (2 <= List.length args)%nat ->
  resolve_target (nth 0 args "") now = Some target ->
  py_len (dict_get_or "reminders" (JArr []) (state w)) = Some n ->
  int_timestamp utcoffset target = Some ts ->
  ~ In (reminder_id (n + 1) ts) (map job_id (jobs w)) ->
  let id := reminder_id (n + 1) ts in
  let content := join " " (tl args) in
  let armed := set_jobs (jobs w ++ [DateJob id target c content]) w in
  remind_command utcoffset args c now net w
  = match append_reminder (reminder_record id target c content) (state w) with
    | None => error_handler armed
    | Some st =>
        reply_text c (scheduled_text content target) net
          (save_state st (set_state st armed))
    end.
Proof.
  intros L R Len TS Fresh. cbv zeta.
  apply existsb_job_id in Fresh.
  unfold remind_command. apply Nat.ltb_ge in L. rewrite L, R.
  unfold reminder_job_id. rewrite Len, TS. unfold add_job.
  change ("remind_" ++ str_Z (n + 1) ++ "_" ++ str_Z ts)
    with (reminder_id (n + 1) ts).
  simpl job_id. rewrite Fresh. reflexivity.
Qed.

(** X17.  When the [reminders] of the state is not a list (a state
    file edited by hand can make it so), [/remind] with a good time,
    for a target whose [timestamp()] is [ts], either stops at [len]
    before anything is done, or, for a dictionary or a text, arms the
    timer and then stops at [append]: the job is in the scheduler but
    no record is stored, the file is not written and the user gets no
    answer. *)
Theorem remind_with_reminders_not_a_list (args : list string) (c : Z)
  (now : datetime) (net : bool) (w : World) (target : datetime) (v : json)
  (ts : Z) :
  (2 <= List.length args)%nat ->
  resolve_target (nth 0 args "") now = Some target ->
  int_timestamp utcoffset target = Some ts ->
  dict_find "reminders" (state w) = Some v ->
  (forall l : list json, v <> JArr l) ->
  (forall n : Z, py_len v = Some n ->
     ~ In (reminder_id (n + 1) ts) (map job_id (jobs w))) ->
  let w' := remind_command utcoffset args c now net w in
  state w' = state w /\ disk w' = disk w /\ outbox w' = outbox w /\
  log w' = (log w ++ [LogException "Exception while handling an update: %s"])%list /\
  jobs w'
  = match py_len v with
    | Some n =>
        (jobs w ++ [DateJob (reminder_id (n + 1) ts) target c
                      (join " " (tl args))])%list
    | None => jobs w
    end.
Proof.
  intros L R TS F NL Fresh. cbv zeta.
  assert (G : dict_get_or "reminders" (JArr []) (state w) = v)
    by (unfold dict_get_or; rewrite F; reflexivity).
  destruct (py_len v) as [n|] eqn:Len.
  - rewrite (remind_command_unfold args c now net w target n ts L R
               ltac:(rewrite G; exact Len) TS (Fresh n eq_refl)).
    unfold append_reminder. rewrite F.
    destruct v as [|b|z|s|l|m]; try discriminate Len;
      try (repeat split; fail).
    exfalso. exact (NL l eq_refl).
  - unfold remind_command. pose proof L as L'. apply Nat.ltb_ge in L'.
    rewrite L', R. unfold reminder_job_id. rewrite G, Len.
    repeat split.
Qed.

(** X18.  When the state has no [reminders] key at all, [/remind], for
    a target whose [timestamp()] is [ts], counts no reminder, numbers
    the new one 1, and [setdefault] adds the key, after the keys there
    are, with the one record. *)
Theorem remind_creates_reminders_key (args : list string) (c : Z)
  (now : datetime) (net : bool) (w : World) (target : datetime) (ts : Z) :
  (2 <= List.length args)%nat ->
  resolve_target (nth 0 args "") now = Some target ->
  int_timestamp utcoffset target = Some ts ->
  dict_find "reminders" (state w) = None ->
  let id := reminder_id 1 ts in
  let content := join " " (tl args) in
  ~ In id (map job_id (jobs w)) ->
  let w' := remind_command utcoffset args c now net w in
  state w'
  = (state w ++ [("reminders", JArr [reminder_record id target c content])])%list /\
  disk w' = Some (dumps (JObj (state w'))) /\
  jobs w' = (jobs w ++ [DateJob id target c content])%list.
Proof.
  intros L R TS F id content Fresh. cbv zeta.
  assert (Len : py_len (dict_get_or "reminders" (JArr []) (state w)) = Some 0)
    by (unfold dict_get_or; rewrite F; reflexivity).
  rewrite (remind_command_unfold args c now net w target 0 ts L R Len TS Fresh).
  unfold append_reminder. simpl state. rewrite F.
  destruct net; repeat split.
Qed.

End DamagedDocuments.

Lemma remind_with_reminders_not_a_list_witness :
  let w' := remind_command utc ["09:00"; "buy"; "milk"] 42 at_1400
              true reminders_as_dict in
  job_id_list w' = ["remind_1_1714640400"] /\
  state w' = state reminders_as_dict /\ outbox w' = [] /\
  log w' = [LogException "Exception while handling an update: %s"].
Proof.
  cbv zeta.
  assert (R : resolve_target "09:00" at_1400 = Some 63850237200000000)
    by (vm_compute; reflexivity).
  destruct (remind_with_reminders_not_a_list utc
              ["09:00"; "buy"; "milk"] 42 at_1400 true reminders_as_dict
              63850237200000000 (JObj []) 1714640400)
    as (S & _ & O & G & J).
  - simpl. lia.
  - exact R.
  - vm_compute. reflexivity.
  - vm_compute. reflexivity.
  - intros l. discriminate.
  - intros n _. vm_compute. intros [].
  - split; [|split; [exact S | split; [rewrite O | rewrite G]; reflexivity]].
    unfold job_id_list. rewrite J. vm_compute. reflexivity.
Defined.

Lemma remind_creates_reminders_key_witness :
  let w' := remind_command utc ["09:00"; "buy"; "milk"] 42 at_1400
              true no_reminders_key in
  map fst (state w') = ["last_feed"; "last_drink"; "last_sleep"; "reminders"] /\
  job_id_list w' = ["remind_1_1714640400"].
Proof.
  cbv zeta.
  assert (R : resolve_target "09:00" at_1400 = Some 63850237200000000)
    by (vm_compute; reflexivity).
  destruct (remind_creates_reminders_key utc
              ["09:00"; "buy"; "milk"] 42 at_1400 true no_reminders_key
              63850237200000000 1714640400)
    as (S & _ & J).
  - simpl. lia.
  - exact R.
  - vm_compute. reflexivity.
  - vm_compute. reflexivity.
  - vm_compute. intros [].
  - split.
    + rewrite S. vm_compute. reflexivity.
    + unfold job_id_list. rewrite J. vm_compute. reflexivity.
Defined.
